(** * WhatsApp Business backend: messaging gateway, ingestion pipeline,
      chatbot responder, accounts and webhook routes.

    Shallow embedding of [whatsapp.ts] (classes [WhatsAppService] and
    [ChatbotProcessor]), of the auth module, of the methods of
    [DatabaseStorage] ([storage.ts]) that these call, and of the webhook and
    WebSocket handlers of [routes.ts].  Asynchronous functions are embedded
    in a state-and-exception monad over a [World] (the store, the log of
    HTTP requests and the number of clock readings); each [await] is a
    sequencing point of that monad.  String literals are the bytes of the
    literals in [whatsapp.ts]. *)

From Stdlib Require Import String Ascii List ZArith Bool Lia.
Import ListNotations.

Local Open Scope string_scope.
Local Open Scope bool_scope.

(* ================================================================== *)
(** * JavaScript values and string primitives                          *)
(* ================================================================== *)

Module JS.

(** The escape [\n] of the source's string literals. *)
Definition nl : string := String (ascii_of_nat 10) EmptyString.

(** [String.prototype.includes]: [sub] occurs in [s] at some position. *)
Fixpoint includes (s sub : string) : bool :=
  match s with
  | EmptyString => prefix sub EmptyString
  | String _ rest => prefix sub s || includes rest sub
  end.

(** Truthiness of a string: every string but the empty one. *)
Definition truthy_string (s : string) : bool :=
  match s with EmptyString => false | String _ _ => true end.

(** Truthiness of a [string | null | undefined] value. *)
Definition truthy_opt (o : option string) : bool :=
  match o with Some s => truthy_string s | None => false end.

(** [o || d] at type [string | null | undefined]. *)
Definition or_string (o : option string) (d : string) : string :=
  match o with
  | Some s => if truthy_string s then s else d
  | None => d
  end.

(** [Array.prototype.some] is [List.existsb]. *)
Definition some {A} (p : A -> bool) (l : list A) : bool := existsb p l.

#[local] Set Warnings "-register-all".

(** Values that reach the code through [response.json()], closed under the
    property accesses the code performs on them.  A number is kept as its
    IEEE-754 binary64 bit pattern. *)
Inductive value : Type :=
| Undefined
| Null
| Bool (b : bool)
| Num (bits : Z)
| Str (s : string)
| Arr (items : list value)
| Obj (props : list (string * value)).

(** A number is falsy when it is +0, -0 or a NaN. *)
Definition falsy_bits (bits : Z) : bool :=
  let magnitude := Z.land bits 0x7FFFFFFFFFFFFFFF in
  (magnitude =? 0)%Z || (0x7FF0000000000000 <? magnitude)%Z.

Definition truthy (v : value) : bool :=
  match v with
  | Undefined | Null => false
  | Bool b => b
  | Num bits => negb (falsy_bits bits)
  | Str s => truthy_string s
  | Arr _ | Obj _ => true
  end.

(** [a || b] on values. *)
Definition or_value (a b : value) : value := if truthy a then a else b.

(** Own property of a parsed JSON object (the first binding of the key). *)
Fixpoint own (props : list (string * value)) (key : string) : value :=
  match props with
  | [] => Undefined
  | (k, v) :: rest => if (k =? key)%string then v else own rest key
  end.

(** What a rejected promise or a failed property access throws: an [Error]
    instance ([TypeError], [SyntaxError], ...) with its message, or a value
    that is no [Error]. *)
Inductive thrown : Type :=
| ErrorObject (message : string)
| NotAnError.

(** [v.key] for the keys the code reads ([error], [message], [messages],
    [id], [url]): a [TypeError] on [null] and [undefined], the own property
    of an object, [undefined] on every other value (none of these keys is
    inherited from a prototype). *)
Definition get (v : value) (key : string) : value + thrown :=
  match v with
  | Undefined | Null =>
      inr (ErrorObject "Cannot read properties of null or undefined")
  | Obj props => inl (own props key)
  | _ => inl Undefined
  end.

(** [v?.key]: [undefined] on [null] and [undefined], [v.key] otherwise. *)
Definition get_opt (v : value) (key : string) : value :=
  match v with
  | Obj props => own props key
  | _ => Undefined
  end.

(** [v?.[0]]. *)
Definition index0_opt (v : value) : value :=
  match v with
  | Arr (x :: _) => x
  | Str (String c _) => Str (String c EmptyString)
  | Obj props => own props "0"
  | _ => Undefined
  end.

End JS.

(* ================================================================== *)
(** * Data model ([@shared/schema])                                    *)
(* ================================================================== *)

(** The [type] of a message. *)
Module MessageType.
Inductive t : Type := text | image | audio | video | document.

(** [`[${type.toUpperCase()}]`], the content stored for a media message. *)
Definition upperTag (type : t) : string :=
  match type with
  | text => "[TEXT]"
  | image => "[IMAGE]"
  | audio => "[AUDIO]"
  | video => "[VIDEO]"
  | document => "[DOCUMENT]"
  end.
End MessageType.

Inductive Direction : Type := inbound | outbound.

Module WhatsappAccount.
Record t : Type := make
  { id : string; userId : string; phoneNumberId : string }.
End WhatsappAccount.

Module Contact.
Record t : Type := make
  { id : string;
    userId : string;
    whatsappAccountId : string;
    name : string;
    phone : string;
    lastMessageAt : option Z }.
End Contact.

Module Conversation.
Record t : Type := make
  { id : string;
    userId : string;
    contactId : string;
    whatsappAccountId : string;
    unreadCount : option Z;
    lastMessageAt : option Z }.
End Conversation.

Module Message.
Record t : Type := make
  { id : string;
    conversationId : string;
    contactId : string;
    whatsappMessageId : JS.value;
    direction : Direction;
    type : MessageType.t;
    content : option string;
    mediaUrl : JS.value;
    status : string;
    isFromBot : bool }.
End Message.

Module Chatbot.
Record t : Type := make
  { id : string;
    userId : string;
    name : string;
    template : string;
    isActive : bool }.
End Chatbot.

Module BotInteraction.
Record t : Type := make
  { id : string;
    chatbotId : string;
    contactId : string;
    messageId : string;
    trigger : string;
    response : string;
    wasEscalated : bool;
    responseTime : Z }.
End BotInteraction.

Module User.
Record t : Type := make
  { id : string;
    email : option string;
    password : option string;
    role : string;
    lastLogin : option Z }.
End User.

(* ================================================================== *)
(** * The store ([storage.ts], class [DatabaseStorage])                *)
(* ================================================================== *)

Module Storage.

(** Modelled from the spec: the tables of [@shared/schema] and the database
    behind [./db], which are not part of the sources.  Following the data
    model of the specification, the store holds one table per entity, each a
    list of rows; a [select] without [orderBy] reads the rows in insertion
    order; nothing enforces uniqueness of (phone, userId). *)
Record Store : Type := mkStore
  { accounts : list WhatsappAccount.t;
    contacts : list Contact.t;
    conversations : list Conversation.t;
    messages : list Message.t;
    chatbots : list Chatbot.t;
    botInteractions : list BotInteraction.t;
    users : list User.t }.

Definition with_contacts (st : Store) (l : list Contact.t) : Store :=
  mkStore (accounts st) l (conversations st) (messages st) (chatbots st)
          (botInteractions st) (users st).

Definition with_conversations (st : Store) (l : list Conversation.t) : Store :=
  mkStore (accounts st) (contacts st) l (messages st) (chatbots st)
          (botInteractions st) (users st).

Definition with_messages (st : Store) (l : list Message.t) : Store :=
  mkStore (accounts st) (contacts st) (conversations st) l (chatbots st)
          (botInteractions st) (users st).

Definition with_botInteractions (st : Store) (l : list BotInteraction.t) : Store :=
  mkStore (accounts st) (contacts st) (conversations st) (messages st)
          (chatbots st) l (users st).

Definition with_users (st : Store) (l : list User.t) : Store :=
  mkStore (accounts st) (contacts st) (conversations st) (messages st)
          (chatbots st) (botInteractions st) l.

(** Modelled from the spec: the argument type [Partial<Contact>] of
    [updateContact], a type of [@shared/schema]; [Some v] when the key is
    present with the value [v], [None] when it is absent or [undefined]. *)
Record ContactPatch : Type := mkContactPatch
  { set_name : option string;
    set_phone : option string;
    set_contactLastMessageAt : option Z }.

(** Modelled from the spec: [Partial<Conversation>]. *)
Record ConversationPatch : Type := mkConversationPatch
  { set_unreadCount : option Z;
    set_lastMessageAt : option Z }.

(** Modelled from the spec: [Partial<Message>]. *)
Record MessagePatch : Type := mkMessagePatch
  { set_isFromBot : option bool;
    set_status : option string }.

(** Modelled from the spec: [Partial<User>]. *)
Record UserPatch : Type := mkUserPatch
  { set_role : option string;
    set_lastLogin : option Z }.

(** The object has no key with a value. *)
Definition noContactValue (p : ContactPatch) : bool :=
  match set_name p, set_phone p, set_contactLastMessageAt p with
  | None, None, None => true
  | _, _, _ => false
  end.

Definition noConversationValue (p : ConversationPatch) : bool :=
  match set_unreadCount p, set_lastMessageAt p with
  | None, None => true
  | _, _ => false
  end.

Definition noMessageValue (p : MessagePatch) : bool :=
  match set_isFromBot p, set_status p with
  | None, None => true
  | _, _ => false
  end.

Definition noUserValue (p : UserPatch) : bool :=
  match set_role p, set_lastLogin p with
  | None, None => true
  | _, _ => false
  end.

Definition override {A} (new : option A) (old : A) : A :=
  match new with Some v => v | None => old end.

Definition override_opt {A} (new : option A) (old : option A) : option A :=
  match new with Some v => Some v | None => old end.

(** [SET] of the given columns in one row. *)
Definition patchContact (p : ContactPatch) (c : Contact.t) : Contact.t :=
  Contact.make (Contact.id c) (Contact.userId c) (Contact.whatsappAccountId c)
    (override (set_name p) (Contact.name c))
    (override (set_phone p) (Contact.phone c))
    (override_opt (set_contactLastMessageAt p) (Contact.lastMessageAt c)).

Definition patchConversation (p : ConversationPatch) (c : Conversation.t)
  : Conversation.t :=
  Conversation.make (Conversation.id c) (Conversation.userId c)
    (Conversation.contactId c) (Conversation.whatsappAccountId c)
    (override_opt (set_unreadCount p) (Conversation.unreadCount c))
    (override_opt (set_lastMessageAt p) (Conversation.lastMessageAt c)).

Definition patchMessage (p : MessagePatch) (m : Message.t) : Message.t :=
  Message.make (Message.id m) (Message.conversationId m) (Message.contactId m)
    (Message.whatsappMessageId m) (Message.direction m) (Message.type m)
    (Message.content m) (Message.mediaUrl m)
    (override (set_status p) (Message.status m))
    (override (set_isFromBot p) (Message.isFromBot m)).

Definition patchUser (p : UserPatch) (u : User.t) : User.t :=
  User.make (User.id u) (User.email u) (User.password u)
    (override (set_role p) (User.role u))
    (override_opt (set_lastLogin p) (User.lastLogin u)).

(** The value a nullable column holds after an [insert]: a key whose value
    is [undefined] is left out of the statement, and the column is [null]. *)
Definition column (v : JS.value) : JS.value :=
  match v with
  | JS.Undefined => JS.Null
  | _ => v
  end.

(** What [db.update(table).set(updates).where(...).returning()] does:
    [set] throws [Error("No values to set")] when [updates] has no key with
    a value; otherwise the statement runs and the first row it returns is
    the method's result, [None] standing for [undefined]. *)
Inductive Update (A : Type) : Type :=
| Updated (row : option A) (st : Store)
| NoValuesToSet.

Arguments Updated {A} row st.
Arguments NoValuesToSet {A}.

(** [DatabaseStorage.getWhatsappAccount]: the first row of
    [select().from(whatsappAccounts).where(eq(whatsappAccounts.id, id))],
    [None] standing for [undefined]. *)
Definition getWhatsappAccount (st : Store) (id : string) : option WhatsappAccount.t :=
  find (fun a => WhatsappAccount.id a =? id) (accounts st).

(** [DatabaseStorage.getContact]. *)
Definition getContact (st : Store) (id : string) : option Contact.t :=
  find (fun c => Contact.id c =? id) (contacts st).

(** [DatabaseStorage.getContactByPhone]: the first row with
    [and(eq(contacts.phone, phone), eq(contacts.userId, userId))]. *)
Definition getContactByPhone (st : Store) (phone userId : string) : option Contact.t :=
  find (fun c => (Contact.phone c =? phone) && (Contact.userId c =? userId))
       (contacts st).

(** [DatabaseStorage.getConversation]. *)
Definition getConversation (st : Store) (id : string) : option Conversation.t :=
  find (fun c => Conversation.id c =? id) (conversations st).

(** [DatabaseStorage.getConversationByContact]. *)
Definition getConversationByContact (st : Store) (contactId : string)
  : option Conversation.t :=
  find (fun c => Conversation.contactId c =? contactId) (conversations st).

(** [DatabaseStorage.getChatbot]. *)
Definition getChatbot (st : Store) (id : string) : option Chatbot.t :=
  find (fun b => Chatbot.id b =? id) (chatbots st).

(** [DatabaseStorage.getUserByEmail]: the first row with
    [eq(users.email, email)]; a row without email matches none. *)
Definition getUserByEmail (st : Store) (email : string) : option User.t :=
  find (fun u => match User.email u with
                 | Some e => e =? email
                 | None => false
                 end) (users st).

(** [DatabaseStorage.createContact]: [insert(contacts).values(...)
    .returning()] appends a row and returns it.  The row carries the key
    [id] the database hands out for it; [lastMessageAt], for which the
    callers give no value, is [null]. *)
Definition createContact (id userId whatsappAccountId name phone : string)
  (st : Store) : Contact.t * Store :=
  let c := Contact.make id userId whatsappAccountId name phone None in
  (c, with_contacts st (contacts st ++ [c])).

(** [DatabaseStorage.createConversation]. *)
Definition createConversation (id userId contactId whatsappAccountId : string)
  (unreadCount : Z) (st : Store) : Conversation.t * Store :=
  let c := Conversation.make id userId contactId whatsappAccountId
             (Some unreadCount) None in
  (c, with_conversations st (conversations st ++ [c])).

(** [DatabaseStorage.createMessage]: the row returned is the stored one, so
    a [whatsappMessageId] or [mediaUrl] given as [undefined] reads [null] in
    it; [isFromBot], for which the callers give no value, is [false]. *)
Definition createMessage (id conversationId contactId : string)
  (whatsappMessageId : JS.value) (direction : Direction) (type : MessageType.t)
  (content : string) (mediaUrl : JS.value) (status : string) (st : Store)
  : Message.t * Store :=
  let m := Message.make id conversationId contactId (column whatsappMessageId)
             direction type (Some content) (column mediaUrl) status false in
  (m, with_messages st (messages st ++ [m])).

(** [DatabaseStorage.createBotInteraction]. *)
Definition createBotInteraction (id chatbotId contactId messageId trigger
  response : string) (wasEscalated : bool) (responseTime : Z) (st : Store)
  : BotInteraction.t * Store :=
  let i := BotInteraction.make id chatbotId contactId messageId trigger
             response wasEscalated responseTime in
  (i, with_botInteractions st (botInteractions st ++ [i])).

(** [DatabaseStorage.updateContact]:
    [update(contacts).set(updates).where(eq(contacts.id, id)).returning()].
    With an object that has no value, as in [updateContact(id, {})], [set]
    throws; otherwise the given columns are set in the rows with the key and
    the first of them is returned. *)
Definition updateContact (id : string) (updates : ContactPatch) (st : Store)
  : Update Contact.t :=
  if noContactValue updates then NoValuesToSet
  else
    let st' := with_contacts st
                 (map (fun c => if Contact.id c =? id
                                then patchContact updates c else c)
                      (contacts st)) in
    Updated (getContact st' id) st'.

(** [DatabaseStorage.updateConversation]. *)
Definition updateConversation (id : string) (updates : ConversationPatch)
  (st : Store) : Update Conversation.t :=
  if noConversationValue updates then NoValuesToSet
  else
    let st' := with_conversations st
                 (map (fun c => if Conversation.id c =? id
                                then patchConversation updates c else c)
                      (conversations st)) in
    Updated (getConversation st' id) st'.

(** [DatabaseStorage.updateMessage]. *)
Definition updateMessage (id : string) (updates : MessagePatch) (st : Store)
  : Update Message.t :=
  if noMessageValue updates then NoValuesToSet
  else
    let st' := with_messages st
                 (map (fun m => if Message.id m =? id
                                then patchMessage updates m else m)
                      (messages st)) in
    Updated (find (fun m => Message.id m =? id) (messages st')) st'.

(** [DatabaseStorage.updateUser]. *)
Definition updateUser (id : string) (updates : UserPatch) (st : Store)
  : Update User.t :=
  if noUserValue updates then NoValuesToSet
  else
    let st' := with_users st
                 (map (fun u => if User.id u =? id
                                then patchUser updates u else u)
                      (users st)) in
    Updated (find (fun u => User.id u =? id) (users st')) st'.

End Storage.

(* ================================================================== *)
(** * HTTP exchange with the provider                                  *)
(* ================================================================== *)

Record MediaLink : Type := mkMediaLink
  { link : string; caption : option string; filename : option string }.

(** The interface [WhatsAppMessage]; its constant field
    [messaging_product: "whatsapp"] carries no information and is left out. *)
Module WhatsAppMessage.
Record t : Type := make
  { to : string;
    type : MessageType.t;
    text : option string;
    image : option MediaLink;
    audio : option MediaLink;
    video : option MediaLink;
    document : option MediaLink }.
End WhatsAppMessage.

Record IncomingMedia : Type := mkIncomingMedia
  { media_id : string; mime_type : string; sha256 : string }.

(** The interface [IncomingWhatsAppMessage]; [text] holds [text.body]. *)
Module IncomingWhatsAppMessage.
Record t : Type := make
  { from : string;
    id : string;
    timestamp : string;
    type : MessageType.t;
    text : option string;
    image : option IncomingMedia;
    audio : option IncomingMedia;
    video : option IncomingMedia;
    document : option IncomingMedia }.
End IncomingWhatsAppMessage.

Inductive Request : Type :=
| POST (url authorization : string) (body : WhatsAppMessage.t)
| GET (url authorization : string).

(** Outcome of [await response.json()]. *)
Inductive JsonResult : Type :=
| JsonParsed (data : JS.value)
| JsonRejected (e : JS.thrown).

(** Outcome of [await fetch(...)] followed by [response.json()]. *)
Inductive FetchResult : Type :=
| FetchRejected (e : JS.thrown)
| Response (ok : bool) (json : JsonResult).

(* ================================================================== *)
(** * The runtime the code runs against                                *)
(* ================================================================== *)

(** Environment variables read at module load. *)
Record ProcessEnv : Type := mkProcessEnv
  { env_ACCESS_TOKEN : option string;
    env_WHATSAPP_TOKEN : option string;
    env_PHONE_NUMBER_ID : option string;
    env_VERIFY_TOKEN : option string;
    env_JWT_SECRET : option string }.

(** Everything the code takes from outside itself: the string library, the
    provider's answers (as a function of the earlier requests and the current
    one), the clock (its n-th reading, in milliseconds), the keys the store
    hands out, bcrypt and the process environment. *)
Record Runtime : Type := mkRuntime
  { toLowerCase : string -> string;
    fetch : list Request -> Request -> FetchResult;
    now : nat -> Z;
    newId : Storage.Store -> string;
    bcrypt_compare : string -> string -> bool;
    env : ProcessEnv }.

Record World : Type := mkWorld
  { store : Storage.Store;
    requests : list Request;
    clockReads : nat }.

(** What the code of [whatsapp.ts] throws: [new Error(message)], the error
    [new Error(`Failed to send WhatsApp message: ${error}`)] of the outgoing
    path, kept with the interpolated value, and the [TypeError] of a member
    access on [undefined]. *)
Inductive exn : Type :=
| Error (message : string)
| SendError (error : JS.value)
| TypeError (message : string).

Inductive completion (A : Type) : Type :=
| Returned (a : A)
| Thrown (e : exn).

Arguments Returned {A} a.
Arguments Thrown {A} e.

(** An asynchronous function body: it transforms the world and either returns
    or throws.  Writes made before a throw stay in the world (no
    transaction). *)
Definition M (A : Type) : Type := World -> completion A * World.

Definition ret {A} (a : A) : M A := fun w => (Returned a, w).

Definition throw {A} (e : exn) : M A := fun w => (Thrown e, w).

Definition bind {A B} (c : M A) (k : A -> M B) : M B :=
  fun w =>
    match c w with
    | (Returned a, w') => k a w'
    | (Thrown e, w') => (Thrown e, w')
    end.

Declare Scope async_scope.
Delimit Scope async_scope with async.

Notation "x <- c ;; k" := (bind c (fun x => k))
  (at level 100, c at next level, right associativity) : async_scope.
Notation "c ;;; k" := (bind c (fun _ => k))
  (at level 100, right associativity) : async_scope.

Local Open Scope async_scope.

(** A read of the store. *)
Definition query {A} (f : Storage.Store -> A) : M A :=
  fun w => (Returned (f (store w)), w).

(** A write to the store. *)
Definition command {A} (f : Storage.Store -> A * Storage.Store) : M A :=
  fun w =>
    let (a, st) := f (store w) in
    (Returned a, mkWorld st (requests w) (clockReads w)).

(** A call of an update method of the store: it writes, or throws what
    drizzle's [set] throws. *)
Definition update {A} (f : Storage.Store -> Storage.Update A) : M (option A) :=
  fun w =>
    match f (store w) with
    | Storage.Updated row st =>
        (Returned row, mkWorld st (requests w) (clockReads w))
    | Storage.NoValuesToSet => (Thrown (Error "No values to set"), w)
    end.

(** The key of the row about to be created. *)
Definition freshId (R : Runtime) : M string :=
  fun w => (Returned (newId R (store w)), w).

(** [await fetch(...)] with [await response.json()]: the request is logged
    and the provider answers. *)
Definition doFetch (R : Runtime) (req : Request) : M FetchResult :=
  fun w =>
    (Returned (fetch R (requests w) req),
     mkWorld (store w) (requests w ++ [req]) (clockReads w)).

(** [Date.now()] and [new Date()]: the next reading of the clock. *)
Definition dateNow (R : Runtime) : M Z :=
  fun w =>
    (Returned (now R (clockReads w)),
     mkWorld (store w) (requests w) (S (clockReads w))).

(** Member access on a value that may be [undefined]. *)
Definition defined {A} (o : option A) : M A :=
  match o with
  | Some a => ret a
  | None => throw (TypeError "Cannot read properties of undefined")
  end.

(** [`${s}`] for [s : string | null]. *)
Definition interpolate (o : option string) : string :=
  match o with Some s => s | None => "null" end.

(* ================================================================== *)
(** * Messaging gateway and ingestion pipeline: [WhatsAppService]      *)
(* ================================================================== *)

Definition WHATSAPP_API_URL : string := "https://graph.facebook.com/v18.0".

(** [a || b] on [string | null] values read from the environment. *)
Definition or_env (a b : option string) : option string :=
  if JS.truthy_opt a then a else b.

Definition ACCESS_TOKEN (e : ProcessEnv) : option string :=
  or_env (or_env (env_ACCESS_TOKEN e) (env_WHATSAPP_TOKEN e)) None.

Definition PHONE_NUMBER_ID (e : ProcessEnv) : option string :=
  or_env (env_PHONE_NUMBER_ID e) None.

Definition VERIFY_TOKEN (e : ProcessEnv) : string :=
  JS.or_string (env_VERIFY_TOKEN e) "mi_token_de_verificacion".

Module WhatsAppService.

Record t : Type := make
  { accessToken : option string; phoneNumberId : option string }.

(** The exported singleton [new WhatsAppService()]. *)
Definition whatsappService (e : ProcessEnv) : t :=
  make (ACCESS_TOKEN e) (PHONE_NUMBER_ID e).

(** The result object of the send functions; a key that the object literal
    does not set reads as [undefined]. *)
Record SendResult : Type := mkSendResult
  { success : bool; messageId : JS.value; error : JS.value }.

Definition validateCredentials (this : t) : bool :=
  JS.truthy_opt (accessToken this) && JS.truthy_opt (phoneNumberId this).

Definition isConfigured (this : t) : bool := validateCredentials this.

(** The statements of the [try] block of [sendMessage] that follow the two
    awaits. *)
Definition sendMessage_try (answer : FetchResult) : SendResult + JS.thrown :=
  match answer with
  | FetchRejected e => inr e
  | Response _ (JsonRejected e) => inr e
  | Response ok (JsonParsed data) =>
      if negb ok then
        match JS.get data "error" with
        | inr e => inr e
        | inl err =>
            inl (mkSendResult false JS.Undefined
                   (JS.or_value (JS.get_opt err "message")
                                (JS.Str "Failed to send message")))
        end
      else
        match JS.get data "messages" with
        | inr e => inr e
        | inl msgs =>
            inl (mkSendResult true
                   (JS.get_opt (JS.index0_opt msgs) "id") JS.Undefined)
        end
  end.

(** The [catch] block of [sendMessage]. *)
Definition sendMessage_catch (e : JS.thrown) : SendResult :=
  mkSendResult false JS.Undefined
    (JS.Str match e with
            | JS.ErrorObject message => message
            | JS.NotAnError => "Unknown error"
            end).

(** The request of [sendMessage]: a POST of the message to
    [`${WHATSAPP_API_URL}/${this.phoneNumberId}/messages`]. *)
Definition messagesRequest (this : t) (message : WhatsAppMessage.t) : Request :=
  POST (WHATSAPP_API_URL ++ "/" ++ interpolate (phoneNumberId this)
          ++ "/messages")
       ("Bearer " ++ interpolate (accessToken this))
       message.

(** The message built by [sendTextMessage]. *)
Definition textMessage (to text : string) : WhatsAppMessage.t :=
  WhatsAppMessage.make to MessageType.text (Some text) None None None None.

Definition sendMessage (R : Runtime) (this : t) (message : WhatsAppMessage.t)
  : M SendResult :=
  if negb (validateCredentials this) then
    ret (mkSendResult false JS.Undefined
           (JS.Str "WhatsApp credentials not configured"))
  else
    answer <- doFetch R (messagesRequest this message) ;;
    match sendMessage_try answer with
    | inl result => ret result
    | inr e => ret (sendMessage_catch e)
    end.

Definition sendTextMessage (R : Runtime) (this : t) (to text : string)
  : M SendResult :=
  if negb (validateCredentials this) then
    ret (mkSendResult false JS.Undefined
           (JS.Str "WhatsApp credentials not configured"))
  else
    sendMessage R this (textMessage to text).

(** [getMediaUrl]: [data.url || null], and [null] when anything throws. *)
Definition getMediaUrl (R : Runtime) (this : t) (mediaId : string) : M JS.value :=
  answer <- doFetch R
              (GET (WHATSAPP_API_URL ++ "/" ++ mediaId)
                   ("Bearer " ++ interpolate (accessToken this))) ;;
  match answer with
  | Response _ (JsonParsed data) =>
      match JS.get data "url" with
      | inl url => ret (JS.or_value url JS.Null)
      | inr _ => ret JS.Null
      end
  | _ => ret JS.Null
  end.

Definition verifyWebhook (e : ProcessEnv) (verifyToken mode challenge : string)
  : option string :=
  if (mode =? "subscribe") && (verifyToken =? VERIFY_TOKEN e) then
    Some challenge
  else
    None.

(** The object returned by [processIncomingMessage]. *)
Record Incoming : Type := mkIncoming
  { contact : Contact.t; message : Message.t; conversation : Conversation.t }.

(** [(incomingMessage as any)[incomingMessage.type]]. *)
Definition attachment (m : IncomingWhatsAppMessage.t) : option IncomingMedia :=
  match IncomingWhatsAppMessage.type m with
  | MessageType.text => None
  | MessageType.image => IncomingWhatsAppMessage.image m
  | MessageType.audio => IncomingWhatsAppMessage.audio m
  | MessageType.video => IncomingWhatsAppMessage.video m
  | MessageType.document => IncomingWhatsAppMessage.document m
  end.

(** [n || 0] on a nullable counter. *)
Definition or_zero (n : option Z) : Z :=
  match n with Some v => v | None => 0%Z end.

(** The block [// Find or create contact] of [processIncomingMessage]; the
    result is the value of [contact], which the source reads without a check
    ([contact.id]).  For a known contact the block calls
    [storage.updateContact(contact.id, {})], an update without a value. *)
Definition findOrCreateContact (R : Runtime)
  (whatsappAccountId phone userId : string) : M (option Contact.t) :=
  found <- query (fun st => Storage.getContactByPhone st phone userId) ;;
  match found with
  | None =>
      id <- freshId R ;;
      created <- command (Storage.createContact id userId whatsappAccountId
                            phone phone) ;;
      ret (Some created)
  | Some existing =>
      (* Update last message time *)
      update (Storage.updateContact (Contact.id existing)
                 (Storage.mkContactPatch None None None))
  end.

(** The block [// Find or create conversation]. *)
Definition findOrCreateConversation (R : Runtime)
  (whatsappAccountId userId : string) (contact : Contact.t)
  : M (option Conversation.t) :=
  found <- query (fun st =>
             Storage.getConversationByContact st (Contact.id contact)) ;;
  match found with
  | None =>
      id <- freshId R ;;
      created <- command (Storage.createConversation id userId
                            (Contact.id contact) whatsappAccountId 1%Z) ;;
      ret (Some created)
  | Some existing =>
      (* Update conversation *)
      update (Storage.updateConversation (Conversation.id existing)
                 (Storage.mkConversationPatch
                    (Some (or_zero (Conversation.unreadCount existing) + 1)%Z)
                    None))
  end.

(** The [switch] on the message type: the values of [content] and
    [mediaUrl]. *)
Definition readContent (R : Runtime) (this : t)
  (incomingMessage : IncomingWhatsAppMessage.t) : M (string * JS.value) :=
  match IncomingWhatsAppMessage.type incomingMessage with
  | MessageType.text =>
      ret (JS.or_string (IncomingWhatsAppMessage.text incomingMessage)
             EmptyString,
           JS.Undefined)
  | type =>
      mediaUrl <-
        match attachment incomingMessage with
        | Some media =>
            if JS.truthy_string (media_id media)
            then getMediaUrl R this (media_id media)
            else ret JS.Undefined
        | None => ret JS.Undefined
        end ;;
      ret (MessageType.upperTag type, mediaUrl)
  end.

Definition processIncomingMessage (R : Runtime) (this : t)
  (whatsappAccountId : string) (incomingMessage : IncomingWhatsAppMessage.t)
  : M Incoming :=
  let phone := IncomingWhatsAppMessage.from incomingMessage in
  whatsappAccount <-
    query (fun st => Storage.getWhatsappAccount st whatsappAccountId) ;;
  match whatsappAccount with
  | None => throw (Error "WhatsApp account not found")
  | Some whatsappAccount =>
      let userId := WhatsappAccount.userId whatsappAccount in
      contact <- findOrCreateContact R whatsappAccountId phone userId ;;
      contact <- defined contact ;;
      conversation <- findOrCreateConversation R whatsappAccountId userId
                        contact ;;
      (* Create message *)
      body <- readContent R this incomingMessage ;;
      conversation <- defined conversation ;;
      id <- freshId R ;;
      message <- command (Storage.createMessage id
                            (Conversation.id conversation) (Contact.id contact)
                            (JS.Str (IncomingWhatsAppMessage.id incomingMessage))
                            inbound
                            (IncomingWhatsAppMessage.type incomingMessage)
                            (fst body) (snd body) "delivered") ;;
      ret (mkIncoming contact message conversation)
  end.

Definition processOutgoingMessage (R : Runtime) (this : t)
  (conversationId contactId content : string) (type : MessageType.t)
  : M Message.t :=
  contact <- query (fun st => Storage.getContact st contactId) ;;
  match contact with
  | None => throw (Error "Contact not found")
  | Some contact =>
      (* Send message via WhatsApp API *)
      result <- sendTextMessage R this (Contact.phone contact) content ;;
      if negb (success result) then
        throw (SendError (error result))
      else
        (* Save outgoing message *)
        id <- freshId R ;;
        message <- command (Storage.createMessage id conversationId contactId
                              (messageId result) outbound type content
                              JS.Undefined "sent") ;;
        (* Update conversation *)
        conversation <- query (fun st => Storage.getConversation st conversationId) ;;
        match conversation with
        | Some _ =>
            date <- dateNow R ;;
            update (Storage.updateConversation conversationId
                       (Storage.mkConversationPatch None (Some date))) ;;;
            ret message
        | None => ret message
        end
  end.

End WhatsAppService.

(* ================================================================== *)
(** * Chatbot responder: [ChatbotProcessor]                            *)
(* ================================================================== *)

Module ChatbotProcessor.

Record t : Type := make { whatsappService : WhatsAppService.t }.

(** A response template: keyword lists by category, in the order of the
    object literal. *)
Definition Template : Type := list (string * list string).

Definition corporate : Template :=
    [
     ("greetings", ["hola"; "buenos d√≠as"; "buenas tardes"; "buenas noches"]);
     ("pricing", ["precio"; "costo"; "tarifa"; "cu√°nto cuesta"]);
     ("info", ["informaci√≥n"; "info"; "detalles"; "m√°s info"]);
     ("support", ["ayuda"; "soporte"; "problema"; "asistencia"])
    ].

Definition ecommerce : Template :=
    [
     ("products", ["productos"; "cat√°logo"; "qu√© venden"; "disponible"]);
     ("orders", ["pedido"; "orden"; "comprar"; "ordenar"]);
     ("shipping", ["env√≠o"; "entrega"; "delivery"; "tiempo"]);
     ("returns", ["devoluci√≥n"; "cambio"; "garant√≠a"; "reembolso"])
    ].

Definition healthcare : Template :=
    [
     ("appointments", ["cita"; "turno"; "consulta"; "agenda"]);
     ("services", ["servicios"; "tratamientos"; "especialidades"]);
     ("hours", ["horario"; "horarios"; "cu√°ndo"; "abierto"]);
     ("emergency", ["emergencia"; "urgente"; "urgencia"])
    ].

Definition templates : list (string * Template) :=
  [("corporate", corporate); ("ecommerce", ecommerce); ("healthcare", healthcare)].

(** The property names every object literal inherits from
    [Object.prototype]. *)
Definition objectPrototypeKeys : list string :=
  ["constructor"; "__defineGetter__"; "__defineSetter__"; "hasOwnProperty";
   "__lookupGetter__"; "__lookupSetter__"; "isPrototypeOf";
   "propertyIsEnumerable"; "toString"; "valueOf"; "__proto__";
   "toLocaleString"].

(** Outcome of the dynamic lookup [templates[chatbot.template]]: one of the
    three tables, a member inherited from [Object.prototype] (truthy, without
    keyword lists) or [undefined]. *)
Inductive Lookup : Type :=
| Own (template : Template)
| Inherited
| Missing.

Fixpoint assoc {A} (key : string) (l : list (string * A)) : option A :=
  match l with
  | [] => None
  | (k, v) :: rest => if k =? key then Some v else assoc key rest
  end.

Definition lookupTemplate (name : string) : Lookup :=
  match assoc name templates with
  | Some template => Own template
  | None =>
      if existsb (String.eqb name) objectPrototypeKeys then Inherited
      else Missing
  end.

(** [template.category?.some(word => content.includes(word))]: [undefined],
    hence falsy, when the template has no such category. *)
Definition someIncluded (template : Template) (category content : string) : bool :=
  match assoc category template with
  | Some words => JS.some (fun word => JS.includes content word) words
  | None => false
  end.

Definition unknownTemplateResponse : string :=
  "Gracias por tu mensaje. Un representante se pondr√° en contacto contigo pronto.".

Definition greetingResponse (name : string) : string :=
  "¬°Hola! Soy el asistente virtual de " ++ name ++ ". ¬øEn qu√© puedo ayudarte hoy?".

Definition pricingResponse : string :=
  "Tenemos varios planes disponibles:"
    ++ JS.nl
    ++ JS.nl
    ++ "üìä Plan B√°sico: $299/mes"
    ++ JS.nl
    ++ "üöÄ Plan Professional: $599/mes"
    ++ JS.nl
    ++ "‚≠ê Plan Enterprise: $999/mes"
    ++ JS.nl
    ++ JS.nl
    ++ "¬øTe gustar√≠a m√°s informaci√≥n sobre alg√∫n plan espec√≠fico?".

Definition infoResponse : string :=
  "Somos una empresa l√≠der en soluciones empresariales. Ofrecemos servicios de consultor√≠a, implementaci√≥n y soporte t√©cnico. ¬øSobre qu√© aspecto te gustar√≠a saber m√°s?".

Definition productsResponse : string :=
  "Contamos con un amplio cat√°logo de productos. Puedes ver todos nuestros productos en nuestro sitio web o preg√∫ntame por una categor√≠a espec√≠fica. ¬øQu√© tipo de producto buscas?".

Definition ordersResponse : string :=
  "Para realizar un pedido puedes:"
    ++ JS.nl
    ++ "1. Visitar nuestro sitio web"
    ++ JS.nl
    ++ "2. Llamar al 123-456-7890"
    ++ JS.nl
    ++ "3. Enviarme los detalles por aqu√≠"
    ++ JS.nl
    ++ JS.nl
    ++ "¬øC√≥mo prefieres proceder?".

Definition appointmentsResponse : string :=
  "Para agendar una cita puedes:"
    ++ JS.nl
    ++ "üìû Llamar al 123-456-7890"
    ++ JS.nl
    ++ "üíª Usar nuestro portal en l√≠nea"
    ++ JS.nl
    ++ "üì± Enviarme tus datos aqu√≠"
    ++ JS.nl
    ++ JS.nl
    ++ "Nuestros horarios: Lun-Vie 8:00-18:00, S√°b 8:00-14:00".

Definition emergencyResponse : string :=
  "üö® EMERGENCIA: Si tienes una emergencia m√©dica, llama inmediatamente al 911 o dir√≠gete al hospital m√°s cercano."
    ++ JS.nl
    ++ JS.nl
    ++ "Para urgencias m√©dicas no cr√≠ticas: 123-456-7890".

Definition defaultResponse : string :=
  "Gracias por tu mensaje. ¬øPodr√≠as ser m√°s espec√≠fico sobre lo que necesitas? Estoy aqu√≠ para ayudarte.".

Definition handoffNotice : string :=
  JS.nl ++ JS.nl
    ++ "Un agente humano se pondr√° en contacto contigo pronto.".

(** The keyword lists reachable through a truthy lookup result: an inherited
    member has none. *)
Definition categories (found : Lookup) : Template :=
  match found with Own template => template | _ => [] end.

Definition generateResponse (R : Runtime) (chatbot : Chatbot.t)
  (messageContent : string) : option string :=
  let content := toLowerCase R messageContent in
  match lookupTemplate (Chatbot.template chatbot) with
  | Missing => Some unknownTemplateResponse
  | found =>
      let template := categories found in
      (* Check for greeting *)
      if someIncluded template "greetings" content then
        Some (greetingResponse (Chatbot.name chatbot))
      (* Template-specific responses *)
      else if Chatbot.template chatbot =? "corporate" then
        if someIncluded template "pricing" content then Some pricingResponse
        else if someIncluded template "info" content then Some infoResponse
        else Some defaultResponse
      else if Chatbot.template chatbot =? "ecommerce" then
        if someIncluded template "products" content then Some productsResponse
        else if someIncluded template "orders" content then Some ordersResponse
        else Some defaultResponse
      else if Chatbot.template chatbot =? "healthcare" then
        if someIncluded template "appointments" content then
          Some appointmentsResponse
        else if someIncluded template "emergency" content then
          Some emergencyResponse
        else Some defaultResponse
      else
        (* Default response *)
        Some defaultResponse
  end.

Definition escalationKeywords : list string :=
  ["hablar con persona"; "agente humano"; "representante"; "supervisor"; "queja"; "reclamo"; "problema serio"; "no entiendo"; "mal servicio"].

Definition shouldEscalateToHuman (R : Runtime) (messageContent : string)
  (chatbot : Chatbot.t) : bool :=
  let content := toLowerCase R messageContent in
  JS.some (fun keyword => JS.includes content keyword) escalationKeywords.

Definition processBotResponse (R : Runtime) (this : t) (chatbotId : string)
  (contact : Contact.t) (message : Message.t) (conversation : Conversation.t)
  : M bool :=
  chatbot <- query (fun st => Storage.getChatbot st chatbotId) ;;
  match chatbot with
  | None => ret false
  | Some chatbot =>
      if negb (Chatbot.isActive chatbot) then ret false
      else
        startTime <- dateNow R ;;
        match generateResponse R chatbot
                (JS.or_string (Message.content message) EmptyString) with
        | None => ret false
        | Some generated =>
            if negb (JS.truthy_string generated) then ret false
            else
              (* Check if should escalate to human *)
              let shouldEscalate :=
                shouldEscalateToHuman R
                  (JS.or_string (Message.content message) EmptyString)
                  chatbot in
              let response :=
                if shouldEscalate then generated ++ handoffNotice
                else generated in
              (* Send bot response *)
              botMessage <- WhatsAppService.processOutgoingMessage R
                              (whatsappService this)
                              (Conversation.id conversation)
                              (Contact.id contact) response MessageType.text ;;
              (* Mark as bot message *)
              update (Storage.updateMessage (Message.id botMessage)
                         (Storage.mkMessagePatch (Some true) None)) ;;;
              (* Record interaction for analytics *)
              endTime <- dateNow R ;;
              id <- freshId R ;;
              command (Storage.createBotInteraction id chatbotId
                         (Contact.id contact) (Message.id message)
                         (JS.or_string (Message.content message) EmptyString)
                         response shouldEscalate (endTime - startTime)%Z) ;;;
              ret true
        end
  end.

End ChatbotProcessor.

(* ================================================================== *)
(** * Password login and session tokens (auth module)                  *)
(* ================================================================== *)

Module Auth.

Definition JWT_SECRET (e : ProcessEnv) : string :=
  JS.or_string (env_JWT_SECRET e) "your-secret-key".

(** The third-party library [jsonwebtoken], symbolically: a token is either
    a payload signed under a secret, with its issue and expiry times in
    seconds, or a string that is no well-formed token. *)
Inductive token : Type :=
| Signed (userId : string) (iat exp : Z) (secret : string)
| Malformed (raw : string).

Record Payload : Type := mkPayload { userId : string; iat : Z; exp : Z }.

(** ["7d"] in seconds. *)
Definition sevenDays : Z := 604800.

(** [jwt.sign({ userId }, secret, { expiresIn })] at clock reading [ms]. *)
Definition jwt_sign (userId secret : string) (expiresIn ms : Z) : token :=
  let timestamp := (ms / 1000)%Z in
  Signed userId timestamp (timestamp + expiresIn) secret.

(** [jwt.verify(token, secret)] at clock reading [ms]: it throws on a
    malformed token, on a signature under another secret and once the clock
    has reached [exp]. *)
Definition jwt_verify (t : token) (secret : string) (ms : Z)
  : Payload + JS.thrown :=
  match t with
  | Malformed _ => inr (JS.ErrorObject "jwt malformed")
  | Signed userId iat exp key =>
      if negb (key =? secret) then inr (JS.ErrorObject "invalid signature")
      else if (exp <=? ms / 1000)%Z then inr (JS.ErrorObject "jwt expired")
      else inl (mkPayload userId iat exp)
  end.

Definition verifyPassword (R : Runtime) (password hash : string) : M bool :=
  ret (bcrypt_compare R password hash).

Definition generateToken (R : Runtime) (userId : string) : M token :=
  ms <- dateNow R ;;
  ret (jwt_sign userId (JWT_SECRET (env R)) sevenDays ms).

Definition verifyToken (R : Runtime) (t : token) : M (option Payload) :=
  ms <- dateNow R ;;
  match jwt_verify t (JWT_SECRET (env R)) ms with
  | inl payload => ret (Some payload)
  | inr _ => ret None
  end.

Definition loginWithEmail (R : Runtime) (email password : string)
  : M (option (User.t * token)) :=
  user <- query (fun st => Storage.getUserByEmail st email) ;;
  match user with
  | None => ret None
  | Some user =>
      match User.password user with
      | None => ret None
      | Some hash =>
          if negb (JS.truthy_string hash) then ret None
          else
            isValid <- verifyPassword R password hash ;;
            if negb isValid then ret None
            else
              (* Update last login *)
              date <- dateNow R ;;
              update (Storage.updateUser (User.id user)
                         (Storage.mkUserPatch None (Some date))) ;;;
              t <- generateToken R (User.id user) ;;
              ret (Some (user, t))
      end
  end.

End Auth.

(* ================================================================== *)
(** * Accounts: registration, privileged login, request authentication *)
(* ================================================================== *)

Module Accounts.

(** [DatabaseStorage.getUser]: the first row with the key. *)
Definition getUser (st : Storage.Store) (id : string) : option User.t :=
  find (fun u => User.id u =? id) (Storage.users st).

(** The keys of an [InsertUser] object that the row type [User.t] has a
    column for; a key that is absent is [None]. *)
Record InsertUser : Type := mkInsertUser
  { ins_email : option string;
    ins_password : option string;
    ins_role : option string }.

(** [DatabaseStorage.createUser]: the row gets the key [id] handed out for it
    and, for every column the insert object has no key for, the value of
    [blank], the column defaults of the [users] table (the schema is not
    part of the sources). *)
Definition createUser (id : string) (blank : User.t) (insert : InsertUser)
  (st : Storage.Store) : User.t * Storage.Store :=
  let u := User.make id
             (Storage.override_opt (ins_email insert) (User.email blank))
             (Storage.override_opt (ins_password insert) (User.password blank))
             (Storage.override (ins_role insert) (User.role blank))
             (User.lastLogin blank) in
  (u, Storage.with_users st (Storage.users st ++ [u])).

(** [process.env.CEO_MASTER_TOKEN || "ceo-master-token-2024"], for the value
    [variable] of the environment variable. *)
Definition CEO_MASTER_TOKEN (variable : option string) : string :=
  JS.or_string variable "ceo-master-token-2024".

Definition loginAsCEO (R : Runtime) (blank : User.t) (variable : option string)
  (email token : string) : M (option (User.t * Auth.token)) :=
  (* Verify CEO token *)
  if negb (token =? CEO_MASTER_TOKEN variable) then ret None
  else
    found <- query (fun st => Storage.getUserByEmail st email) ;;
    user <-
      match found with
      | None =>
          (* Create CEO user if doesn't exist *)
          id <- freshId R ;;
          created <- command (createUser id blank
                                (mkInsertUser (Some email) None (Some "ceo"))) ;;
          ret (Some created)
      | Some existing =>
          if negb (User.role existing =? "ceo") then
            (* Upgrade user to CEO role *)
            date <- dateNow R ;;
            update (Storage.updateUser (User.id existing)
                       (Storage.mkUserPatch (Some "ceo") (Some date)))
          else
            (* Update last login for existing CEO *)
            date <- dateNow R ;;
            update (Storage.updateUser (User.id existing)
                       (Storage.mkUserPatch None (Some date))) ;;;
            ret (Some existing)
      end ;;
    user <- defined user ;;
    authToken <- Auth.generateToken R (User.id user) ;;
    ret (Some (user, authToken)).

(** The argument of [registerUser], for the keys the row type has a column
    for ([username], [phone] and [authProvider] have none; [isVerified],
    which [registerUser] computes from [authProvider], has none either). *)
Record Registration : Type := mkRegistration
  { reg_email : option string; reg_password : option string }.

(** [registerUser], with [bcrypt.hash(password, 12)] given as [hash]. *)
Definition registerUser (R : Runtime) (blank : User.t) (hash : string -> string)
  (userData : Registration) : M (User.t * Auth.token) :=
  let password :=
    match reg_password userData with
    | Some password =>
        if JS.truthy_string password then Some (hash password)
        else Some password
    | None => None
    end in
  id <- freshId R ;;
  user <- command (createUser id blank
                     (mkInsertUser (reg_email userData) password None)) ;;
  token <- Auth.generateToken R (User.id user) ;;
  ret (user, token).

(** [String.prototype.split] on a one-character separator. *)
Fixpoint split (separator : ascii) (s : string) : list string :=
  match s with
  | EmptyString => [EmptyString]
  | String c rest =>
      match split separator rest with
      | [] => []
      | first :: others =>
          if Ascii.eqb c separator then EmptyString :: first :: others
          else String c first :: others
      end
  end.

(** [authHeader && authHeader.split(" ")[1]]: the value of [token], [None]
    standing for [undefined]. *)
Definition bearer (authHeader : option string) : option string :=
  match authHeader with
  | Some header =>
      if JS.truthy_string header then nth_error (split " " header) 1
      else Some header
  | None => None
  end.

(** What a middleware does with a request: it answers with a status and a
    message, or calls [next()] with [req.user] set. *)
Inductive Verdict : Type :=
| Rejected (status : nat) (message : string)
| Next (user : User.t).

(** [authenticateToken].  The library call [jwt.verify] takes the token as a
    string; [decode] is its parsing of that string, and [isActive] the
    column [users.isActive] as a function of the row. *)
Definition authenticateToken (R : Runtime) (decode : string -> Auth.token)
  (isActive : User.t -> bool) (authorization : option string) : M Verdict :=
  match bearer authorization with
  | None => ret (Rejected 401 "Access token required")
  | Some token =>
      if negb (JS.truthy_string token) then
        ret (Rejected 401 "Access token required")
      else
        decoded <- Auth.verifyToken R (decode token) ;;
        match decoded with
        | None => ret (Rejected 403 "Invalid token")
        | Some decoded =>
            user <- query (fun st => getUser st (Auth.userId decoded)) ;;
            match user with
            | None => ret (Rejected 403 "User not found or inactive")
            | Some user =>
                if negb (isActive user) then
                  ret (Rejected 403 "User not found or inactive")
                else ret (Next user)
            end
        end
  end.

(** [requireRole(roles)], applied to [req.user]. *)
Definition requireRole (roles : list string) (user : option User.t) : Verdict :=
  match user with
  | None => Rejected 401 "Authentication required"
  | Some user =>
      if negb (existsb (String.eqb (User.role user)) roles) then
        Rejected 403 "Insufficient permissions"
      else Next user
  end.

End Accounts.

(* ================================================================== *)
(** * Route layer and real-time fan-out ([routes.ts])                  *)
(* ================================================================== *)

Module Routes.

(** What a handler answers: [res.status(status).send(body)]. *)
Record Reply : Type := mkReply { status : nat; body : JS.value }.

(** [res.status(status).json({ message })]. *)
Definition jsonMessage (status : nat) (message : string) : Reply :=
  mkReply status (JS.Obj [("message", JS.Str message)]).

(** [v === s] for a string [s]. *)
Definition isString (v : JS.value) (s : string) : bool :=
  match v with
  | JS.Str t => t =? s
  | _ => false
  end.

(** [WhatsAppService.verifyWebhook] as the webhook route calls it: the query
    values are cast with [as string], which converts nothing, so the
    function runs on whatever the query holds. *)
Definition verifyWebhookCall (e : ProcessEnv) (verifyToken mode challenge : JS.value)
  : JS.value :=
  if isString mode "subscribe" && isString verifyToken (VERIFY_TOKEN e)
  then challenge
  else JS.Null.

(** The handler of [GET /api/webhook]; [query] maps a parameter name to its
    value, [undefined] when absent. *)
Definition getWebhook (e : ProcessEnv) (query : string -> JS.value) : Reply :=
  let mode := query "hub.mode" in
  let token := query "hub.verify_token" in
  let challenge := query "hub.challenge" in
  let result := verifyWebhookCall e token mode challenge in
  if JS.truthy result then mkReply 200 result
  else mkReply 403 (JS.Str "Forbidden").

(** A WebSocket, known by its identity. *)
Definition Socket : Type := nat.

(** The JSON envelopes pushed to a client. *)
Inductive Frame : Type :=
| AuthSuccess
| NewMessage (message : Message.t) (contact : option Contact.t)
    (conversation : option Conversation.t).

(** The real-time side of the process: the map [wsConnections] (a [Map], in
    insertion order), the sockets whose [readyState] is [OPEN], and the
    frames sent so far. *)
Record Hub : Type := mkHub
  { wsConnections : list (string * Socket);
    openSockets : list Socket;
    sent : list (Socket * Frame) }.

(** [Map.prototype.get]. *)
Fixpoint mapGet (key : string) (entries : list (string * Socket)) : option Socket :=
  match entries with
  | [] => None
  | (k, v) :: rest => if k =? key then Some v else mapGet key rest
  end.

(** [Map.prototype.set]: the value of an existing key is replaced in place,
    a new key is appended. *)
Fixpoint mapSet (key : string) (value : Socket) (entries : list (string * Socket))
  : list (string * Socket) :=
  match entries with
  | [] => [(key, value)]
  | (k, v) :: rest =>
      if k =? key then (k, value) :: rest
      else (k, v) :: mapSet key value rest
  end.

(** [Map.prototype.delete]. *)
Fixpoint mapDelete (key : string) (entries : list (string * Socket))
  : list (string * Socket) :=
  match entries with
  | [] => []
  | (k, v) :: rest =>
      if k =? key then rest else (k, v) :: mapDelete key rest
  end.

Definition isOpen (h : Hub) (ws : Socket) : bool :=
  existsb (Nat.eqb ws) (openSockets h).

(** [ws.send(...)]: the frame goes out when the socket is open. *)
Definition send (ws : Socket) (frame : Frame) (h : Hub) : Hub :=
  if isOpen h ws
  then mkHub (wsConnections h) (openSockets h) (sent h ++ [(ws, frame)])
  else h.

(** [broadcastToUser]. *)
Definition broadcastToUser (userId : string) (frame : Frame) (h : Hub) : Hub :=
  match mapGet userId (wsConnections h) with
  | Some ws => if isOpen h ws then send ws frame h else h
  | None => h
  end.

(** The [auth] branch of the socket's message handler, for a frame whose
    [token] is truthy: [verifyToken(message.token)], then the registration
    of the socket and the [auth_success] frame.  A token that is no string
    makes [jwt.verify] throw, hence [verifyToken] return [null]. *)
Definition authenticateSocket (R : Runtime) (decode : string -> Auth.token)
  (ws : Socket) (token : JS.value) (ms : Z) (h : Hub) : Hub :=
  let decoded :=
    match token with
    | JS.Str raw =>
        match Auth.jwt_verify (decode raw) (Auth.JWT_SECRET (env R)) ms with
        | inl payload => Some payload
        | inr _ => None
        end
    | _ => None
    end in
  match decoded with
  | Some decoded =>
      send ws AuthSuccess
        (mkHub (mapSet (Auth.userId decoded) ws (wsConnections h))
               (openSockets h) (sent h))
  | None => h
  end.

(** The first entry of the map whose connection is [ws]. *)
Fixpoint firstKeyOf (ws : Socket) (entries : list (string * Socket))
  : option string :=
  match entries with
  | [] => None
  | (k, v) :: rest => if Nat.eqb v ws then Some k else firstKeyOf ws rest
  end.

(** The socket's [close] handler: the socket is no longer open, and the
    first entry of the map that holds it is deleted. *)
Definition onClose (ws : Socket) (h : Hub) : Hub :=
  let closed := filter (fun s => negb (Nat.eqb s ws)) (openSockets h) in
  match firstKeyOf ws (wsConnections h) with
  | Some userId => mkHub (mapDelete userId (wsConnections h)) closed (sent h)
  | None => mkHub (wsConnections h) closed (sent h)
  end.

End Routes.

(* ================================================================== *)
(** * Inbound webhook route ([POST /api/webhook])                      *)
(* ================================================================== *)

Module Webhook.

(** [DatabaseStorage.getWhatsappAccountsByUser]: the rows of the user, in
    table order. *)
Definition getWhatsappAccountsByUser (st : Storage.Store) (userId : string)
  : list WhatsappAccount.t :=
  filter (fun a => WhatsappAccount.userId a =? userId) (Storage.accounts st).

(** [DatabaseStorage.getChatbotsByUser]. *)
Definition getChatbotsByUser (st : Storage.Store) (userId : string)
  : list Chatbot.t :=
  filter (fun b => Chatbot.userId b =? userId) (Storage.chatbots st).

(** The request body is parsed JSON, and the handler reads it untyped.  A
    value that the handler iterates, as in [for (const x of v || [])]:
    - [Falsy]: the key is absent, or its value is [null], [false], [0] or
      the empty string; nothing is iterated;
    - [NotIterable]: [true], a non-zero number or an object; the loop
      throws a [TypeError];
    - [Elements]: an array.  (A non-empty string iterates over its
      characters, which are elements without properties.) *)
Inductive Iterated (A : Type) : Type :=
| Falsy
| NotIterable
| Elements (items : list A).

Arguments Falsy {A}.
Arguments NotIterable {A}.
Arguments Elements {A} items.

(** [change.value.metadata]: absent or [null], or a value whose
    [phone_number_id] is a string ([Some]) or anything else ([None]). *)
Inductive Metadata : Type :=
| NoMetadata
| MetadataWith (phone_number_id : option string).

(** [change.value]: absent or [null], or a value with its [messages] and
    [metadata] (a value that is no object has neither).  An element of
    [messages] is [null] ([None]) or an object of the interface
    [IncomingWhatsAppMessage] that [processIncomingMessage] declares for it;
    what the store does with a message of another shape depends on the
    column types of the schema. *)
Inductive Value : Type :=
| NoValue
| ValueWith (messages : Iterated (option IncomingWhatsAppMessage.t))
    (metadata : Metadata).

(** An element of [item.changes]: [null], or a value whose [field] is a
    string ([Some]) or anything else ([None]). *)
Inductive Change : Type :=
| NullChange
| ChangeWith (field : option string) (value : Value).

(** An element of [entry]: [null], or a value with its [changes] (a value
    that is no object has none). *)
Inductive Entry : Type :=
| NullEntry
| EntryWith (changes : Iterated Change).

(** [req.body]: [undefined] when no body was parsed, or a value with its
    [entry]. *)
Inductive Body : Type :=
| NoBody
| BodyWith (entry : Iterated Entry).

(** The state of the process: the world and the real-time hub. *)
Record Server : Type := mkServer { world : World; hub : Routes.Hub }.

(** A handler body: it transforms the server state and returns or throws. *)
Definition H (A : Type) : Type := Server -> completion A * Server.

Definition retH {A} (a : A) : H A := fun s => (Returned a, s).

Definition bindH {A B} (c : H A) (k : A -> H B) : H B :=
  fun s =>
    match c s with
    | (Returned a, s') => k a s'
    | (Thrown e, s') => (Thrown e, s')
    end.

(** An asynchronous call that works on the world. *)
Definition lift {A} (c : M A) : H A :=
  fun s =>
    let (outcome, w) := c (world s) in
    (outcome, mkServer w (hub s)).

(** A synchronous call that works on the hub. *)
Definition push (f : Routes.Hub -> Routes.Hub) : H unit :=
  fun s => (Returned tt, mkServer (world s) (f (hub s))).

(** [for (const x of l) body(x)]. *)
Fixpoint forEach {A} (l : list A) (body : A -> H unit) : H unit :=
  match l with
  | [] => retH tt
  | x :: rest => bindH (body x) (fun _ => forEach rest body)
  end.

Definition throwH {A} (e : exn) : H A := fun s => (Thrown e, s).

(** A member access on [null] or [undefined]. *)
Definition nullAccess {A} : H A :=
  throwH (TypeError "Cannot read properties of undefined").

(** [for (const x of v || []) body(x)]. *)
Definition iterate {A} (v : Iterated A) (body : A -> H unit) : H unit :=
  match v with
  | Falsy => retH tt
  | NotIterable => throwH (TypeError "is not iterable")
  | Elements items => forEach items body
  end.

(** [accounts.find(acc => acc.phoneNumberId ===
    change.value.metadata.phone_number_id)]: the callback, and with it the
    access to [metadata], runs once per account until one matches. *)
Definition findAccount (metadata : Metadata) (accounts : list WhatsappAccount.t)
  : H (option WhatsappAccount.t) :=
  match accounts with
  | [] => retH None
  | _ :: _ =>
      match metadata with
      | NoMetadata => nullAccess
      | MetadataWith (Some phoneNumberId) =>
          retH (find (fun acc =>
                        WhatsappAccount.phoneNumberId acc =? phoneNumberId)
                     accounts)
      | MetadataWith None => retH None
      end
  end.

(** [whatsappService.processIncomingMessage(account.id, message)] on an
    element of [messages]: the first statement of the function reads
    [incomingMessage.from]. *)
Definition processIncoming (R : Runtime) (this : WhatsAppService.t)
  (whatsappAccountId : string) (message : option IncomingWhatsAppMessage.t)
  : M WhatsAppService.Incoming :=
  match message with
  | Some message =>
      WhatsAppService.processIncomingMessage R this whatsappAccountId message
  | None => throw (TypeError "Cannot read properties of undefined")
  end.

(** The body of the innermost loop: one element of [messages] of a change
    whose value has the given [metadata]. *)
Definition handleMessage (R : Runtime) (metadata : Metadata)
  (message : option IncomingWhatsAppMessage.t) : H unit :=
  let whatsappService := WhatsAppService.whatsappService (env R) in
  let chatbotProcessor := ChatbotProcessor.make whatsappService in
  (* Find WhatsApp account by phone number ID *)
  bindH (lift (query (fun st => getWhatsappAccountsByUser st "system")))
    (fun accounts =>
  bindH (findAccount metadata accounts) (fun account =>
  match account with
  | None => retH tt
  | Some account =>
      (* Process incoming message *)
      bindH (lift (processIncoming R whatsappService
                     (WhatsappAccount.id account) message))
        (fun result =>
      (* Broadcast to user's WebSocket connection *)
      bindH (push (Routes.broadcastToUser (WhatsappAccount.userId account)
                     (Routes.NewMessage (WhatsAppService.message result)
                        (Some (WhatsAppService.contact result))
                        (Some (WhatsAppService.conversation result)))))
        (fun _ =>
      (* Check for bot response *)
      bindH (lift (query (fun st =>
                     getChatbotsByUser st (WhatsappAccount.userId account))))
        (fun userBots =>
      match find Chatbot.isActive userBots with
      | Some activeBot =>
          bindH (lift (ChatbotProcessor.processBotResponse R chatbotProcessor
                         (Chatbot.id activeBot)
                         (WhatsAppService.contact result)
                         (WhatsAppService.message result)
                         (WhatsAppService.conversation result)))
            (fun _ => retH tt)
      | None => retH tt
      end)))
  end)).

(** The body of the loop over [item.changes]. *)
Definition handleChange (R : Runtime) (change : Change) : H unit :=
  match change with
  | NullChange => nullAccess
  | ChangeWith field value =>
      match field with
      | Some field =>
          if field =? "messages" then
            match value with
            | NoValue => nullAccess
            | ValueWith messages metadata =>
                iterate messages (handleMessage R metadata)
            end
          else retH tt
      | None => retH tt
      end
  end.

(** The loops of the handler, for the value of [entry]. *)
Definition handleEntries (R : Runtime) (entry : Iterated Entry) : H unit :=
  iterate entry (fun item =>
    match item with
    | NullEntry => nullAccess
    | EntryWith changes => iterate changes (handleChange R)
    end).

(** The [try] block of the handler: [const { entry } = req.body], then the
    loops. *)
Definition handleBody (R : Runtime) (body : Body) : H unit :=
  match body with
  | NoBody => nullAccess
  | BodyWith entry => handleEntries R entry
  end.

(** The handler of [POST /api/webhook]: 200 "OK", or 500 when anything
    threw. *)
Definition postWebhook (R : Runtime) (body : Body) (s : Server)
  : Routes.Reply * Server :=
  match handleBody R body s with
  | (Returned _, s') => (Routes.mkReply 200 (JS.Str "OK"), s')
  | (Thrown _, s') => (Routes.jsonMessage 500 "Webhook processing failed", s')
  end.

End Webhook.

(* ================================================================== *)
(** * A concrete runtime and store, for running the model              *)
(* ================================================================== *)

Module Demo.

(** Lower-casing of the ASCII letters. *)
Definition lowerAscii (c : ascii) : ascii :=
  let n := nat_of_ascii c in
  if (65 <=? n)%nat && (n <=? 90)%nat then ascii_of_nat (n + 32) else c.

Fixpoint lower (s : string) : string :=
  match s with
  | EmptyString => EmptyString
  | String c rest => String (lowerAscii c) (lower rest)
  end.

(** A provider that accepts every message. *)
Definition accepting (_ : list Request) (_ : Request) : FetchResult :=
  Response true
    (JsonParsed
       (JS.Obj [("messages", JS.Arr [JS.Obj [("id", JS.Str "wamid.1")]])])).

(** A provider that answers every request with an error status. *)
Definition refusing (_ : list Request) (_ : Request) : FetchResult :=
  Response false
    (JsonParsed (JS.Obj [("error", JS.Obj [("message", JS.Str "Invalid token")])])).

(** One second per reading of the clock. *)
Definition ticking (n : nat) : Z := (1000 * Z.of_nat n)%Z.

(** A clock that jumps by seven days after its second reading. *)
Definition jumping (n : nat) : Z :=
  match n with
  | O | S O => 0%Z
  | _ => (1000 * Auth.sevenDays)%Z
  end.

Fixpoint stroke (n : nat) : string :=
  match n with
  | O => EmptyString
  | S k => String "i" (stroke k)
  end.

(** Keys handed out in sequence: one stroke more than there are rows. *)
Definition nextKey (st : Storage.Store) : string :=
  stroke (S (length (Storage.contacts st) + length (Storage.conversations st)
             + length (Storage.messages st)
             + length (Storage.botInteractions st))).

Definition hashed (password hash : string) : bool := hash =? "h:" ++ password.

Definition noEnv : ProcessEnv := mkProcessEnv None None None None None.

Definition runtime : Runtime :=
  mkRuntime lower accepting ticking nextKey hashed noEnv.

Definition offline : Runtime :=
  mkRuntime lower refusing ticking nextKey hashed noEnv.

Definition late : Runtime :=
  mkRuntime lower accepting jumping nextKey hashed noEnv.

Definition service : WhatsAppService.t :=
  WhatsAppService.make (Some "token") (Some "15550001").

Definition processor : ChatbotProcessor.t := ChatbotProcessor.make service.

Definition account : WhatsappAccount.t :=
  WhatsappAccount.make "acc-1" "user-1" "15550001".

Definition bot : Chatbot.t :=
  Chatbot.make "bot-1" "user-1" "Acme" "corporate" true.

Definition alice : User.t :=
  User.make "user-1" (Some "alice@example.com") (Some "h:secret") "user" None.

Definition initial : Storage.Store :=
  Storage.mkStore [account] [] [] [] [bot] [] [alice].

Definition world : World := mkWorld initial [] 0.

(** An inbound text message from [phone]. *)
Definition hello (phone body : string) : IncomingWhatsAppMessage.t :=
  IncomingWhatsAppMessage.make phone "wamid.in" "1700000000"
    MessageType.text (Some body) None None None None.

(** A store that already holds a customer, with a conversation and a
    complaint received in it. *)
Definition customer : Contact.t :=
  Contact.make "c-1" "user-1" "acc-1" "5551234" "5551234" None.

Definition thread : Conversation.t :=
  Conversation.make "v-1" "user-1" "c-1" "acc-1" (Some 1%Z) None.

Definition complaint : Message.t :=
  Message.make "m-1" "v-1" "c-1" (JS.Str "wamid.in") inbound MessageType.text
    (Some "Tengo una QUEJA por el precio") JS.Undefined "delivered" false.

Definition inbox : Storage.Store :=
  Storage.mkStore [account] [customer] [thread] [complaint] [bot] [] [alice].

Definition busy : World := mkWorld inbox [] 0.

(** The world after the bot has answered the complaint. *)
Definition answered : World :=
  snd (ChatbotProcessor.processBotResponse runtime processor "bot-1" customer
         complaint thread busy).

End Demo.

(* ================================================================== *)
(** * Vocabulary of the properties                                     *)
(* ================================================================== *)

(** The provider call succeeded: an ok response whose body parsed to a value
    with properties. *)
Definition accepted (answer : FetchResult) : bool :=
  match answer with
  | Response true (JsonParsed data) =>
      match data with JS.Undefined | JS.Null => false | _ => true end
  | _ => false
  end.

(** The two shapes of a send result: [{success: true, messageId}] and
    [{success: false, error}]. *)
Definition shaped (result : WhatsAppService.SendResult) : Prop :=
  if WhatsAppService.success result
  then WhatsAppService.error result = JS.Undefined
  else WhatsAppService.error result <> JS.Undefined
       /\ WhatsAppService.messageId result = JS.Undefined.

(** The greeting keywords of a template (none when it has no such list). *)
Definition greetingKeywords (template : ChatbotProcessor.Template) : list string :=
  match ChatbotProcessor.assoc "greetings" template with
  | Some words => words
  | None => []
  end.

(** The text the responder works on: [message.content || ""]. *)
Definition textOf (message : Message.t) : string :=
  JS.or_string (Message.content message) EmptyString.

(** An escalation keyword occurs in the lower-cased text. *)
Definition mentionsEscalation (R : Runtime) (content : string) : bool :=
  existsb (fun keyword => JS.includes (toLowerCase R content) keyword)
          ChatbotProcessor.escalationKeywords.



(** No stored conversation refers to the key [id]. *)
Definition unreferenced (id : string) (st : Storage.Store) : bool :=
  forallb (fun v => negb (Conversation.contactId v =? id))
          (Storage.conversations st).

(** A conversation without its [lastMessageAt]. *)
Definition sansLastMessageAt (c : Conversation.t)
  : string * string * string * string * option Z :=
  (Conversation.id c, Conversation.userId c, Conversation.contactId c,
   Conversation.whatsappAccountId c, Conversation.unreadCount c).

(** The message row written by the outgoing path: it holds the provider's
    message id ([null] when the answer carried none) and no media URL. *)
Definition outboundRow (id conversationId contactId : string)
  (result : WhatsAppService.SendResult) (type : MessageType.t)
  (content : string) : Message.t :=
  Message.make id conversationId contactId
    (Storage.column (WhatsAppService.messageId result)) outbound type
    (Some content) JS.Null "sent" false.

(** The reply the bot sends: the generated response, with the hand-off
    notice appended when the text mentions an escalation keyword. *)
Definition replyFor (R : Runtime) (generated content : string) : string :=
  if mentionsEscalation R content
  then generated ++ ChatbotProcessor.handoffNotice
  else generated.

(** The contact row created for a first message. *)
Definition newContact (R : Runtime) (st : Storage.Store)
  (whatsappAccountId phone userId : string) : Contact.t :=
  Contact.make (newId R st) userId whatsappAccountId phone phone None.

(** The update of the unread counter applied by an inbound message to the
    rows keyed like [existing]. *)
Definition bump (existing : Conversation.t) (c : Conversation.t) : Conversation.t :=
  if Conversation.id c =? Conversation.id existing
  then Storage.patchConversation
         (Storage.mkConversationPatch
            (Some (WhatsAppService.or_zero (Conversation.unreadCount existing) + 1)%Z)
            None) c
  else c.

(** The result of the send functions when the credentials are missing. *)
Definition notConfigured : WhatsAppService.SendResult :=
  WhatsAppService.mkSendResult false JS.Undefined
    (JS.Str "WhatsApp credentials not configured").

(** The request of [getMediaUrl]. *)
Definition mediaRequest (this : WhatsAppService.t) (mediaId : string) : Request :=
  GET (WHATSAPP_API_URL ++ "/" ++ mediaId)
      ("Bearer " ++ interpolate (WhatsAppService.accessToken this)).

(** A value is [null] or truthy. *)
Definition nullOrTruthy (v : JS.value) : Prop :=
  v = JS.Null \/ JS.truthy v = true.

(** The update of [lastMessageAt] applied by an outbound message to the rows
    keyed [id]. *)
Definition touch (id : string) (date : Z) (c : Conversation.t) : Conversation.t :=
  if Conversation.id c =? id
  then Storage.patchConversation
         (Storage.mkConversationPatch None (Some date)) c
  else c.

(** The keyword list of a category of a template (none when the template has
    no such category). *)
Definition keywordsOf (template : ChatbotProcessor.Template) (category : string)
  : list string :=
  match ChatbotProcessor.assoc category template with
  | Some words => words
  | None => []
  end.

(** One of [words] occurs in the lower-cased text. *)
Definition mentions (R : Runtime) (content : string) (words : list string) : bool :=
  existsb (fun word => JS.includes (toLowerCase R content) word) words.

(** The category a template's [switch] case checks first, with its answer. *)
Definition firstChecked (template : string) : option (string * string) :=
  if template =? "corporate" then
    Some ("pricing", ChatbotProcessor.pricingResponse)
  else if template =? "ecommerce" then
    Some ("products", ChatbotProcessor.productsResponse)
  else if template =? "healthcare" then
    Some ("appointments", ChatbotProcessor.appointmentsResponse)
  else None.

(** The predicate of [getUserByEmail]: the row's email is [email]. *)
Definition hasEmail (email : string) (u : User.t) : bool :=
  match User.email u with
  | Some e => e =? email
  | None => false
  end.

(** A user row without its [lastLogin]. *)
Definition sansLastLogin (u : User.t)
  : string * option string * option string * string :=
  (User.id u, User.email u, User.password u, User.role u).

(** No space occurs in the string. *)
Fixpoint noSpace (s : string) : bool :=
  match s with
  | EmptyString => true
  | String c rest => negb (Ascii.eqb c " ") && noSpace rest
  end.

(** The token [generateToken] signs for [userId] at clock reading [ms]. *)
Definition tokenFor (R : Runtime) (userId : string) (ms : Z) : Auth.token :=
  Auth.jwt_sign userId (Auth.JWT_SECRET (env R)) Auth.sevenDays ms.

(** The store after the columns of [updates] were set in the users keyed
    [id]. *)
Definition usersAfter (id : string) (updates : Storage.UserPatch)
  (st : Storage.Store) : Storage.Store :=
  Storage.with_users st
    (map (fun u => if User.id u =? id then Storage.patchUser updates u else u)
         (Storage.users st)).

(** The patch [{ lastLogin: date }]. *)
Definition stamp (date : Z) : Storage.UserPatch :=
  Storage.mkUserPatch None (Some date).

(** A webhook payload of the provider's shape: one entry holding one
    [messages] change for the sender id [phoneNumberId]. *)
Definition batch (phoneNumberId : string)
  (messages : list IncomingWhatsAppMessage.t) : Webhook.Body :=
  Webhook.BodyWith
    (Webhook.Elements
       [Webhook.EntryWith
          (Webhook.Elements
             [Webhook.ChangeWith (Some "messages")
                (Webhook.ValueWith (Webhook.Elements (map Some messages))
                   (Webhook.MetadataWith (Some phoneNumberId)))])]).

(** The handler can walk the body: there is one, what the handler iterates
    is iterable, no entry and no change is [null], and every [messages]
    change has a [value]. *)
Definition iterable {A} (v : Webhook.Iterated A) : bool :=
  match v with Webhook.NotIterable => false | _ => true end.

Definition elements {A} (v : Webhook.Iterated A) : list A :=
  match v with Webhook.Elements items => items | _ => [] end.

Definition walkableChange (change : Webhook.Change) : bool :=
  match change with
  | Webhook.NullChange => false
  | Webhook.ChangeWith (Some field) value =>
      if field =? "messages" then
        match value with
        | Webhook.NoValue => false
        | Webhook.ValueWith messages _ => iterable messages
        end
      else true
  | Webhook.ChangeWith None _ => true
  end.

Definition walkableEntry (item : Webhook.Entry) : bool :=
  match item with
  | Webhook.NullEntry => false
  | Webhook.EntryWith changes =>
      iterable changes && forallb walkableChange (elements changes)
  end.

Definition walkable (body : Webhook.Body) : bool :=
  match body with
  | Webhook.NoBody => false
  | Webhook.BodyWith entry =>
      iterable entry && forallb walkableEntry (elements entry)
  end.

(** The request posts a text message reading [body] to [phone]. *)
Definition postsText (phone body : string) (request : Request) : Prop :=
  match request with
  | POST _ _ message =>
      WhatsAppMessage.to message = phone
      /\ WhatsAppMessage.type message = MessageType.text
      /\ WhatsAppMessage.text message = Some body
  | GET _ _ => False
  end.



(** The check of a password login: a row with this email exists, it has a
    non-empty password hash, and the password matches it. *)
Definition credentialsMatch (R : Runtime) (st : Storage.Store)
  (email password : string) : bool :=
  match Storage.getUserByEmail st email with
  | Some user =>
      match User.password user with
      | Some hash => JS.truthy_string hash && bcrypt_compare R password hash
      | None => false
      end
  | None => false
  end.

(* ================================================================== *)
(** * A concrete deployment                                            *)
(* ================================================================== *)

Module Deployment.

(** The environment of a configured installation. *)
Definition configured : ProcessEnv :=
  mkProcessEnv (Some "token") None (Some "15550001") (Some "verify-me")
    (Some "jwt-secret").

(** A configured installation whose provider accepts every message. *)
Definition runtime : Runtime :=
  mkRuntime Demo.lower Demo.accepting Demo.ticking Demo.nextKey Demo.hashed
    configured.

(** A configured installation whose provider refuses every message. *)
Definition offline : Runtime :=
  mkRuntime Demo.lower Demo.refusing Demo.ticking Demo.nextKey Demo.hashed
    configured.

(** The account the webhook looks up, and the bot of its owner. *)
Definition account : WhatsappAccount.t :=
  WhatsappAccount.make "acc-s" "system" "15550001".

Definition bot : Chatbot.t :=
  Chatbot.make "bot-s" "system" "Acme" "corporate" true.

Definition initial : Storage.Store :=
  Storage.mkStore [account] [] [] [] [bot] [] [].

(** No client is connected. *)
Definition idle : Routes.Hub := Routes.mkHub [] [] [].

Definition server : Webhook.Server :=
  Webhook.mkServer (mkWorld initial [] 0) idle.

(** A server whose only account belongs to a registered user. *)
Definition unserved : Webhook.Server := Webhook.mkServer Demo.world idle.

(** The bot's answer to a greeting. *)
Definition greeting : string :=
  Eval vm_compute in
    JS.or_string (ChatbotProcessor.generateResponse runtime bot "hola")
      EmptyString.

(** The column defaults of a new user row. *)
Definition blank : User.t := User.make EmptyString None None "user" None.

Definition hash (password : string) : string := "h:" ++ password.

(** The decoding of the token handed out at the first login of the demo
    user. *)
Definition decode (_ : string) : Auth.token :=
  tokenFor Demo.runtime "user-1" (Demo.ticking 1).

Definition decodeAtStart (_ : string) : Auth.token :=
  tokenFor Demo.runtime "user-1" 0.

Definition everyone (_ : User.t) : bool := true.

(** A request body whose [messages] change has no [value]. *)
Definition withoutValue : Webhook.Body :=
  Webhook.BodyWith
    (Webhook.Elements
       [Webhook.EntryWith
          (Webhook.Elements
             [Webhook.ChangeWith (Some "messages") Webhook.NoValue])]).

(** A user reconnects: socket 1 is registered, socket 2 is the new one. *)
Definition reconnecting : Routes.Hub :=
  Routes.mkHub [("user-1", 1)] [1; 2] [].

(** One socket registered under two users. *)
Definition doubled : Routes.Hub :=
  Routes.mkHub [("user-1", 7); ("user-2", 7)] [7] [].

End Deployment.

(* ================================================================== *)
(** * Strings                                                          *)
(* ================================================================== *)

Lemma prefix_append (p s : string) :
  prefix p s = true <-> exists rest, s = p ++ rest.
Proof.
  revert s. induction p as [|a p IH]; intros s.
  - destruct s; simpl; split; eauto.
  - destruct s as [|b s]; simpl.
    + split; [discriminate | intros [rest H]; discriminate].
    + destruct (ascii_dec a b) as [Hab|Hab].
      * subst b. rewrite IH. split; intros [rest H]; exists rest.
        -- now rewrite H.
        -- now inversion H.
      * split; [discriminate | intros [rest H]; inversion H; congruence].
Qed.

(** [includes] is the substring test of [String.prototype.includes]. *)
Lemma includes_substring (s sub : string) :
  JS.includes s sub = true <-> exists before after, s = before ++ sub ++ after.
Proof.
  induction s as [|a s IH].
  - change (JS.includes EmptyString sub) with (prefix sub EmptyString).
    rewrite prefix_append. split.
    + intros [rest H]. exists EmptyString, rest. exact H.
    + intros [[|b before] [after H]]; simpl in H; eauto; discriminate.
  - change (JS.includes (String a s) sub)
      with (prefix sub (String a s) || JS.includes s sub).
    rewrite orb_true_iff, IH, prefix_append. split.
    + intros [[rest H] | [before [after H]]].
      * exists EmptyString, rest. exact H.
      * exists (String a before), after. simpl. now rewrite H.
    + intros [[|b before] [after H]]; simpl in H.
      * left. eauto.
      * right. inversion H. eauto.
Qed.

Lemma length_append (s t : string) :
  String.length (s ++ t) = String.length s + String.length t.
Proof. induction s as [|a s IH]; simpl; [reflexivity | now rewrite IH]. Qed.

Lemma append_notice_differs (s t : string) :
  JS.truthy_string t = true -> s ++ t <> s.
Proof.
  intros Ht H. assert (L : String.length (s ++ t) = String.length s) by now rewrite H.
  rewrite length_append in L. destruct t; simpl in *; [discriminate | lia].
Qed.

(* ================================================================== *)
(** * Webhook handshake                                                *)
(* ================================================================== *)

(** C2. [verifyWebhook] returns the challenge exactly when the mode is
    "subscribe" and the token is the configured secret, and [null] in every
    other case. *)
Theorem verifyWebhook_challenge_iff
  (e : ProcessEnv) (verifyToken mode challenge : string) :
  (WhatsAppService.verifyWebhook e verifyToken mode challenge = Some challenge
   <-> mode = "subscribe" /\ verifyToken = VERIFY_TOKEN e)
  /\ (WhatsAppService.verifyWebhook e verifyToken mode challenge = None
      <-> ~ (mode = "subscribe" /\ verifyToken = VERIFY_TOKEN e)).
Proof.
  unfold WhatsAppService.verifyWebhook.
  destruct (String.eqb_spec mode "subscribe") as [Hm|Hm];
    destruct (String.eqb_spec verifyToken (VERIFY_TOKEN e)) as [Ht|Ht];
    simpl; repeat split; try tauto; try discriminate;
    intros H; try (destruct H; contradiction); exfalso; apply H; tauto.
Qed.

(* ================================================================== *)
(** * Chatbot responder                                                *)
(* ================================================================== *)

Lemma someIncluded_greetings (template : ChatbotProcessor.Template)
  (content keyword : string) :
  In keyword (greetingKeywords template) ->
  JS.includes content keyword = true ->
  ChatbotProcessor.someIncluded template "greetings" content = true.
Proof.
  unfold greetingKeywords, ChatbotProcessor.someIncluded, JS.some.
  destruct (ChatbotProcessor.assoc "greetings" template) as [words|];
    [| intros []].
  intros Hin Hinc. apply existsb_exists. exists keyword. split; assumption.
Qed.

(** Every response the responder can produce is a non-empty string. *)
Lemma generateResponse_truthy (R : Runtime) (chatbot : Chatbot.t)
  (messageContent : string) :
  exists response,
    ChatbotProcessor.generateResponse R chatbot messageContent = Some response
    /\ JS.truthy_string response = true.
Proof.
  unfold ChatbotProcessor.generateResponse.
  destruct (ChatbotProcessor.lookupTemplate (Chatbot.template chatbot));
    repeat match goal with
      | |- context [if ?b then _ else _] => destruct b
      end;
    eexists; split; reflexivity.
Qed.

(** C5. When the chatbot's template is one of the keyword tables and the
    lower-cased text contains one of that table's greeting keywords, the
    responder answers with the greeting, whatever else the text contains. *)
Theorem greeting_checked_first
  (R : Runtime) (chatbot : Chatbot.t) (messageContent keyword : string)
  (template : ChatbotProcessor.Template) :
  ChatbotProcessor.lookupTemplate (Chatbot.template chatbot)
    = ChatbotProcessor.Own template ->
  In keyword (greetingKeywords template) ->
  JS.includes (toLowerCase R messageContent) keyword = true ->
  ChatbotProcessor.generateResponse R chatbot messageContent
    = Some (ChatbotProcessor.greetingResponse (Chatbot.name chatbot)).
Proof.
  intros Hlookup Hin Hinc. unfold ChatbotProcessor.generateResponse.
  rewrite Hlookup. cbn [ChatbotProcessor.categories].
  now rewrite (someIncluded_greetings _ _ _ Hin Hinc).
Qed.

Lemma greeting_checked_first_witness :
  ChatbotProcessor.generateResponse Demo.runtime Demo.bot
    "Hola, necesito el PRECIO y mas info"
  = Some (ChatbotProcessor.greetingResponse "Acme").
Proof.
  apply (greeting_checked_first Demo.runtime Demo.bot
           "Hola, necesito el PRECIO y mas info" "hola"
           ChatbotProcessor.corporate).
  - reflexivity.
  - simpl. left. reflexivity.
  - vm_compute. reflexivity.
Defined.

(** C10. Escalation is decided by the text alone: the chatbot argument has no
    influence, and the answer is whether the lower-cased text contains one of
    the nine fixed keywords. *)
Theorem shouldEscalateToHuman_ignores_chatbot
  (R : Runtime) (messageContent : string) (chatbot1 chatbot2 : Chatbot.t) :
  ChatbotProcessor.shouldEscalateToHuman R messageContent chatbot1
    = ChatbotProcessor.shouldEscalateToHuman R messageContent chatbot2
  /\ (ChatbotProcessor.shouldEscalateToHuman R messageContent chatbot1 = true
      <-> exists keyword,
            In keyword ChatbotProcessor.escalationKeywords
            /\ JS.includes (toLowerCase R messageContent) keyword = true)
  /\ length ChatbotProcessor.escalationKeywords = 9.
Proof.
  split; [reflexivity |]. split; [| reflexivity].
  unfold ChatbotProcessor.shouldEscalateToHuman, JS.some.
  apply existsb_exists.
Qed.

(* ================================================================== *)
(** * Messaging gateway                                                *)
(* ================================================================== *)

Lemma or_value_defined (v : JS.value) (fallback : string) :
  JS.or_value v (JS.Str fallback) <> JS.Undefined.
Proof.
  unfold JS.or_value. destruct (JS.truthy v) eqn:Hv; [| discriminate].
  intros ->. discriminate.
Qed.

Lemma sendMessage_try_catch (answer : FetchResult) :
  let result := match WhatsAppService.sendMessage_try answer with
                | inl result => result
                | inr e => WhatsAppService.sendMessage_catch e
                end in
  WhatsAppService.success result = accepted answer /\ shaped result.
Proof.
  unfold shaped.
  destruct answer as [e | ok [data | e]]; simpl; try (repeat split; discriminate).
  - destruct ok; destruct data; simpl; repeat split;
      try discriminate; apply or_value_defined.
  - destruct ok; simpl; repeat split; discriminate.
Qed.

Lemma sendMessage_returns (R : Runtime) (this : WhatsAppService.t)
  (message : WhatsAppMessage.t) (w : World) :
  exists result w',
    WhatsAppService.sendMessage R this message w = (Returned result, w')
    /\ store w' = store w
    /\ clockReads w' = clockReads w
    /\ requests w'
       = (if WhatsAppService.validateCredentials this
          then (requests w ++ [WhatsAppService.messagesRequest this message])%list
          else requests w)
    /\ WhatsAppService.success result
       = WhatsAppService.validateCredentials this
         && accepted (fetch R (requests w)
                        (WhatsAppService.messagesRequest this message))
    /\ shaped result.
Proof.
  unfold WhatsAppService.sendMessage.
  destruct (WhatsAppService.validateCredentials this); simpl.
  - unfold bind, doFetch; simpl.
    pose proof (sendMessage_try_catch
                  (fetch R (requests w)
                     (WhatsAppService.messagesRequest this message))) as H.
    simpl in H.
    destruct (WhatsAppService.sendMessage_try _);
      (do 2 eexists; split; [reflexivity | repeat (split; [reflexivity |]); exact H]).
  - do 2 eexists. split; [reflexivity |]. unfold shaped; simpl.
    repeat split; discriminate.
Qed.

Lemma sendTextMessage_returns (R : Runtime) (this : WhatsAppService.t)
  (to text : string) (w : World) :
  exists result w',
    WhatsAppService.sendTextMessage R this to text w = (Returned result, w')
    /\ store w' = store w
    /\ clockReads w' = clockReads w
    /\ requests w'
       = (if WhatsAppService.validateCredentials this
          then (requests w
                ++ [WhatsAppService.messagesRequest this
                      (WhatsAppService.textMessage to text)])%list
          else requests w)
    /\ WhatsAppService.success result
       = WhatsAppService.validateCredentials this
         && accepted (fetch R (requests w)
                        (WhatsAppService.messagesRequest this
                           (WhatsAppService.textMessage to text)))
    /\ shaped result.
Proof.
  unfold WhatsAppService.sendTextMessage.
  destruct (WhatsAppService.validateCredentials this) eqn:Hc; simpl.
  - destruct (sendMessage_returns R this
                (WhatsAppService.textMessage to text) w)
      as (result & w' & Hrun & Hstore & Hclock & Hlog & Hsuccess & Hshape).
    rewrite Hc in Hsuccess, Hlog. eauto 8.
  - do 2 eexists. split; [reflexivity |]. unfold shaped; simpl.
    repeat split; discriminate.
Qed.

(** C8. [sendMessage] and [sendTextMessage] return on every input: the
    result reports success exactly when the credentials are configured and
    the provider call succeeded, then as [{success: true, messageId}]; every
    failure comes back as [{success: false, error}]. *)
Theorem send_functions_never_throw
  (R : Runtime) (this : WhatsAppService.t) (message : WhatsAppMessage.t)
  (to text : string) (w : World) :
  (exists result w',
     WhatsAppService.sendMessage R this message w = (Returned result, w')
     /\ WhatsAppService.success result
        = WhatsAppService.validateCredentials this
          && accepted (fetch R (requests w)
                         (WhatsAppService.messagesRequest this message))
     /\ shaped result)
  /\ (exists result w',
        WhatsAppService.sendTextMessage R this to text w = (Returned result, w')
        /\ WhatsAppService.success result
           = WhatsAppService.validateCredentials this
             && accepted (fetch R (requests w)
                            (WhatsAppService.messagesRequest this
                               (WhatsAppService.textMessage to text)))
        /\ shaped result).
Proof.
  split.
  - destruct (sendMessage_returns R this message w)
      as (result & w' & Hrun & _ & _ & _ & Hsuccess & Hshape). eauto.
  - destruct (sendTextMessage_returns R this to text w)
      as (result & w' & Hrun & _ & _ & _ & Hsuccess & Hshape). eauto.
Qed.

(* ================================================================== *)
(** * Outgoing path                                                    *)
(* ================================================================== *)

Lemma bind_query {A B} (f : Storage.Store -> A) (k : A -> M B) (w : World) :
  bind (query f) k w = k (f (store w)) w.
Proof. reflexivity. Qed.

Lemma bind_run {A B} (c : M A) (k : A -> M B) (w : World) :
  bind c k w
  = match c w with
    | (Returned a, w') => k a w'
    | (Thrown e, w') => (Thrown e, w')
    end.
Proof. reflexivity. Qed.

Lemma touch_keeps_rest (id : string) (date : Z) (l : list Conversation.t) :
  map sansLastMessageAt
      (map (fun c => if Conversation.id c =? id
                     then Storage.patchConversation
                            (Storage.mkConversationPatch None (Some date)) c
                     else c) l)
  = map sansLastMessageAt l.
Proof.
  induction l as [|c l IH]; simpl; [reflexivity |].
  rewrite IH. destruct (Conversation.id c =? id); reflexivity.
Qed.

(** What one run of [processOutgoingMessage] does, case by case. *)
Lemma processOutgoingMessage_run (R : Runtime) (this : WhatsAppService.t)
  (conversationId contactId content : string) (type : MessageType.t)
  (w : World) :
  match Storage.getContact (store w) contactId with
  | None =>
      WhatsAppService.processOutgoingMessage R this conversationId contactId
        content type w
      = (Thrown (Error "Contact not found"), w)
  | Some contact =>
      exists result w1,
        WhatsAppService.sendTextMessage R this (Contact.phone contact) content w
        = (Returned result, w1)
        /\ store w1 = store w
        /\ if WhatsAppService.success result then
             let message := outboundRow (newId R (store w)) conversationId
                              contactId result type content in
             exists w2,
               WhatsAppService.processOutgoingMessage R this conversationId
                 contactId content type w
               = (Returned message, w2)
               /\ requests w2 = requests w1
               /\ Storage.messages (store w2)
                  = (Storage.messages (store w) ++ [message])%list
               /\ map sansLastMessageAt (Storage.conversations (store w2))
                  = map sansLastMessageAt (Storage.conversations (store w))
               /\ Storage.contacts (store w2) = Storage.contacts (store w)
               /\ Storage.chatbots (store w2) = Storage.chatbots (store w)
               /\ Storage.botInteractions (store w2)
                  = Storage.botInteractions (store w)
           else
             WhatsAppService.processOutgoingMessage R this conversationId
               contactId content type w
             = (Thrown (SendError (WhatsAppService.error result)), w1)
  end.
Proof.
  unfold WhatsAppService.processOutgoingMessage. rewrite bind_query.
  destruct (Storage.getContact (store w) contactId) as [contact|];
    [| reflexivity].
  destruct (sendTextMessage_returns R this (Contact.phone contact) content w)
    as (result & w1 & Hrun & Hstore & _).
  exists result, w1. split; [exact Hrun |]. split; [exact Hstore |].
  rewrite bind_run, Hrun.
  destruct (WhatsAppService.success result); [| reflexivity].
  destruct w1 as [st1 log1 reads1]; simpl in Hstore; subst st1.
  unfold bind, freshId, command, query, dateNow; simpl.
  destruct (Storage.getConversation _ conversationId); simpl;
    eexists; (split; [reflexivity |]); simpl;
    repeat split; try reflexivity.
  apply touch_keeps_rest.
Qed.

(** C1. An outbound message row is written exactly when the send call
    reports success: on [success: false] the function throws with the store
    as it was, on [success: true] it appends one outbound row with status
    "sent" and the provider's message id; without a contact nothing is sent
    and nothing is written. *)
Theorem outgoing_persisted_iff_sent
  (R : Runtime) (this : WhatsAppService.t)
  (conversationId contactId content : string) (type : MessageType.t)
  (w : World) :
  let run := WhatsAppService.processOutgoingMessage R this conversationId
               contactId content type w in
  match Storage.getContact (store w) contactId with
  | None => run = (Thrown (Error "Contact not found"), w)
  | Some contact =>
      exists result w1,
        WhatsAppService.sendTextMessage R this (Contact.phone contact) content w
        = (Returned result, w1)
        /\ if WhatsAppService.success result then
             exists message,
               fst run = Returned message
               /\ Storage.messages (store (snd run))
                  = (Storage.messages (store w) ++ [message])%list
               /\ Message.direction message = outbound
               /\ Message.status message = "sent"
               /\ Message.whatsappMessageId message
                  = Storage.column (WhatsAppService.messageId result)
               /\ Message.content message = Some content
           else
             (exists e, fst run = Thrown e)
             /\ store (snd run) = store w
  end.
Proof.
  intros run. subst run.
  pose proof (processOutgoingMessage_run R this conversationId contactId
                content type w) as H.
  destruct (Storage.getContact (store w) contactId) as [contact|];
    [| exact H].
  destruct H as (result & w1 & Hsend & Hstore & H).
  exists result, w1. split; [exact Hsend |].
  destruct (WhatsAppService.success result).
  - destruct H as (w2 & Hrun & _ & Hmessages & _).
    rewrite Hrun. eexists. split; [reflexivity |].
    split; [exact Hmessages |]. repeat split.
  - rewrite H. simpl. split; [eauto | exact Hstore].
Qed.

(* ================================================================== *)
(** * Bot dispatch                                                     *)
(* ================================================================== *)

(** What one run of [processBotResponse] does, case by case. *)
Lemma processBotResponse_run (R : Runtime) (this : ChatbotProcessor.t)
  (chatbotId : string) (contact : Contact.t) (message : Message.t)
  (conversation : Conversation.t) (w : World) :
  let run := ChatbotProcessor.processBotResponse R this chatbotId contact
               message conversation w in
  match Storage.getChatbot (store w) chatbotId with
  | None => run = (Returned false, w)
  | Some chatbot =>
      if Chatbot.isActive chatbot then
        exists generated,
          ChatbotProcessor.generateResponse R chatbot (textOf message)
          = Some generated
          /\ match WhatsAppService.processOutgoingMessage R
                    (ChatbotProcessor.whatsappService this)
                    (Conversation.id conversation) (Contact.id contact)
                    (replyFor R generated (textOf message)) MessageType.text
                    (mkWorld (store w) (requests w) (S (clockReads w))) with
             | (Thrown e, w1) => run = (Thrown e, w1)
             | (Returned botMessage, w1) =>
                 exists w2 interaction,
                   run = (Returned true, w2)
                   /\ requests w2 = requests w1
                   /\ Storage.messages (store w2)
                      = map (fun m => if Message.id m =? Message.id botMessage
                                      then Storage.patchMessage
                                             (Storage.mkMessagePatch (Some true) None) m
                                      else m)
                            (Storage.messages (store w1))
                   /\ Storage.botInteractions (store w2)
                      = (Storage.botInteractions (store w1) ++ [interaction])%list
                   /\ BotInteraction.trigger interaction = textOf message
                   /\ BotInteraction.response interaction
                      = replyFor R generated (textOf message)
                   /\ BotInteraction.wasEscalated interaction
                      = mentionsEscalation R (textOf message)
             end
      else run = (Returned false, w)
  end.
Proof.
  intros run. subst run. unfold ChatbotProcessor.processBotResponse.
  rewrite bind_query.
  destruct (Storage.getChatbot (store w) chatbotId) as [chatbot|];
    [| reflexivity].
  destruct (Chatbot.isActive chatbot); [| reflexivity].
  cbn [negb]. rewrite bind_run. cbn [dateNow].
  fold (textOf message).
  destruct (generateResponse_truthy R chatbot (textOf message))
    as (generated & Hgenerated & Htruthy).
  exists generated. split; [exact Hgenerated |].
  rewrite Hgenerated, Htruthy. cbn [negb]. rewrite bind_run.
  change (ChatbotProcessor.shouldEscalateToHuman R (textOf message) chatbot)
    with (mentionsEscalation R (textOf message)).
  fold (replyFor R generated (textOf message)).
  destruct (WhatsAppService.processOutgoingMessage R _ _ _ _ _ _)
    as [[botMessage|e] w1]; [| reflexivity].
  do 2 eexists. split; [reflexivity |]. simpl. repeat split.
Qed.

(** C9. The responder always produces a non-empty string, so the run of
    [processBotResponse] returns [false] only when the chatbot is missing or
    inactive. *)
Theorem processBotResponse_false_iff_no_active_bot
  (R : Runtime) (this : ChatbotProcessor.t) (chatbotId : string)
  (contact : Contact.t) (message : Message.t) (conversation : Conversation.t)
  (w : World) :
  (forall (chatbot : Chatbot.t) (messageContent : string),
     exists response,
       ChatbotProcessor.generateResponse R chatbot messageContent = Some response
       /\ JS.truthy_string response = true)
  /\ (fst (ChatbotProcessor.processBotResponse R this chatbotId contact message
             conversation w) = Returned false
      <-> Storage.getChatbot (store w) chatbotId = None
          \/ exists chatbot,
               Storage.getChatbot (store w) chatbotId = Some chatbot
               /\ Chatbot.isActive chatbot = false).
Proof.
  split; [intros; apply generateResponse_truthy |].
  pose proof (processBotResponse_run R this chatbotId contact message
                conversation w) as H. cbv zeta in H.
  destruct (Storage.getChatbot (store w) chatbotId) as [chatbot|].
  - destruct (Chatbot.isActive chatbot) eqn:Hactive.
    + destruct H as (generated & _ & H).
      destruct (WhatsAppService.processOutgoingMessage R _ _ _ _ _ _)
        as [[botMessage|e] w1].
      * destruct H as (w2 & interaction & Hrun & _). rewrite Hrun. simpl.
        split; [discriminate |].
        intros [Hnone | (bot & Hsome & Hoff)]; [discriminate |].
        inversion Hsome; subst bot. congruence.
      * rewrite H. simpl. split; [discriminate |].
        intros [Hnone | (bot & Hsome & Hoff)]; [discriminate |].
        inversion Hsome; subst bot. congruence.
    + rewrite H. simpl. split; [eauto | reflexivity].
  - rewrite H. simpl. split; [eauto | reflexivity].
Qed.

Lemma patched_last (botMessage : Message.t) (l : list Message.t) :
  let mark := fun m => if Message.id m =? Message.id botMessage
                       then Storage.patchMessage
                              (Storage.mkMessagePatch (Some true) None) m
                       else m in
  map mark (l ++ [botMessage])
  = (map mark l
     ++ [Storage.patchMessage (Storage.mkMessagePatch (Some true) None)
           botMessage])%list.
Proof.
  intros mark. rewrite map_app. simpl. unfold mark at 2.
  now rewrite String.eqb_refl.
Qed.

(** C6. When [processBotResponse] completes, the reply posted to the stored
    contact's phone and saved in the given conversation is the generated
    response, followed by the hand-off notice exactly when the lower-cased
    text contains an escalation keyword; the interaction records that same
    flag.  The generated response and the recipient are the same in both
    cases. *)
Theorem escalation_appends_notice
  (R : Runtime) (this : ChatbotProcessor.t) (chatbotId : string)
  (contact : Contact.t) (message : Message.t) (conversation : Conversation.t)
  (w w' : World) :
  ChatbotProcessor.processBotResponse R this chatbotId contact message
    conversation w = (Returned true, w') ->
  exists chatbot generated stored,
    Storage.getChatbot (store w) chatbotId = Some chatbot
    /\ ChatbotProcessor.generateResponse R chatbot (textOf message)
       = Some generated
    /\ Storage.getContact (store w) (Contact.id contact) = Some stored
    /\ let escalated := mentionsEscalation R (textOf message) in
       let reply := replyFor R generated (textOf message) in
       (reply = generated ++ ChatbotProcessor.handoffNotice
        <-> escalated = true)
       /\ (reply = generated <-> escalated = false)
       /\ requests w'
          = (requests w
             ++ [WhatsAppService.messagesRequest
                   (ChatbotProcessor.whatsappService this)
                   (WhatsAppService.textMessage (Contact.phone stored) reply)])%list
       /\ (exists earlier botMessage,
             Storage.messages (store w') = (earlier ++ [botMessage])%list
             /\ length earlier = length (Storage.messages (store w))
             /\ Message.content botMessage = Some reply
             /\ Message.conversationId botMessage = Conversation.id conversation
             /\ Message.contactId botMessage = Contact.id contact
             /\ Message.direction botMessage = outbound
             /\ Message.isFromBot botMessage = true)
       /\ (exists interaction,
             Storage.botInteractions (store w')
             = (Storage.botInteractions (store w) ++ [interaction])%list
             /\ BotInteraction.response interaction = reply
             /\ BotInteraction.wasEscalated interaction = escalated).
Proof.
  intros Hrun.
  pose proof (processBotResponse_run R this chatbotId contact message
                conversation w) as H. cbv zeta in H. rewrite Hrun in H.
  destruct (Storage.getChatbot (store w) chatbotId) as [chatbot|];
    [| discriminate].
  destruct (Chatbot.isActive chatbot); [| discriminate].
  destruct H as (generated & Hgenerated & H).
  set (reply := replyFor R generated (textOf message)) in *.
  set (w0 := mkWorld (store w) (requests w) (S (clockReads w))) in *.
  pose proof (processOutgoingMessage_run R
                (ChatbotProcessor.whatsappService this)
                (Conversation.id conversation) (Contact.id contact) reply
                MessageType.text w0) as Hout.
  change (store w0) with (store w) in Hout.
  destruct (Storage.getContact (store w) (Contact.id contact)) as [stored|].
  2:{ rewrite Hout in H. discriminate. }
  destruct Hout as (result & w1 & Hsend & Hstore & Hout).
  destruct (sendTextMessage_returns R (ChatbotProcessor.whatsappService this)
              (Contact.phone stored) reply w0)
    as (result' & w1' & Hsend' & _ & _ & Hlog & Hsuccess & _).
  rewrite Hsend in Hsend'. inversion Hsend'; subst result' w1'; clear Hsend'.
  destruct (WhatsAppService.success result).
  2:{ rewrite Hout in H. discriminate. }
  symmetry in Hsuccess. apply andb_true_iff in Hsuccess.
  destruct Hsuccess as [Hconfigured _]. rewrite Hconfigured in Hlog.
  destruct Hout as (w2 & Hout & Hlog2 & Hmessages & _ & _ & _ & Hinteractions).
  rewrite Hout in H.
  destruct H as (w3 & interaction & Hw3 & Hlog3 & Hmessages3 & Hinteractions3
                 & _ & Hresponse & Hflag).
  inversion Hw3; subst w3; clear Hw3.
  exists chatbot, generated, stored.
  split; [reflexivity |]. split; [exact Hgenerated |]. split; [reflexivity |].
  cbv zeta. fold reply. split; [| split; [| split; [| split]]].
  - unfold reply, replyFor.
    destruct (mentionsEscalation R (textOf message)); split;
      try reflexivity; try discriminate.
    intros Hsame. symmetry in Hsame.
    apply append_notice_differs in Hsame; [contradiction | reflexivity].
  - unfold reply, replyFor.
    destruct (mentionsEscalation R (textOf message)); split;
      try reflexivity; try discriminate.
    intros Hsame.
    apply append_notice_differs in Hsame; [contradiction | reflexivity].
  - rewrite Hlog3, Hlog2, Hlog. reflexivity.
  - rewrite Hmessages3, Hmessages.
    rewrite (patched_last _ (Storage.messages (store w))).
    eexists. eexists. split; [reflexivity |].
    split; [apply length_map |]. repeat split.
  - exists interaction. rewrite Hinteractions3, Hinteractions.
    repeat split; assumption.
Qed.

Lemma escalation_appends_notice_witness :
  exists chatbot generated stored,
    Storage.getChatbot (store Demo.busy) "bot-1" = Some chatbot
    /\ ChatbotProcessor.generateResponse Demo.runtime chatbot (textOf Demo.complaint)
       = Some generated
    /\ Storage.getContact (store Demo.busy) (Contact.id Demo.customer) = Some stored
    /\ let escalated := mentionsEscalation Demo.runtime (textOf Demo.complaint) in
       let reply := replyFor Demo.runtime generated (textOf Demo.complaint) in
       (reply = generated ++ ChatbotProcessor.handoffNotice
        <-> escalated = true)
       /\ (reply = generated <-> escalated = false)
       /\ requests Demo.answered
          = (requests Demo.busy
             ++ [WhatsAppService.messagesRequest
                   (ChatbotProcessor.whatsappService Demo.processor)
                   (WhatsAppService.textMessage (Contact.phone stored) reply)])%list
       /\ (exists earlier botMessage,
             Storage.messages (store Demo.answered) = (earlier ++ [botMessage])%list
             /\ length earlier = length (Storage.messages (store Demo.busy))
             /\ Message.content botMessage = Some reply
             /\ Message.conversationId botMessage = Conversation.id Demo.thread
             /\ Message.contactId botMessage = Contact.id Demo.customer
             /\ Message.direction botMessage = outbound
             /\ Message.isFromBot botMessage = true)
       /\ (exists interaction,
             Storage.botInteractions (store Demo.answered)
             = (Storage.botInteractions (store Demo.busy) ++ [interaction])%list
             /\ BotInteraction.response interaction = reply
             /\ BotInteraction.wasEscalated interaction = escalated).
Proof.
  apply (escalation_appends_notice Demo.runtime Demo.processor "bot-1"
           Demo.customer Demo.complaint Demo.thread Demo.busy Demo.answered).
  vm_compute. reflexivity.
Defined.


(* ================================================================== *)
(** * Lists of rows                                                    *)
(* ================================================================== *)

Lemma find_app_last {A} (p : A -> bool) (l : list A) (x : A) :
  find p l = None -> find p (l ++ [x]) = if p x then Some x else None.
Proof.
  induction l as [|y l IH]; simpl; [reflexivity |].
  destruct (p y); [discriminate | exact IH].
Qed.

Lemma find_map_kept {A} (p : A -> bool) (g : A -> A) (l : list A) (v : A) :
  (forall x, p (g x) = p x) ->
  find p l = Some v -> find p (map g l) = Some (g v).
Proof.
  intros Hp. induction l as [|y l IH]; simpl; [discriminate |].
  rewrite Hp. destruct (p y); [| exact IH].
  intros H. inversion H. reflexivity.
Qed.

Lemma find_present {A} (p : A -> bool) (l : list A) (x : A) :
  In x l -> p x = true -> exists y, find p l = Some y /\ p y = true.
Proof.
  intros Hin Hpx. destruct (find p l) as [y|] eqn:Hfind.
  - exists y. split; [reflexivity |]. now apply find_some in Hfind.
  - rewrite (find_none _ _ Hfind x Hin) in Hpx. discriminate.
Qed.




(* ================================================================== *)
(** * Ingestion path                                                   *)
(* ================================================================== *)

(** The contact block creates the contact of an unknown phone; for a known
    one it calls [updateContact(contact.id, {})], which throws before any
    write. *)
Lemma findOrCreateContact_run (R : Runtime)
  (whatsappAccountId phone userId : string) (w : World) :
  WhatsAppService.findOrCreateContact R whatsappAccountId phone userId w
  = match Storage.getContactByPhone (store w) phone userId with
    | Some _ => (Thrown (Error "No values to set"), w)
    | None =>
        let contact := newContact R (store w) whatsappAccountId phone userId in
        (Returned (Some contact),
         mkWorld (Storage.with_contacts (store w)
                    (Storage.contacts (store w) ++ [contact]))
                 (requests w) (clockReads w))
    end.
Proof.
  unfold WhatsAppService.findOrCreateContact. rewrite bind_query.
  destruct (Storage.getContactByPhone (store w) phone userId); reflexivity.
Qed.

Lemma findOrCreateConversation_run (R : Runtime)
  (whatsappAccountId userId : string) (contact : Contact.t) (w : World) :
  exists conversation w',
    WhatsAppService.findOrCreateConversation R whatsappAccountId userId contact w
    = (Returned (Some conversation), w')
    /\ requests w' = requests w
    /\ clockReads w' = clockReads w
    /\ match Storage.getConversationByContact (store w) (Contact.id contact) with
       | Some existing =>
           store w'
           = Storage.with_conversations (store w)
               (map (bump existing) (Storage.conversations (store w)))
           /\ Conversation.unreadCount conversation
              = Some (WhatsAppService.or_zero (Conversation.unreadCount existing) + 1)%Z
       | None =>
           conversation
           = Conversation.make (newId R (store w)) userId (Contact.id contact)
               whatsappAccountId (Some 1%Z) None
           /\ store w'
              = Storage.with_conversations (store w)
                  (Storage.conversations (store w) ++ [conversation])
       end.
Proof.
  unfold WhatsAppService.findOrCreateConversation. rewrite bind_query.
  destruct (Storage.getConversationByContact (store w) (Contact.id contact))
    as [existing|] eqn:Hfound.
  - unfold update, Storage.updateConversation.
    cbn [Storage.noConversationValue Storage.set_unreadCount
         Storage.set_lastMessageAt].
    fold (bump existing).
    apply find_some in Hfound. destruct Hfound as [Hin _].
    destruct (find_present
                (fun c => Conversation.id c =? Conversation.id existing)
                _ existing Hin (String.eqb_refl _)) as (row & Hrow & Hid).
    unfold Storage.getConversation.
    cbn [Storage.conversations Storage.with_conversations].
    rewrite (find_map_kept _ (bump existing) _ row); [| | exact Hrow].
    + do 2 eexists. split; [reflexivity |]. simpl. repeat split.
      unfold bump. rewrite Hid. reflexivity.
    + intros c. unfold bump.
      destruct (Conversation.id c =? Conversation.id existing) eqn:Hc;
        cbn; rewrite ?Hc; reflexivity.
  - do 2 eexists. split; [reflexivity |]. simpl. repeat split.
Qed.



(** An inbound message from a phone that already has a contact is never
    stored: the empty contact update throws before anything is written. *)
Lemma processIncomingMessage_known_contact (R : Runtime)
  (this : WhatsAppService.t) (whatsappAccountId : string)
  (incomingMessage : IncomingWhatsAppMessage.t) (account : WhatsappAccount.t)
  (existing : Contact.t) (w : World) :
  Storage.getWhatsappAccount (store w) whatsappAccountId = Some account ->
  Storage.getContactByPhone (store w)
    (IncomingWhatsAppMessage.from incomingMessage)
    (WhatsappAccount.userId account) = Some existing ->
  WhatsAppService.processIncomingMessage R this whatsappAccountId
    incomingMessage w
  = (Thrown (Error "No values to set"), w).
Proof.
  intros Haccount Hfound. unfold WhatsAppService.processIncomingMessage.
  rewrite bind_query, Haccount. cbv zeta.
  rewrite bind_run, findOrCreateContact_run, Hfound. reflexivity.
Qed.


(** C4. At a store that holds the customer with phone 5551234 and a
    conversation of theirs with an unread count of 1, a further inbound
    message from that phone is not counted: [processIncomingMessage] throws
    "No values to set" at [updateContact(contact.id, {})], before the
    conversation is looked at, and the world, the counter included, is as it
    was; the increment to 2 that the code goes on to compute is never
    reached. *)
Theorem known_contact_inbound_not_counted :
  Storage.getConversationByContact (store Demo.busy) "c-1" = Some Demo.thread
  /\ Conversation.unreadCount Demo.thread = Some 1%Z
  /\ WhatsAppService.processIncomingMessage Demo.runtime Demo.service "acc-1"
       (Demo.hello "5551234" "Hola de nuevo") Demo.busy
     = (Thrown (Error "No values to set"), Demo.busy).
Proof.
  split; [reflexivity |]. split; [reflexivity |].
  apply (processIncomingMessage_known_contact Demo.runtime Demo.service
           "acc-1" (Demo.hello "5551234" "Hola de nuevo") Demo.account
           Demo.customer Demo.busy); reflexivity.
Qed.

(** The outgoing path leaves every field of every conversation but
    [lastMessageAt] as it was. *)
Lemma outgoing_keeps_counters
  (R : Runtime) (this : WhatsAppService.t)
  (conversationId contactId content : string) (type : MessageType.t)
  (wo : World) :
  map sansLastMessageAt
      (Storage.conversations
         (store (snd (WhatsAppService.processOutgoingMessage R this
                        conversationId contactId content type wo))))
  = map sansLastMessageAt (Storage.conversations (store wo)).
Proof.
  pose proof (processOutgoingMessage_run R this conversationId contactId
                content type wo) as H.
  destruct (Storage.getContact (store wo) contactId) as [contact|].
  - destruct H as (result & w1 & _ & Hstore & H).
    destruct (WhatsAppService.success result).
    + destruct H as (w2 & -> & _ & _ & Hconversations & _). exact Hconversations.
    + rewrite H. simpl. now rewrite Hstore.
  - rewrite H. reflexivity.
Qed.

Lemma unreferenced_row (id : string) (st : Storage.Store) :
  unreferenced id st = true ->
  forall v, In v (Storage.conversations st) ->
            (Conversation.contactId v =? id) = false.
Proof.
  unfold unreferenced. rewrite forallb_forall. intros H v Hv.
  apply negb_true_iff. now apply H.
Qed.

Lemma unreferenced_find (id : string) (st : Storage.Store) :
  unreferenced id st = true -> Storage.getConversationByContact st id = None.
Proof.
  intros H. unfold Storage.getConversationByContact.
  destruct (find _ _) as [v|] eqn:Hfind; [| reflexivity].
  apply find_some in Hfind. destruct Hfind as [Hin Hv].
  rewrite (unreferenced_row id st H v Hin) in Hv. discriminate.
Qed.

Lemma filter_map_length {A} (f : A -> bool) (g : A -> A) (l : list A) :
  (forall x, f (g x) = f x) ->
  length (filter f (map g l)) = length (filter f l).
Proof.
  intros Hf. induction l as [|x l IH]; simpl; [reflexivity |].
  rewrite Hf. destruct (f x); simpl; now rewrite IH.
Qed.




(* ================================================================== *)
(** * Password login                                                   *)
(* ================================================================== *)

Lemma verifyToken_fresh (R : Runtime) (userId : string) (issued : Z) (wv : World) :
  (now R (clockReads wv) / 1000 < issued / 1000 + Auth.sevenDays)%Z ->
  fst (Auth.verifyToken R
         (Auth.jwt_sign userId (Auth.JWT_SECRET (env R)) Auth.sevenDays issued)
         wv)
  = Returned (Some (Auth.mkPayload userId (issued / 1000)
                      (issued / 1000 + Auth.sevenDays))).
Proof.
  intros Hvalid. unfold Auth.verifyToken, Auth.jwt_sign, Auth.jwt_verify.
  rewrite bind_run. cbn [dateNow]. rewrite String.eqb_refl. cbn [negb].
  apply Z.leb_gt in Hvalid. rewrite Hvalid. reflexivity.
Qed.

Lemma verifyToken_expired (R : Runtime) (userId : string) (issued : Z) (wv : World) :
  (issued / 1000 + Auth.sevenDays <= now R (clockReads wv) / 1000)%Z ->
  fst (Auth.verifyToken R
         (Auth.jwt_sign userId (Auth.JWT_SECRET (env R)) Auth.sevenDays issued)
         wv)
  = Returned None.
Proof.
  intros Hlate. unfold Auth.verifyToken, Auth.jwt_sign, Auth.jwt_verify.
  rewrite bind_run. cbn [dateNow]. rewrite String.eqb_refl. cbn [negb].
  apply Z.leb_le in Hlate. rewrite Hlate. reflexivity.
Qed.

(** C7. When the row stored for the email has a password (to the code, as
    to bcrypt, the empty string is none) and [bcrypt.compare] accepts the
    supplied password for it, [loginWithEmail] returns that user with a
    token which [verifyToken] maps back to the user's id, at every clock
    reading within the seven days the token is signed for; for every other
    email and password [loginWithEmail] returns [null] with the world as it
    was, and does not throw. *)
Theorem login_token_verifies_until_expiry
  (R : Runtime) (email password : string) (w : World) :
  let run := Auth.loginWithEmail R email password w in
  match Storage.getUserByEmail (store w) email with
  | Some user =>
      match User.password user with
      | Some hash =>
          if JS.truthy_string hash && bcrypt_compare R password hash then
            exists t w',
              run = (Returned (Some (user, t)), w')
              /\ forall wv,
                   (now R (clockReads wv) / 1000
                    < now R (S (clockReads w)) / 1000 + Auth.sevenDays)%Z ->
                   exists payload,
                     fst (Auth.verifyToken R t wv) = Returned (Some payload)
                     /\ Auth.userId payload = User.id user
          else run = (Returned None, w)
      | None => run = (Returned None, w)
      end
  | None => run = (Returned None, w)
  end.
Proof.
  intros run. subst run. unfold Auth.loginWithEmail. rewrite bind_query.
  destruct (Storage.getUserByEmail (store w) email) as [user|];
    [| reflexivity].
  destruct (User.password user) as [hash|]; [| reflexivity].
  destruct (JS.truthy_string hash); [| reflexivity].
  cbn [negb andb]. unfold Auth.verifyPassword. rewrite bind_run. cbn [ret].
  destruct (bcrypt_compare R password hash); [| reflexivity].
  cbn [negb]. do 2 eexists. split; [reflexivity |].
  intros wv Hvalid. eexists. split.
  - apply verifyToken_fresh. exact Hvalid.
  - reflexivity.
Qed.

Lemma login_token_verifies_until_expiry_witness :
  exists t w',
    Auth.loginWithEmail Demo.runtime "alice@example.com" "secret" Demo.world
    = (Returned (Some (Demo.alice, t)), w')
    /\ exists payload,
         fst (Auth.verifyToken Demo.runtime t (mkWorld Demo.initial [] 2))
         = Returned (Some payload)
         /\ Auth.userId payload = "user-1".
Proof.
  pose proof (login_token_verifies_until_expiry Demo.runtime
                "alice@example.com" "secret" Demo.world) as H.
  simpl in H. destruct H as (t & w' & Hrun & Hverify).
  exists t, w'. split; [exact Hrun |].
  apply (Hverify (mkWorld Demo.initial [] 2)). vm_compute. reflexivity.
Defined.

(** Once the clock has reached the expiry, seven days after the login, the
    token is rejected. *)
Example expired_token_is_rejected :
  exists t w',
    Auth.loginWithEmail Demo.late "alice@example.com" "secret" Demo.world
    = (Returned (Some (Demo.alice, t)), w')
    /\ fst (Auth.verifyToken Demo.late t w') = Returned None.
Proof. do 2 eexists. split; vm_compute; reflexivity. Qed.

(* ================================================================== *)
(** * Runs of the model                                                *)
(* ================================================================== *)

Example includes_inside : JS.includes "buenas tardes a todos" "tardes" = true.
Proof. reflexivity. Qed.

Example includes_absent : JS.includes "hola" "precio" = false.
Proof. reflexivity. Qed.

Example pricing_answer :
  ChatbotProcessor.generateResponse Demo.runtime Demo.bot "Precio?"
  = Some ChatbotProcessor.pricingResponse.
Proof. reflexivity. Qed.

Example inherited_template_answer :
  ChatbotProcessor.generateResponse Demo.runtime
    (Chatbot.make "bot-2" "user-1" "Acme" "toString" true) "hola"
  = Some ChatbotProcessor.defaultResponse.
Proof. reflexivity. Qed.

Example unknown_template_answer :
  ChatbotProcessor.generateResponse Demo.runtime
    (Chatbot.make "bot-3" "user-1" "Acme" "retail" true) "hola"
  = Some ChatbotProcessor.unknownTemplateResponse.
Proof. reflexivity. Qed.

Example handshake_default_secret :
  WhatsAppService.verifyWebhook Demo.noEnv "mi_token_de_verificacion"
    "subscribe" "1158201444"
  = Some "1158201444".
Proof. reflexivity. Qed.

Example refused_send_is_not_stored :
  let run := WhatsAppService.processOutgoingMessage Demo.offline Demo.service
               "v-1" "c-1" "Hola" MessageType.text Demo.busy in
  fst run = Thrown (SendError (JS.Str "Invalid token"))
  /\ store (snd run) = Demo.inbox.
Proof. split; reflexivity. Qed.

(** The scenario of the specification: "precio" from 5551234 to an account
    whose owner runs an active corporate chatbot. *)
Example pricing_scenario :
  let received :=
    WhatsAppService.processIncomingMessage Demo.runtime Demo.service "acc-1"
      (Demo.hello "5551234" "precio") Demo.world in
  exists result,
    fst received = Returned result
    /\ let answered :=
         ChatbotProcessor.processBotResponse Demo.runtime Demo.processor
           "bot-1" (WhatsAppService.contact result)
           (WhatsAppService.message result)
           (WhatsAppService.conversation result) (snd received) in
       fst answered = Returned true
       /\ map Message.direction (Storage.messages (store (snd answered)))
          = [inbound; outbound]
       /\ map Message.content (Storage.messages (store (snd answered)))
          = [Some "precio"; Some ChatbotProcessor.pricingResponse]
       /\ map BotInteraction.wasEscalated
              (Storage.botInteractions (store (snd answered)))
          = [false].
Proof. eexists. split; [reflexivity |]. vm_compute. repeat split. Qed.

(* ================================================================== *)
(** * Gateway: requests issued                                         *)
(* ================================================================== *)

(** X1. A send function posts exactly one request when the credentials are
    configured, whatever the provider answers, and none otherwise, in which
    case it returns the fixed "not configured" error with the world as it
    was; it never writes to the store nor reads the clock. *)
Theorem send_posts_once_iff_configured
  (R : Runtime) (this : WhatsAppService.t) (message : WhatsAppMessage.t)
  (to text : string) (w : World) :
  let run := WhatsAppService.sendMessage R this message w in
  let runText := WhatsAppService.sendTextMessage R this to text w in
  store (snd run) = store w /\ clockReads (snd run) = clockReads w
  /\ store (snd runText) = store w /\ clockReads (snd runText) = clockReads w
  /\ if WhatsAppService.validateCredentials this then
       requests (snd run)
       = (requests w ++ [WhatsAppService.messagesRequest this message])%list
       /\ requests (snd runText)
          = (requests w
             ++ [WhatsAppService.messagesRequest this
                   (WhatsAppService.textMessage to text)])%list
     else
       run = (Returned notConfigured, w)
       /\ runText = (Returned notConfigured, w).
Proof.
  intros run runText. subst run runText.
  destruct (sendMessage_returns R this message w)
    as (r1 & w1 & Hrun1 & Hstore1 & Hclock1 & Hlog1 & _).
  destruct (sendTextMessage_returns R this to text w)
    as (r2 & w2 & Hrun2 & Hstore2 & Hclock2 & Hlog2 & _).
  rewrite Hrun1, Hrun2. cbn [snd].
  repeat (split; [assumption |]).
  destruct (WhatsAppService.validateCredentials this) eqn:Hc.
  - split; assumption.
  - unfold WhatsAppService.sendMessage, WhatsAppService.sendTextMessage in *.
    rewrite Hc in Hrun1, Hrun2. cbn in Hrun1, Hrun2.
    rewrite <- Hrun1, <- Hrun2. split; reflexivity.
Qed.

Lemma or_null_nullOrTruthy (v : JS.value) : nullOrTruthy (JS.or_value v JS.Null).
Proof.
  unfold nullOrTruthy, JS.or_value.
  destruct (JS.truthy v) eqn:Hv; [right; exact Hv | left; reflexivity].
Qed.

Lemma getMediaUrl_facts (R : Runtime) (this : WhatsAppService.t)
  (mediaId : string) (w : World) :
  exists url,
    WhatsAppService.getMediaUrl R this mediaId w
    = (Returned url,
       mkWorld (store w) (requests w ++ [mediaRequest this mediaId])
               (clockReads w))
    /\ nullOrTruthy url.
Proof.
  unfold WhatsAppService.getMediaUrl. rewrite bind_run. cbn [doFetch].
  fold (mediaRequest this mediaId).
  destruct (fetch R (requests w) _) as [e | ok [data | e]];
    try (eexists; split; [reflexivity | left; reflexivity]).
  destruct (JS.get data "url") as [url | e].
  - eexists; split; [reflexivity | apply or_null_nullOrTruthy].
  - eexists; split; [reflexivity | left; reflexivity].
Qed.

(** X2. [getMediaUrl] returns on every input, with [null] or a truthy value;
    it issues one GET for the media id, whether or not the credentials are
    configured (there is no check), and leaves the store and the clock
    alone. *)
Theorem getMediaUrl_returns_null_or_truthy
  (R : Runtime) (this : WhatsAppService.t) (mediaId : string) (w : World) :
  exists url,
    WhatsAppService.getMediaUrl R this mediaId w
    = (Returned url,
       mkWorld (store w) (requests w ++ [mediaRequest this mediaId])
               (clockReads w))
    /\ nullOrTruthy url.
Proof. apply getMediaUrl_facts. Qed.

Lemma readContent_cases
  (R : Runtime) (this : WhatsAppService.t)
  (incomingMessage : IncomingWhatsAppMessage.t) (w : World) :
  let run := WhatsAppService.readContent R this incomingMessage w in
  match IncomingWhatsAppMessage.type incomingMessage with
  | MessageType.text =>
      run = (Returned (JS.or_string (IncomingWhatsAppMessage.text incomingMessage)
                         EmptyString, JS.Undefined), w)
  | type =>
      exists mediaUrl,
        fst run = Returned (MessageType.upperTag type, mediaUrl)
        /\ store (snd run) = store w
        /\ match WhatsAppService.attachment incomingMessage with
           | Some media =>
               if JS.truthy_string (media_id media) then
                 requests (snd run)
                 = (requests w ++ [mediaRequest this (media_id media)])%list
                 /\ nullOrTruthy mediaUrl
               else snd run = w /\ mediaUrl = JS.Undefined
           | None => snd run = w /\ mediaUrl = JS.Undefined
           end
  end.
Proof.
  intros run. subst run. unfold WhatsAppService.readContent.
  destruct (IncomingWhatsAppMessage.type incomingMessage); [reflexivity | ..];
    rewrite bind_run;
    (destruct (WhatsAppService.attachment incomingMessage) as [media|];
     [destruct (JS.truthy_string (media_id media));
      [destruct (getMediaUrl_facts R this (media_id media) w)
         as (url & Hrun & Hurl);
       rewrite Hrun; exists url; cbn; repeat split; exact Hurl
      | eexists; cbn; repeat split]
     | eexists; cbn; repeat split]).
Qed.

(** X3. The content recorded for an inbound message: a text message yields
    its body (the empty string when there is none) without any request; a
    media message yields the bracketed upper-case type, and its media URL is
    fetched, with one GET, exactly when the attachment carries a non-empty
    id, and stays [undefined] otherwise. *)
Theorem readContent_by_type
  (R : Runtime) (this : WhatsAppService.t)
  (incomingMessage : IncomingWhatsAppMessage.t) (w : World) :
  let run := WhatsAppService.readContent R this incomingMessage w in
  match IncomingWhatsAppMessage.type incomingMessage with
  | MessageType.text =>
      run = (Returned (JS.or_string (IncomingWhatsAppMessage.text incomingMessage)
                         EmptyString, JS.Undefined), w)
  | type =>
      exists mediaUrl,
        fst run = Returned (MessageType.upperTag type, mediaUrl)
        /\ store (snd run) = store w
        /\ match WhatsAppService.attachment incomingMessage with
           | Some media =>
               if JS.truthy_string (media_id media) then
                 requests (snd run)
                 = (requests w ++ [mediaRequest this (media_id media)])%list
                 /\ nullOrTruthy mediaUrl
               else snd run = w /\ mediaUrl = JS.Undefined
           | None => snd run = w /\ mediaUrl = JS.Undefined
           end
  end.
Proof. apply readContent_cases. Qed.

(* ================================================================== *)
(** * Outgoing path: what is sent and what is touched                  *)
(* ================================================================== *)

Lemma conversations_with_messages (st : Storage.Store) (l : list Message.t) :
  Storage.conversations (Storage.with_messages st l) = Storage.conversations st.
Proof. reflexivity. Qed.

(** The world a successful outgoing run ends in. *)
Lemma processOutgoingMessage_world (R : Runtime) (this : WhatsAppService.t)
  (conversationId contactId content : string) (type : MessageType.t)
  (w w1 : World) (contact : Contact.t) (result : WhatsAppService.SendResult) :
  Storage.getContact (store w) contactId = Some contact ->
  WhatsAppService.sendTextMessage R this (Contact.phone contact) content w
  = (Returned result, w1) ->
  WhatsAppService.success result = true ->
  let message := outboundRow (newId R (store w)) conversationId contactId
                   result type content in
  let saved := Storage.with_messages (store w)
                 (Storage.messages (store w) ++ [message]) in
  WhatsAppService.processOutgoingMessage R this conversationId contactId
    content type w
  = (Returned message,
     match Storage.getConversation (store w) conversationId with
     | Some _ =>
         mkWorld (Storage.with_conversations saved
                    (map (touch conversationId (now R (clockReads w)))
                         (Storage.conversations (store w))))
                 (requests w1) (S (clockReads w))
     | None => mkWorld saved (requests w1) (clockReads w)
     end).
Proof.
  intros Hcontact Hsend Hsuccess message saved.
  destruct (sendTextMessage_returns R this (Contact.phone contact) content w)
    as (result' & w1' & Hsend' & Hstore & Hclock & _).
  rewrite Hsend in Hsend'. inversion Hsend'; subst result' w1'; clear Hsend'.
  unfold WhatsAppService.processOutgoingMessage.
  rewrite bind_query, Hcontact, bind_run, Hsend, Hsuccess.
  destruct w1 as [st1 log1 reads1]; simpl in Hstore, Hclock; subst st1 reads1.
  subst message saved.
  unfold bind, freshId, command, query, dateNow; simpl.
  unfold Storage.getConversation. rewrite conversations_with_messages.
  destruct (find _ (Storage.conversations (store w))); reflexivity.
Qed.

Lemma messagesRequest_postsText (this : WhatsAppService.t) (to text : string) :
  postsText to text
    (WhatsAppService.messagesRequest this (WhatsAppService.textMessage to text)).
Proof. repeat split. Qed.

(** X4. The outgoing path always posts a text message: whatever [type] is
    passed, the one request it issues (when the contact exists and the
    credentials are configured) is a POST of a message of type text whose
    body is [content] and whose recipient is the stored contact's phone,
    while the saved row records the [type], the conversation id and the
    contact id it was given. *)
Theorem outgoing_posts_text_whatever_type
  (R : Runtime) (this : WhatsAppService.t)
  (conversationId contactId content : string) (type : MessageType.t)
  (w : World) :
  let run := WhatsAppService.processOutgoingMessage R this conversationId
               contactId content type w in
  match Storage.getContact (store w) contactId with
  | Some contact =>
      if WhatsAppService.validateCredentials this then
        exists request,
          requests (snd run) = (requests w ++ [request])%list
          /\ postsText (Contact.phone contact) content request
      else requests (snd run) = requests w
  | None => requests (snd run) = requests w
  end
  /\ match fst run with
     | Returned message =>
         Message.type message = type
         /\ Message.conversationId message = conversationId
         /\ Message.contactId message = contactId
     | Thrown _ => True
     end.
Proof.
  intros run. subst run.
  pose proof (processOutgoingMessage_run R this conversationId contactId
                content type w) as H.
  destruct (Storage.getContact (store w) contactId) as [contact|].
  2:{ rewrite H. split; [reflexivity | exact I]. }
  destruct H as (result & w1 & Hsend & _ & H).
  destruct (sendTextMessage_returns R this (Contact.phone contact) content w)
    as (result' & w1' & Hsend' & _ & _ & Hlog & _).
  rewrite Hsend in Hsend'. inversion Hsend'; subst result' w1'; clear Hsend'.
  assert (Hrequests :
            forall w2, requests w2 = requests w1 ->
              if WhatsAppService.validateCredentials this then
                exists request,
                  requests w2 = (requests w ++ [request])%list
                  /\ postsText (Contact.phone contact) content request
              else requests w2 = requests w).
  { intros w2 Hlog2. rewrite Hlog2, Hlog.
    destruct (WhatsAppService.validateCredentials this); [| reflexivity].
    eexists. split; [reflexivity | apply messagesRequest_postsText]. }
  destruct (WhatsAppService.success result).
  - destruct H as (w2 & Hrun & Hlog2 & _). rewrite Hrun. cbn [fst snd].
    split; [apply Hrequests; exact Hlog2 | repeat split].
  - rewrite H. cbn [fst snd]. split; [now apply Hrequests | exact I].
Qed.

(** X5. The outgoing path does not check that the conversation exists: when
    the send succeeds the message row is saved under the given conversation
    id either way.  If a conversation has that id, its [lastMessageAt] (and
    nothing else of it) is set to the clock reading taken then; if none has,
    the conversations are left as they were and the clock is not read. *)
Theorem outgoing_touches_conversation_if_any
  (R : Runtime) (this : WhatsAppService.t)
  (conversationId contactId content : string) (type : MessageType.t)
  (w : World) :
  let run := WhatsAppService.processOutgoingMessage R this conversationId
               contactId content type w in
  match fst run with
  | Returned message =>
      In message (Storage.messages (store (snd run)))
      /\ Message.conversationId message = conversationId
      /\ match Storage.getConversation (store w) conversationId with
         | Some before =>
             exists after,
               Storage.getConversation (store (snd run)) conversationId
               = Some after
               /\ Conversation.lastMessageAt after
                  = Some (now R (clockReads w))
               /\ sansLastMessageAt after = sansLastMessageAt before
               /\ clockReads (snd run) = S (clockReads w)
         | None =>
             Storage.conversations (store (snd run))
             = Storage.conversations (store w)
             /\ clockReads (snd run) = clockReads w
         end
  | Thrown _ => store (snd run) = store w
  end.
Proof.
  intros run. subst run.
  pose proof (processOutgoingMessage_run R this conversationId contactId
                content type w) as H.
  destruct (Storage.getContact (store w) contactId) as [contact|] eqn:Hcontact.
  2:{ rewrite H. reflexivity. }
  destruct H as (result & w1 & Hsend & Hstore & H).
  destruct (WhatsAppService.success result) eqn:Hsuccess.
  2:{ rewrite H. exact Hstore. }
  clear H.
  rewrite (processOutgoingMessage_world R this conversationId contactId
             content type w w1 contact result Hcontact Hsend Hsuccess).
  cbn [fst].
  destruct (Storage.getConversation (store w) conversationId)
    as [before|] eqn:Hbefore; cbn [snd store clockReads].
  - split; [cbn; apply in_or_app; right; left; reflexivity |].
    split; [reflexivity |].
    exists (touch conversationId (now R (clockReads w)) before).
    unfold Storage.getConversation in *.
    cbn [Storage.conversations Storage.with_conversations].
    split.
    + apply find_map_kept; [| exact Hbefore].
      intros c. unfold touch.
      destruct (Conversation.id c =? conversationId) eqn:Hc;
        cbn; rewrite ?Hc; reflexivity.
    + apply find_some in Hbefore. destruct Hbefore as [_ Hid].
      unfold touch. rewrite Hid. repeat split.
  - split; [cbn; apply in_or_app; right; left; reflexivity |].
    repeat split.
Qed.

(* ================================================================== *)
(** * Bot dispatch: nothing is written unless it completes             *)
(* ================================================================== *)

(** X6. [processBotResponse] writes to the store only when it completes:
    when it returns [false] the world is exactly as before (no clock
    reading, no request), and when it throws, which it does only with the
    errors of the outgoing path, the store is as before: no reply row and
    no interaction are recorded for a reply that was not sent. *)
Theorem bot_writes_only_when_reply_sent
  (R : Runtime) (this : ChatbotProcessor.t) (chatbotId : string)
  (contact : Contact.t) (message : Message.t) (conversation : Conversation.t)
  (w : World) :
  let run := ChatbotProcessor.processBotResponse R this chatbotId contact
               message conversation w in
  match fst run with
  | Returned true =>
      length (Storage.messages (store (snd run)))
      = S (length (Storage.messages (store w)))
      /\ length (Storage.botInteractions (store (snd run)))
         = S (length (Storage.botInteractions (store w)))
  | Returned false => snd run = w
  | Thrown e =>
      store (snd run) = store w
      /\ (e = Error "Contact not found" \/ exists error, e = SendError error)
  end.
Proof.
  intros run. subst run.
  pose proof (processBotResponse_run R this chatbotId contact message
                conversation w) as H. cbv zeta in H.
  destruct (Storage.getChatbot (store w) chatbotId) as [chatbot|].
  2:{ rewrite H. reflexivity. }
  destruct (Chatbot.isActive chatbot).
  2:{ rewrite H. reflexivity. }
  destruct H as (generated & _ & H).
  set (reply := replyFor R generated (textOf message)) in *.
  set (w0 := mkWorld (store w) (requests w) (S (clockReads w))) in *.
  pose proof (processOutgoingMessage_run R
                (ChatbotProcessor.whatsappService this)
                (Conversation.id conversation) (Contact.id contact) reply
                MessageType.text w0) as Hout.
  change (store w0) with (store w) in Hout.
  destruct (Storage.getContact (store w) (Contact.id contact)) as [stored|].
  - destruct Hout as (result & w1 & _ & Hstore & Hout).
    destruct (WhatsAppService.success result).
    + destruct Hout as (w2 & Hout & _ & Hmessages & _ & _ & _ & Hinteractions).
      rewrite Hout in H.
      destruct H as (w3 & interaction & Hrun & _ & Hmessages3 & Hinteractions3 & _).
      rewrite Hrun. cbn [fst snd].
      rewrite Hmessages3, Hinteractions3, Hinteractions, length_map, Hmessages.
      rewrite !length_app. cbn. split; lia.
    + rewrite Hout in H. rewrite H. cbn [fst snd].
      split; [exact Hstore | right; eauto].
  - rewrite Hout in H. rewrite H. cbn [fst snd].
    split; [reflexivity | left; reflexivity].
Qed.

(* ================================================================== *)
(** * Ingestion path: the first message from a phone                   *)
(* ================================================================== *)

Lemma messages_with_contacts (st : Storage.Store) (l : list Contact.t) :
  Storage.messages (Storage.with_contacts st l) = Storage.messages st.
Proof. reflexivity. Qed.

Lemma first_inbound_rows
  (R : Runtime) (this : WhatsAppService.t) (whatsappAccountId : string)
  (incomingMessage : IncomingWhatsAppMessage.t) (account : WhatsappAccount.t)
  (w : World) :
  let phone := IncomingWhatsAppMessage.from incomingMessage in
  let userId := WhatsappAccount.userId account in
  Storage.getWhatsappAccount (store w) whatsappAccountId = Some account ->
  Storage.getContactByPhone (store w) phone userId = None ->
  unreferenced (newId R (store w)) (store w) = true ->
  exists result w',
    WhatsAppService.processIncomingMessage R this whatsappAccountId
      incomingMessage w = (Returned result, w')
    /\ let contact := WhatsAppService.contact result in
       let conversation := WhatsAppService.conversation result in
       let message := WhatsAppService.message result in
       contact = newContact R (store w) whatsappAccountId phone userId
       /\ Storage.contacts (store w')
          = (Storage.contacts (store w) ++ [contact])%list
       /\ sansLastMessageAt conversation
          = (Conversation.id conversation, userId, Contact.id contact,
             whatsappAccountId, Some 1%Z)
       /\ Storage.conversations (store w')
          = (Storage.conversations (store w) ++ [conversation])%list
       /\ Storage.messages (store w')
          = (Storage.messages (store w) ++ [message])%list
       /\ Message.contactId message = Contact.id contact
       /\ Message.conversationId message = Conversation.id conversation
       /\ Message.direction message = inbound
       /\ Message.status message = "delivered"
       /\ Message.whatsappMessageId message
          = JS.Str (IncomingWhatsAppMessage.id incomingMessage)
       /\ Message.type message = IncomingWhatsAppMessage.type incomingMessage
       /\ Message.content message
          = Some match IncomingWhatsAppMessage.type incomingMessage with
                 | MessageType.text =>
                     JS.or_string (IncomingWhatsAppMessage.text incomingMessage)
                       EmptyString
                 | type => MessageType.upperTag type
                 end
       /\ Storage.accounts (store w') = Storage.accounts (store w)
       /\ Storage.chatbots (store w') = Storage.chatbots (store w)
       /\ Storage.botInteractions (store w')
          = Storage.botInteractions (store w)
       /\ Storage.users (store w') = Storage.users (store w).
Proof.
  intros phone userId Haccount Hmissing Hfresh.
  unfold WhatsAppService.processIncomingMessage.
  rewrite bind_query, Haccount. cbv zeta. fold phone userId.
  rewrite bind_run, findOrCreateContact_run, Hmissing. cbv zeta.
  set (contact := newContact R (store w) whatsappAccountId phone userId).
  set (w1 := mkWorld _ (requests w) (clockReads w)).
  assert (Hmade : contact
                  = newContact R (store w) whatsappAccountId phone userId)
    by reflexivity.
  assert (Hstore1 : store w1
                    = Storage.with_contacts (store w)
                        (Storage.contacts (store w) ++ [contact]))
    by reflexivity.
  clearbody contact w1.
  cbn [defined]. rewrite bind_run. cbn [ret].
  destruct (findOrCreateConversation_run R whatsappAccountId userId contact w1)
    as (conversation & w2 & Hrun2 & _ & _ & Hconversation).
  assert (Hnone : Storage.getConversationByContact (store w1) (Contact.id contact)
                  = None).
  { rewrite Hstore1, Hmade. apply (unreferenced_find _ (store w) Hfresh). }
  rewrite Hnone in Hconversation. destruct Hconversation as [Hmade2 Hstore2].
  rewrite bind_run, Hrun2.
  pose proof (readContent_cases R this incomingMessage w2) as Hbody.
  cbv zeta in Hbody.
  destruct (WhatsAppService.readContent R this incomingMessage w2)
    as [[body|e] w3] eqn:Hrun3.
  2:{ destruct (IncomingWhatsAppMessage.type incomingMessage);
        [discriminate | destruct Hbody as (? & Habsurd & _); discriminate ..]. }
  assert (Hfacts : store w3 = store w2
                   /\ fst body
                      = match IncomingWhatsAppMessage.type incomingMessage with
                        | MessageType.text =>
                            JS.or_string
                              (IncomingWhatsAppMessage.text incomingMessage)
                              EmptyString
                        | type => MessageType.upperTag type
                        end).
  { destruct (IncomingWhatsAppMessage.type incomingMessage);
      [inversion Hbody; split; reflexivity
      | destruct Hbody as (url & Hreturned & Hstore & _);
        cbn in Hreturned, Hstore; inversion Hreturned; split;
        [exact Hstore | reflexivity] ..]. }
  destruct Hfacts as [Hstore3 Hcontent].
  rewrite bind_run, Hrun3. cbn [defined]. rewrite bind_run. cbn [ret].
  do 2 eexists. split; [reflexivity |].
  cbn [WhatsAppService.contact WhatsAppService.conversation
       WhatsAppService.message].
  unfold freshId, command, bind. cbn. rewrite Hstore3, Hstore2, Hstore1.
  cbn. rewrite Hcontent, Hmade2. cbn. repeat split.
Qed.

(** X7. The first inbound message from a phone unknown to the account's
    owner (the key handed out for the contact not being referred to yet)
    creates three rows that refer to each other and changes nothing else:
    a contact named after the phone and owned by the account's user, a
    conversation of that contact with an unread count of 1, and an inbound
    message with status "delivered", the provider's message id and the
    content read from the payload. *)
Theorem first_inbound_creates_linked_rows
  (R : Runtime) (this : WhatsAppService.t) (whatsappAccountId : string)
  (incomingMessage : IncomingWhatsAppMessage.t) (account : WhatsappAccount.t)
  (w : World) :
  let phone := IncomingWhatsAppMessage.from incomingMessage in
  let userId := WhatsappAccount.userId account in
  Storage.getWhatsappAccount (store w) whatsappAccountId = Some account ->
  Storage.getContactByPhone (store w) phone userId = None ->
  unreferenced (newId R (store w)) (store w) = true ->
  exists result w',
    WhatsAppService.processIncomingMessage R this whatsappAccountId
      incomingMessage w = (Returned result, w')
    /\ let contact := WhatsAppService.contact result in
       let conversation := WhatsAppService.conversation result in
       let message := WhatsAppService.message result in
       contact = newContact R (store w) whatsappAccountId phone userId
       /\ Storage.contacts (store w')
          = (Storage.contacts (store w) ++ [contact])%list
       /\ sansLastMessageAt conversation
          = (Conversation.id conversation, userId, Contact.id contact,
             whatsappAccountId, Some 1%Z)
       /\ Storage.conversations (store w')
          = (Storage.conversations (store w) ++ [conversation])%list
       /\ Storage.messages (store w')
          = (Storage.messages (store w) ++ [message])%list
       /\ Message.contactId message = Contact.id contact
       /\ Message.conversationId message = Conversation.id conversation
       /\ Message.direction message = inbound
       /\ Message.status message = "delivered"
       /\ Message.whatsappMessageId message
          = JS.Str (IncomingWhatsAppMessage.id incomingMessage)
       /\ Message.type message = IncomingWhatsAppMessage.type incomingMessage
       /\ Message.content message
          = Some match IncomingWhatsAppMessage.type incomingMessage with
                 | MessageType.text =>
                     JS.or_string (IncomingWhatsAppMessage.text incomingMessage)
                       EmptyString
                 | type => MessageType.upperTag type
                 end
       /\ Storage.accounts (store w') = Storage.accounts (store w)
       /\ Storage.chatbots (store w') = Storage.chatbots (store w)
       /\ Storage.botInteractions (store w')
          = Storage.botInteractions (store w)
       /\ Storage.users (store w') = Storage.users (store w).
Proof.
  intros phone userId. apply first_inbound_rows.
Qed.

Lemma first_inbound_creates_linked_rows_witness :
  exists result w',
    WhatsAppService.processIncomingMessage Demo.runtime Demo.service "acc-1"
      (Demo.hello "5559999" "Hola") Demo.busy = (Returned result, w')
    /\ Storage.contacts (store w')
       = [Demo.customer; WhatsAppService.contact result]
    /\ Contact.name (WhatsAppService.contact result) = "5559999".
Proof.
  destruct (first_inbound_creates_linked_rows Demo.runtime Demo.service "acc-1"
              (Demo.hello "5559999" "Hola") Demo.account Demo.busy
              eq_refl eq_refl eq_refl)
    as (result & w' & Hrun & Hcontact & Hcontacts & _).
  exists result, w'. split; [exact Hrun |]. split; [exact Hcontacts |].
  rewrite Hcontact. reflexivity.
Defined.

(* ================================================================== *)
(** * Responder: order of the keyword checks                           *)
(* ================================================================== *)

Lemma someIncluded_mentions (R : Runtime) (template : ChatbotProcessor.Template)
  (category content : string) :
  ChatbotProcessor.someIncluded template category (toLowerCase R content)
  = mentions R content (keywordsOf template category).
Proof.
  unfold ChatbotProcessor.someIncluded, mentions, keywordsOf, JS.some.
  destruct (ChatbotProcessor.assoc category template); reflexivity.
Qed.

(** X8. Within a template the first category of its [switch] case wins: a
    text without greeting keyword that mentions a pricing keyword
    (corporate), a products keyword (ecommerce) or an appointments keyword
    (healthcare) gets that category's answer, whatever keywords of the
    second category it also contains; so a healthcare text naming both an
    appointment and an emergency gets the appointment answer. *)
Theorem first_category_checked_wins
  (R : Runtime) (chatbot : Chatbot.t) (messageContent category response : string)
  (template : ChatbotProcessor.Template) :
  ChatbotProcessor.lookupTemplate (Chatbot.template chatbot)
    = ChatbotProcessor.Own template ->
  firstChecked (Chatbot.template chatbot) = Some (category, response) ->
  mentions R messageContent (keywordsOf template "greetings") = false ->
  mentions R messageContent (keywordsOf template category) = true ->
  ChatbotProcessor.generateResponse R chatbot messageContent = Some response.
Proof.
  intros Hlookup Hfirst Hgreeting Hcategory.
  unfold ChatbotProcessor.generateResponse.
  rewrite Hlookup. cbn [ChatbotProcessor.categories].
  rewrite someIncluded_mentions, Hgreeting.
  unfold firstChecked in Hfirst.
  destruct (Chatbot.template chatbot =? "corporate").
  { inversion Hfirst; subst category response.
    now rewrite someIncluded_mentions, Hcategory. }
  destruct (Chatbot.template chatbot =? "ecommerce").
  { inversion Hfirst; subst category response.
    now rewrite someIncluded_mentions, Hcategory. }
  destruct (Chatbot.template chatbot =? "healthcare").
  { inversion Hfirst; subst category response.
    now rewrite someIncluded_mentions, Hcategory. }
  discriminate.
Qed.

Lemma first_category_checked_wins_witness :
  ChatbotProcessor.generateResponse Demo.runtime
    (Chatbot.make "bot-4" "user-1" "Clinica" "healthcare" true)
    "Es una EMERGENCIA, necesito una cita"
  = Some ChatbotProcessor.appointmentsResponse.
Proof.
  apply (first_category_checked_wins Demo.runtime
           (Chatbot.make "bot-4" "user-1" "Clinica" "healthcare" true)
           "Es una EMERGENCIA, necesito una cita" "appointments"
           ChatbotProcessor.appointmentsResponse ChatbotProcessor.healthcare);
    reflexivity.
Defined.

Lemma own_template_cases (name : string) (template : ChatbotProcessor.Template) :
  ChatbotProcessor.lookupTemplate name = ChatbotProcessor.Own template ->
  (name = "corporate" /\ template = ChatbotProcessor.corporate)
  \/ (name <> "corporate"
      /\ ChatbotProcessor.assoc "greetings" template = None).
Proof.
  unfold ChatbotProcessor.lookupTemplate, ChatbotProcessor.templates.
  cbn [ChatbotProcessor.assoc].
  destruct (String.eqb_spec "corporate" name) as [Hc|Hc].
  { intros H. inversion H. left. split; [now symmetry | reflexivity]. }
  destruct ("ecommerce" =? name).
  { intros H. inversion H. right. split; [congruence | reflexivity]. }
  destruct ("healthcare" =? name).
  { intros H. inversion H. right. split; [congruence | reflexivity]. }
  destruct (existsb _ _); discriminate.
Qed.

(** X9. Only the corporate template greets: for a chatbot of any other
    template (ecommerce, healthcare, unknown or inherited name) the answer is
    never the greeting, whatever the text, "hola" included. *)
Theorem only_corporate_greets
  (R : Runtime) (chatbot : Chatbot.t) (messageContent : string) :
  Chatbot.template chatbot <> "corporate" ->
  ChatbotProcessor.generateResponse R chatbot messageContent
  <> Some (ChatbotProcessor.greetingResponse (Chatbot.name chatbot)).
Proof.
  intros Hother. unfold ChatbotProcessor.generateResponse.
  assert (Hnone : ChatbotProcessor.someIncluded
                    (ChatbotProcessor.categories
                       (ChatbotProcessor.lookupTemplate (Chatbot.template chatbot)))
                    "greetings" (toLowerCase R messageContent) = false).
  { destruct (ChatbotProcessor.lookupTemplate (Chatbot.template chatbot))
      as [template| |] eqn:Hlookup; try reflexivity.
    destruct (own_template_cases _ _ Hlookup) as [[Hc _] | [_ Hnone]];
      [contradiction |].
    unfold ChatbotProcessor.someIncluded, ChatbotProcessor.categories.
    now rewrite Hnone. }
  destruct (ChatbotProcessor.lookupTemplate (Chatbot.template chatbot));
    [rewrite Hnone | rewrite Hnone | discriminate];
    repeat match goal with
      | |- context [if ?b then _ else _] => destruct b
      end; discriminate.
Qed.

Lemma only_corporate_greets_witness :
  ChatbotProcessor.generateResponse Demo.runtime
    (Chatbot.make "bot-5" "user-1" "Tienda" "ecommerce" true) "hola"
  <> Some (ChatbotProcessor.greetingResponse "Tienda").
Proof.
  apply (only_corporate_greets Demo.runtime
           (Chatbot.make "bot-5" "user-1" "Tienda" "ecommerce" true) "hola").
  discriminate.
Defined.

(* ================================================================== *)
(** * Accounts                                                         *)
(* ================================================================== *)

Lemma bind_ret {A B} (a : A) (k : A -> M B) (w : World) :
  bind (ret a) k w = k a w.
Proof. reflexivity. Qed.

Lemma bind_command {A B} (f : Storage.Store -> A * Storage.Store)
  (k : A -> M B) (w : World) :
  bind (command f) k w
  = k (fst (f (store w)))
      (mkWorld (snd (f (store w))) (requests w) (clockReads w)).
Proof. unfold bind, command. destruct (f (store w)); reflexivity. Qed.

Lemma bind_dateNow {B} (R : Runtime) (k : Z -> M B) (w : World) :
  bind (dateNow R) k w
  = k (now R (clockReads w))
      (mkWorld (store w) (requests w) (S (clockReads w))).
Proof. reflexivity. Qed.

Lemma bind_freshId {B} (R : Runtime) (k : string -> M B) (w : World) :
  bind (freshId R) k w = k (newId R (store w)) w.
Proof. reflexivity. Qed.

Lemma bind_bind {A B C} (c : M A) (k : A -> M B) (h : B -> M C) (w : World) :
  bind (bind c k) h w = bind c (fun a => bind (k a) h) w.
Proof. unfold bind. destruct (c w) as [[a|e] w']; reflexivity. Qed.

Lemma getUserByEmail_hasEmail (st : Storage.Store) (email : string) :
  Storage.getUserByEmail st email = find (hasEmail email) (Storage.users st).
Proof. reflexivity. Qed.

Lemma hasEmail_patch (email : string) (p : Storage.UserPatch) (u : User.t) :
  hasEmail email (Storage.patchUser p u) = hasEmail email u.
Proof. reflexivity. Qed.

(** An update of a user with a value to set. *)
Lemma bind_updateUser {B} (id : string) (p : Storage.UserPatch)
  (k : option User.t -> M B) (w : World) :
  Storage.noUserValue p = false ->
  bind (update (Storage.updateUser id p)) k w
  = k (Accounts.getUser (usersAfter id p (store w)) id)
      (mkWorld (usersAfter id p (store w)) (requests w) (clockReads w)).
Proof.
  intros Hvalue. unfold bind, update, Storage.updateUser.
  rewrite Hvalue. reflexivity.
Qed.

(** The stored row found by email after an update of the rows keyed like a
    row that was found by email. *)
Lemma updateUser_by_email (st : Storage.Store) (email : string)
  (p : Storage.UserPatch) (existing : User.t) :
  Storage.getUserByEmail st email = Some existing ->
  let updated := usersAfter (User.id existing) p st in
  Storage.getUserByEmail updated email
  = Some (Storage.patchUser p existing)
  /\ (exists row, Accounts.getUser updated (User.id existing)
                  = Some (Storage.patchUser p row)
                  /\ User.id row = User.id existing)
  /\ length (Storage.users updated) = length (Storage.users st)
  /\ (forall other, In other (Storage.users st) ->
                    User.id other <> User.id existing ->
                    In other (Storage.users updated)).
Proof.
  intros Hfound. unfold usersAfter, Accounts.getUser.
  rewrite !getUserByEmail_hasEmail in *.
  cbn [Storage.users Storage.with_users].
  set (g := fun u => if User.id u =? User.id existing
                     then Storage.patchUser p u else u).
  assert (Hg : g existing = Storage.patchUser p existing)
    by (unfold g; now rewrite String.eqb_refl).
  split.
  { rewrite <- Hg. apply find_map_kept; [| exact Hfound].
    intros u. unfold g. destruct (User.id u =? User.id existing); reflexivity. }
  split.
  { apply find_some in Hfound. destruct Hfound as [Hin _].
    destruct (find_present (fun u => User.id u =? User.id existing)
                _ existing Hin (String.eqb_refl _)) as (row & Hrow & Hid).
    exists row. split.
    - rewrite (find_map_kept _ g _ row); [| | exact Hrow].
      + unfold g. now rewrite Hid.
      + intros u. unfold g.
        destruct (User.id u =? User.id existing) eqn:Hu; cbn; rewrite ?Hu;
          reflexivity.
    - now apply String.eqb_eq. }
  split; [apply length_map |].
  intros other Hin Hid. apply in_map_iff. exists other. split; [| exact Hin].
  unfold g. destruct (String.eqb_spec (User.id other) (User.id existing));
    [contradiction | reflexivity].
Qed.

(** X10. [loginAsCEO] checks nothing but the master token.  With any other
    token it returns [null] and leaves the world as it was.  With the master
    token it returns, for any email, a user whose role is "ceo", and the
    account stored for that email then has the role "ceo": an existing
    account of any role is promoted without its password, an unknown email
    gets a new account. *)
Theorem ceo_login_needs_only_master_token
  (R : Runtime) (blank : User.t) (variable : option string)
  (email token : string) (w : World) :
  let run := Accounts.loginAsCEO R blank variable email token w in
  if token =? Accounts.CEO_MASTER_TOKEN variable then
    exists user t w',
      run = (Returned (Some (user, t)), w')
      /\ User.role user = "ceo"
      /\ (exists stored,
            Storage.getUserByEmail (store w') email = Some stored
            /\ User.role stored = "ceo"
            /\ User.id stored = User.id user)
      /\ length (Storage.users (store w'))
         = match Storage.getUserByEmail (store w) email with
           | Some _ => length (Storage.users (store w))
           | None => S (length (Storage.users (store w)))
           end
  else run = (Returned None, w).
Proof.
  intros run. subst run. unfold Accounts.loginAsCEO.
  destruct (token =? Accounts.CEO_MASTER_TOKEN variable); [| reflexivity].
  cbn [negb]. rewrite bind_query.
  destruct (Storage.getUserByEmail (store w) email) as [existing|] eqn:Hfound.
  - destruct (User.role existing =? "ceo") eqn:Hrole; cbn [negb].
    + (* already a CEO *)
      pose proof (updateUser_by_email (store w) email
                    (Storage.mkUserPatch None (Some (now R (clockReads w))))
                    existing Hfound) as Hupdate.
      cbv zeta in Hupdate. destruct Hupdate as (Hstored & _ & Hlength & _).
      rewrite bind_bind, bind_dateNow, bind_bind.
      rewrite bind_updateUser by reflexivity. rewrite bind_ret.
      cbn [store defined]. rewrite bind_ret.
      unfold Auth.generateToken. rewrite bind_bind, bind_dateNow, bind_ret.
      do 3 eexists. split; [reflexivity |].
      apply String.eqb_eq in Hrole. cbn [store].
      split; [exact Hrole |]. split; [| exact Hlength].
      eexists. split; [exact Hstored |]. split; [exact Hrole | reflexivity].
    + (* promoted *)
      pose proof (updateUser_by_email (store w) email
                    (Storage.mkUserPatch (Some "ceo")
                       (Some (now R (clockReads w))))
                    existing Hfound) as Hupdate.
      cbv zeta in Hupdate.
      destruct Hupdate as (Hstored & (row & Hreturned & Hid) & Hlength & _).
      rewrite bind_bind, bind_dateNow.
      rewrite bind_updateUser by reflexivity.
      cbn [store]. rewrite Hreturned. cbn [defined]. rewrite bind_ret.
      unfold Auth.generateToken. rewrite bind_bind, bind_dateNow, bind_ret.
      do 3 eexists. split; [reflexivity |]. cbn [store].
      split; [reflexivity |]. split; [| exact Hlength].
      eexists. split; [exact Hstored |]. split; [reflexivity |].
      cbn. now symmetry.
  - (* created *)
    rewrite bind_bind, bind_freshId, bind_bind, bind_command, bind_ret.
    cbn [defined]. rewrite bind_ret.
    unfold Auth.generateToken. rewrite bind_bind, bind_dateNow, bind_ret.
    do 3 eexists. split; [reflexivity |]. cbn.
    split; [reflexivity |]. split.
    + eexists. split.
      * rewrite getUserByEmail_hasEmail in *. cbn.
        rewrite (find_app_last _ _ _ Hfound). unfold hasEmail. cbn.
        rewrite String.eqb_refl. reflexivity.
      * split; reflexivity.
    + rewrite length_app. cbn. lia.
Qed.

(** The run of a login with matching credentials. *)
Lemma loginWithEmail_success (R : Runtime) (email password : string) (w : World)
  (user : User.t) (hash : string) :
  Storage.getUserByEmail (store w) email = Some user ->
  User.password user = Some hash ->
  JS.truthy_string hash = true ->
  bcrypt_compare R password hash = true ->
  Auth.loginWithEmail R email password w
  = (Returned (Some (user, tokenFor R (User.id user) (now R (S (clockReads w))))),
     mkWorld (usersAfter (User.id user) (stamp (now R (clockReads w)))
                (store w))
             (requests w) (S (S (clockReads w)))).
Proof.
  intros Hfound Hpassword Htruthy Hmatch. unfold Auth.loginWithEmail.
  rewrite bind_query, Hfound, Hpassword, Htruthy. cbn [negb].
  unfold Auth.verifyPassword. rewrite bind_ret, Hmatch. cbn [negb].
  rewrite bind_dateNow.
  change (Storage.mkUserPatch None (Some (now R (clockReads w))))
    with (stamp (now R (clockReads w))).
  rewrite bind_updateUser by reflexivity.
  unfold Auth.generateToken. rewrite bind_bind, bind_dateNow, bind_ret.
  reflexivity.
Qed.

(** X11. A successful password login stamps the stored row found for the
    email with the clock reading as [lastLogin], changes nothing else of it
    and no row with another key, and returns the row as it was read before
    the stamp: the returned user still carries the previous [lastLogin]. *)
Theorem login_stamps_stored_row_returns_old
  (R : Runtime) (email password : string) (w : World)
  (user : User.t) (hash : string) :
  Storage.getUserByEmail (store w) email = Some user ->
  User.password user = Some hash ->
  JS.truthy_string hash = true ->
  bcrypt_compare R password hash = true ->
  exists t w',
    Auth.loginWithEmail R email password w = (Returned (Some (user, t)), w')
    /\ (exists stored,
          Storage.getUserByEmail (store w') email = Some stored
          /\ User.lastLogin stored = Some (now R (clockReads w))
          /\ sansLastLogin stored = sansLastLogin user)
    /\ length (Storage.users (store w')) = length (Storage.users (store w))
    /\ (forall other, In other (Storage.users (store w)) ->
                      User.id other <> User.id user ->
                      In other (Storage.users (store w'))).
Proof.
  intros Hfound Hpassword Htruthy Hmatch.
  rewrite (loginWithEmail_success R email password w user hash
             Hfound Hpassword Htruthy Hmatch).
  pose proof (updateUser_by_email (store w) email
                (stamp (now R (clockReads w))) user Hfound) as Hupdate.
  cbv zeta in Hupdate. destruct Hupdate as (Hstored & _ & Hlength & Hothers).
  do 2 eexists. split; [reflexivity |]. cbn [store].
  split; [| split; assumption].
  eexists. split; [exact Hstored |]. split; reflexivity.
Qed.

Lemma login_stamps_stored_row_returns_old_witness :
  exists t w',
    Auth.loginWithEmail Demo.runtime "alice@example.com" "secret" Demo.world
    = (Returned (Some (Demo.alice, t)), w')
    /\ User.lastLogin Demo.alice = None
    /\ exists stored,
         Storage.getUserByEmail (store w') "alice@example.com" = Some stored
         /\ User.lastLogin stored = Some 0%Z.
Proof.
  destruct (login_stamps_stored_row_returns_old Demo.runtime
              "alice@example.com" "secret" Demo.world Demo.alice "h:secret"
              eq_refl eq_refl eq_refl eq_refl)
    as (t & w' & Hrun & (stored & Hstored & Hstamp & _) & _).
  exists t, w'. split; [exact Hrun |]. split; [reflexivity |].
  exists stored. split; [exact Hstored | exact Hstamp].
Defined.

(** X12. Registration followed by login is a round trip: after
    [registerUser] with an email no stored user has and a non-empty
    password, whose hash [bcrypt.compare] accepts, the store holds the hash
    (not the password as given) and [loginWithEmail] with the same email and
    password returns the registered user. *)
Theorem register_then_login
  (R : Runtime) (blank : User.t) (hash : string -> string)
  (email password : string) (w : World) :
  Storage.getUserByEmail (store w) email = None ->
  JS.truthy_string password = true ->
  JS.truthy_string (hash password) = true ->
  bcrypt_compare R password (hash password) = true ->
  exists user t w1,
    Accounts.registerUser R blank hash
      (Accounts.mkRegistration (Some email) (Some password)) w
    = (Returned (user, t), w1)
    /\ User.password user = Some (hash password)
    /\ Storage.users (store w1) = (Storage.users (store w) ++ [user])%list
    /\ exists t' w2,
         Auth.loginWithEmail R email password w1
         = (Returned (Some (user, t')), w2).
Proof.
  intros Hfree Hpassword Hhash Hmatch. unfold Accounts.registerUser.
  cbn [Accounts.reg_password Accounts.reg_email]. rewrite Hpassword.
  rewrite bind_freshId, bind_command.
  unfold Auth.generateToken. rewrite bind_bind, bind_dateNow, bind_ret.
  do 3 eexists. split; [reflexivity |].
  cbn [fst snd Accounts.createUser store Storage.users Storage.with_users
       Accounts.ins_email Accounts.ins_password Accounts.ins_role
       Storage.override Storage.override_opt User.password].
  split; [reflexivity |]. split; [reflexivity |].
  do 2 eexists.
  apply (loginWithEmail_success R email password _ _ (hash password)).
  - cbn [store]. rewrite getUserByEmail_hasEmail in *.
    cbn [Storage.users Storage.with_users].
    rewrite (find_app_last _ _ _ Hfree). unfold hasEmail at 1.
    cbn [User.email]. now rewrite String.eqb_refl.
  - reflexivity.
  - exact Hhash.
  - exact Hmatch.
Qed.

Lemma register_then_login_witness :
  exists user t w1,
    Accounts.registerUser Demo.runtime Deployment.blank Deployment.hash
      (Accounts.mkRegistration (Some "bob@example.com") (Some "hunter2"))
      Demo.world
    = (Returned (user, t), w1)
    /\ exists t' w2,
         Auth.loginWithEmail Demo.runtime "bob@example.com" "hunter2" w1
         = (Returned (Some (user, t')), w2).
Proof.
  destruct (register_then_login Demo.runtime Deployment.blank Deployment.hash
              "bob@example.com" "hunter2" Demo.world
              eq_refl eq_refl eq_refl eq_refl)
    as (user & t & w1 & Hrun & _ & _ & Hlogin).
  exists user, t, w1. split; [exact Hrun | exact Hlogin].
Defined.

(* ================================================================== *)
(** * Request authentication                                           *)
(* ================================================================== *)

Lemma split_noSpace (s : string) :
  noSpace s = true -> Accounts.split " " s = [s].
Proof.
  induction s as [|c s IH]; cbn [noSpace Accounts.split]; [reflexivity |].
  intros H. apply andb_true_iff in H. destruct H as [Hc Hs].
  rewrite (IH Hs). apply negb_true_iff in Hc. now rewrite Hc.
Qed.

Lemma split_nonempty (s : string) : Accounts.split " " s <> [].
Proof.
  induction s as [|c s IH]; cbn [Accounts.split]; [discriminate |].
  destruct (Accounts.split " " s); [contradiction |].
  destruct (Ascii.eqb c " "); discriminate.
Qed.

Lemma split_scheme (scheme rest : string) :
  noSpace scheme = true ->
  Accounts.split " " (scheme ++ String " " rest)
  = scheme :: Accounts.split " " rest.
Proof.
  induction scheme as [|c scheme IH]; cbn [noSpace append].
  - intros _. cbn [Accounts.split].
    destruct (Accounts.split " " rest) eqn:Hrest;
      [now apply split_nonempty in Hrest | reflexivity].
  - intros H. apply andb_true_iff in H. destruct H as [Hc Hs].
    cbn [Accounts.split]. rewrite (IH Hs).
    apply negb_true_iff in Hc. now rewrite Hc.
Qed.

(** The token of a header made of a scheme word, one space and a token
    without spaces, whatever the scheme word is. *)
Lemma bearer_scheme_token (scheme token : string) :
  noSpace scheme = true -> noSpace token = true ->
  Accounts.bearer (Some (scheme ++ " " ++ token)) = Some token.
Proof.
  intros Hscheme Htoken. unfold Accounts.bearer.
  change (scheme ++ " " ++ token) with (scheme ++ String " " token).
  assert (Htruthy : JS.truthy_string (scheme ++ String " " token) = true)
    by (destruct scheme; reflexivity).
  rewrite Htruthy, (split_scheme _ _ Hscheme), (split_noSpace _ Htoken).
  reflexivity.
Qed.

(** X13. [authenticateToken] lets a request through, with [req.user] set to
    [user], exactly when the second space-separated word of the
    authorization header is a non-empty token that [jwt.verify] accepts at
    that moment and whose user id is the key of the stored, active [user];
    it answers 401 exactly when there is no such second word, 403 in every
    other case, and never writes to the store. *)
Theorem authenticateToken_passes_iff
  (R : Runtime) (decode : string -> Auth.token) (isActive : User.t -> bool)
  (authorization : option string) (w : World) :
  let run := Accounts.authenticateToken R decode isActive authorization w in
  store (snd run) = store w
  /\ exists verdict,
       fst run = Returned verdict
       /\ (forall user,
             verdict = Accounts.Next user
             <-> exists token payload,
                   Accounts.bearer authorization = Some token
                   /\ JS.truthy_string token = true
                   /\ Auth.jwt_verify (decode token) (Auth.JWT_SECRET (env R))
                        (now R (clockReads w)) = inl payload
                   /\ Accounts.getUser (store w) (Auth.userId payload)
                      = Some user
                   /\ isActive user = true)
       /\ (verdict = Accounts.Rejected 401 "Access token required"
           <-> JS.truthy_opt (Accounts.bearer authorization) = false)
       /\ ((exists user, verdict = Accounts.Next user)
           \/ verdict = Accounts.Rejected 401 "Access token required"
           \/ exists message, verdict = Accounts.Rejected 403 message).
Proof.
  intros run. subst run. unfold Accounts.authenticateToken.
  destruct (Accounts.bearer authorization) as [token|] eqn:Hbearer.
  2:{ split; [reflexivity |]. eexists. split; [reflexivity |].
      split; [| split].
      - intros user. split; [discriminate |].
        intros (t & p & Habsurd & _). discriminate.
      - split; reflexivity.
      - right; left; reflexivity. }
  cbn [JS.truthy_opt].
  destruct (JS.truthy_string token) eqn:Htruthy; cbn [negb].
  2:{ split; [reflexivity |]. eexists. split; [reflexivity |].
      split; [| split].
      - intros user. split; [discriminate |].
        intros (t & p & Ht & Habsurd & _). inversion Ht; subst t. congruence.
      - split; reflexivity.
      - right; left; reflexivity. }
  unfold Auth.verifyToken. rewrite bind_bind, bind_dateNow.
  destruct (Auth.jwt_verify (decode token) (Auth.JWT_SECRET (env R))
              (now R (clockReads w))) as [payload|e] eqn:Hverify.
  2:{ rewrite bind_ret. split; [reflexivity |]. eexists. split; [reflexivity |].
      split; [| split].
      - intros user. split; [discriminate |].
        intros (t & p & Ht & _ & Habsurd & _). inversion Ht; subst t. congruence.
      - split; discriminate.
      - right; right; eauto. }
  rewrite bind_ret, bind_query. cbn [store].
  destruct (Accounts.getUser (store w) (Auth.userId payload))
    as [stored|] eqn:Hstored.
  2:{ split; [reflexivity |]. eexists. split; [reflexivity |].
      split; [| split].
      - intros user. split; [discriminate |].
        intros (t & p & Ht & _ & Hv & Habsurd & _).
        inversion Ht; subst t. rewrite Hverify in Hv. inversion Hv; subst p.
        congruence.
      - split; discriminate.
      - right; right; eauto. }
  destruct (isActive stored) eqn:Hactive; cbn [negb].
  - split; [reflexivity |]. eexists. split; [reflexivity |].
    split; [| split].
    + intros user. split.
      * intros H. inversion H; subst user. exists token, payload. repeat split;
          assumption.
      * intros (t & p & Ht & _ & Hv & Hu & _).
        inversion Ht; subst t. rewrite Hverify in Hv. inversion Hv; subst p.
        congruence.
    + split; discriminate.
    + left; eauto.
  - split; [reflexivity |]. eexists. split; [reflexivity |].
    split; [| split].
    + intros user. split; [discriminate |].
      intros (t & p & Ht & _ & Hv & Hu & Ha).
      inversion Ht; subst t. rewrite Hverify in Hv. inversion Hv; subst p.
      congruence.
    + split; discriminate.
    + right; right; eauto.
Qed.

(** X14. Login and request authentication compose: the token returned by a
    successful password login, sent back as the second word of the
    authorization header (after any scheme word) before it expires,
    authenticates the request as the stored row with the key of the user who
    logged in, as long as that row is active. *)
Theorem login_then_authenticate
  (R : Runtime) (decode : string -> Auth.token) (isActive : User.t -> bool)
  (email password : string) (w : World) (user : User.t)
  (hash scheme raw : string) :
  Storage.getUserByEmail (store w) email = Some user ->
  User.password user = Some hash ->
  JS.truthy_string hash = true ->
  bcrypt_compare R password hash = true ->
  noSpace scheme = true ->
  noSpace raw = true ->
  JS.truthy_string raw = true ->
  decode raw = tokenFor R (User.id user) (now R (S (clockReads w))) ->
  (now R (S (S (clockReads w))) / 1000
   < now R (S (clockReads w)) / 1000 + Auth.sevenDays)%Z ->
  (forall row, User.id row = User.id user -> isActive row = true) ->
  exists w1 stored w2,
    Auth.loginWithEmail R email password w
    = (Returned (Some (user, decode raw)), w1)
    /\ Accounts.authenticateToken R decode isActive
         (Some (scheme ++ " " ++ raw)) w1
       = (Returned (Accounts.Next stored), w2)
    /\ User.id stored = User.id user.
Proof.
  intros Hfound Hpassword Hhash Hmatch Hscheme Hraw Htruthy Hdecode Hvalid
         Hactive.
  rewrite (loginWithEmail_success R email password w user hash
             Hfound Hpassword Hhash Hmatch), Hdecode.
  pose proof (updateUser_by_email (store w) email
                (stamp (now R (clockReads w))) user Hfound) as Hupdate.
  cbv zeta in Hupdate. destruct Hupdate as (_ & (row & Hrow & Hid) & _).
  eexists. exists (Storage.patchUser (stamp (now R (clockReads w))) row).
  eexists. split; [reflexivity |].
  unfold Accounts.authenticateToken.
  rewrite (bearer_scheme_token _ _ Hscheme Hraw), Htruthy. cbn [negb].
  unfold Auth.verifyToken. rewrite bind_bind, bind_dateNow, Hdecode.
  unfold tokenFor, Auth.jwt_sign, Auth.jwt_verify.
  rewrite String.eqb_refl. cbn [negb clockReads].
  apply Z.leb_gt in Hvalid. rewrite Hvalid.
  rewrite bind_ret, bind_query. cbn [store Auth.userId].
  rewrite Hrow.
  rewrite (Hactive (Storage.patchUser (stamp (now R (clockReads w))) row) Hid).
  split; [reflexivity | exact Hid].
Qed.

Lemma login_then_authenticate_witness :
  exists w1 stored w2,
    Auth.loginWithEmail Demo.runtime "alice@example.com" "secret" Demo.world
    = (Returned (Some (Demo.alice, Deployment.decode "t")), w1)
    /\ Accounts.authenticateToken Demo.runtime Deployment.decode
         Deployment.everyone (Some ("Bearer" ++ " " ++ "t")) w1
       = (Returned (Accounts.Next stored), w2)
    /\ User.id stored = User.id Demo.alice.
Proof.
  apply (login_then_authenticate Demo.runtime Deployment.decode
           Deployment.everyone "alice@example.com" "secret" Demo.world
           Demo.alice "h:secret" "Bearer" "t"
           eq_refl eq_refl eq_refl eq_refl eq_refl eq_refl eq_refl eq_refl
           eq_refl (fun _ _ => eq_refl)).
Defined.

(* ================================================================== *)
(** * Webhook handshake route                                          *)
(* ================================================================== *)

Lemma isString_eq (v : JS.value) (s : string) :
  Routes.isString v s = true <-> v = JS.Str s.
Proof.
  destruct v; cbn; try (split; [discriminate | intros H; discriminate]).
  rewrite String.eqb_eq. split; [now intros -> | intros H; now inversion H].
Qed.

(** X15. The handler of [GET /api/webhook] answers 200 with the challenge
    exactly when [hub.mode] is the string "subscribe", [hub.verify_token] is
    the configured secret and [hub.challenge] is truthy; in every other
    case, a missing or empty challenge included, it answers 403
    "Forbidden".  On string arguments the call it makes is
    [WhatsAppService.verifyWebhook]. *)
Theorem getWebhook_accepts_iff (e : ProcessEnv) (query : string -> JS.value) :
  let accepted :=
    query "hub.mode" = JS.Str "subscribe"
    /\ query "hub.verify_token" = JS.Str (VERIFY_TOKEN e)
    /\ JS.truthy (query "hub.challenge") = true in
  (Routes.getWebhook e query = Routes.mkReply 200 (query "hub.challenge")
   <-> accepted)
  /\ (Routes.getWebhook e query = Routes.mkReply 403 (JS.Str "Forbidden")
      <-> ~ accepted)
  /\ (forall verifyToken mode challenge,
        Routes.verifyWebhookCall e (JS.Str verifyToken) (JS.Str mode)
          (JS.Str challenge)
        = match WhatsAppService.verifyWebhook e verifyToken mode challenge with
          | Some s => JS.Str s
          | None => JS.Null
          end).
Proof.
  intros accepted. subst accepted.
  unfold Routes.getWebhook, Routes.verifyWebhookCall. cbv zeta.
  rewrite <- !isString_eq.
  destruct (Routes.isString (query "hub.mode") "subscribe");
    destruct (Routes.isString (query "hub.verify_token") (VERIFY_TOKEN e));
    cbn [andb];
    try (split; [split; [discriminate | intros (H1 & H2 & _); discriminate]
                | split; [split; [intros _ (H1 & H2 & _); discriminate
                                 | reflexivity] |]]).
  - destruct (JS.truthy (query "hub.challenge")) eqn:Hc.
    + split; [split; [auto | reflexivity] |].
      split; [split; [discriminate | intros H; exfalso; apply H; auto] |].
      intros t m c. unfold WhatsAppService.verifyWebhook. cbn.
      now destruct ((m =? "subscribe") && (t =? VERIFY_TOKEN e))%bool.
    + split; [split; [discriminate | intros (_ & _ & H); discriminate] |].
      split; [split; [intros _ (_ & _ & H); discriminate | reflexivity] |].
      intros t m c. unfold WhatsAppService.verifyWebhook. cbn.
      now destruct ((m =? "subscribe") && (t =? VERIFY_TOKEN e))%bool.
  - intros t m c. unfold WhatsAppService.verifyWebhook. cbn.
    now destruct ((m =? "subscribe") && (t =? VERIFY_TOKEN e))%bool.
  - intros t m c. unfold WhatsAppService.verifyWebhook. cbn.
    now destruct ((m =? "subscribe") && (t =? VERIFY_TOKEN e))%bool.
  - intros t m c. unfold WhatsAppService.verifyWebhook. cbn.
    now destruct ((m =? "subscribe") && (t =? VERIFY_TOKEN e))%bool.
Qed.

(* ================================================================== *)
(** * Connection registry                                              *)
(* ================================================================== *)

Lemma mapGet_mapSet_same (key : string) (ws : Routes.Socket)
  (entries : list (string * Routes.Socket)) :
  Routes.mapGet key (Routes.mapSet key ws entries) = Some ws.
Proof.
  induction entries as [|[k v] rest IH]; cbn.
  - now rewrite String.eqb_refl.
  - destruct (k =? key) eqn:Hk; cbn; rewrite Hk; [reflexivity | exact IH].
Qed.

Lemma mapGet_mapSet_other (key other : string) (ws : Routes.Socket)
  (entries : list (string * Routes.Socket)) :
  other <> key ->
  Routes.mapGet other (Routes.mapSet key ws entries)
  = Routes.mapGet other entries.
Proof.
  intros Hother. induction entries as [|[k v] rest IH]; cbn.
  - destruct (String.eqb_spec key other); [congruence | reflexivity].
  - destruct (String.eqb_spec k key) as [->|Hk]; cbn.
    + destruct (String.eqb_spec key other); [congruence | reflexivity].
    + destruct (k =? other); [reflexivity | exact IH].
Qed.

Lemma mapGet_mapDelete_other (key other : string)
  (entries : list (string * Routes.Socket)) :
  other <> key ->
  Routes.mapGet other (Routes.mapDelete key entries)
  = Routes.mapGet other entries.
Proof.
  intros Hother. induction entries as [|[k v] rest IH]; cbn; [reflexivity |].
  destruct (String.eqb_spec k key) as [->|Hk]; cbn.
  - destruct (String.eqb_spec key other); [congruence | reflexivity].
  - destruct (k =? other); [reflexivity | exact IH].
Qed.

Lemma mapSet_length (key : string) (ws : Routes.Socket)
  (entries : list (string * Routes.Socket)) :
  length (Routes.mapSet key ws entries)
  = match Routes.mapGet key entries with
    | Some _ => length entries
    | None => S (length entries)
    end.
Proof.
  induction entries as [|[k v] rest IH]; cbn; [reflexivity |].
  destruct (k =? key); cbn; [reflexivity |].
  rewrite IH. now destruct (Routes.mapGet key rest).
Qed.

Lemma isOpen_send (ws other : Routes.Socket) (frame : Routes.Frame)
  (h : Routes.Hub) :
  Routes.isOpen (Routes.send ws frame h) other = Routes.isOpen h other.
Proof. unfold Routes.send. now destruct (Routes.isOpen h ws). Qed.

(** X16. The registry holds one connection per user and the last
    authentication wins: after an [auth] frame with a token that verifies
    for [userId], that user is mapped to the authenticating socket, whatever
    socket the user was mapped to before, every other user keeps its entry,
    and a broadcast to the user is sent on that socket alone, when it is
    open.  The store is not consulted: a token of a user that no longer
    exists or is inactive registers just the same. *)
Theorem auth_frame_registers_last_socket
  (R : Runtime) (decode : string -> Auth.token) (ws : Routes.Socket)
  (raw : string) (ms : Z) (payload : Auth.Payload) (frame : Routes.Frame)
  (h : Routes.Hub) :
  Auth.jwt_verify (decode raw) (Auth.JWT_SECRET (env R)) ms = inl payload ->
  let h' := Routes.authenticateSocket R decode ws (JS.Str raw) ms h in
  Routes.mapGet (Auth.userId payload) (Routes.wsConnections h') = Some ws
  /\ (forall other, other <> Auth.userId payload ->
                    Routes.mapGet other (Routes.wsConnections h')
                    = Routes.mapGet other (Routes.wsConnections h))
  /\ length (Routes.wsConnections h')
     = match Routes.mapGet (Auth.userId payload) (Routes.wsConnections h) with
       | Some _ => length (Routes.wsConnections h)
       | None => S (length (Routes.wsConnections h))
       end
  /\ Routes.sent (Routes.broadcastToUser (Auth.userId payload) frame h')
     = if Routes.isOpen h ws
       then (Routes.sent h ++ [(ws, Routes.AuthSuccess); (ws, frame)])%list
       else Routes.sent h.
Proof.
  intros Hverify h'. subst h'. unfold Routes.authenticateSocket.
  rewrite Hverify.
  set (registered := Routes.mkHub _ _ _).
  assert (Hopen : Routes.isOpen registered ws = Routes.isOpen h ws)
    by reflexivity.
  assert (Hconnections :
            Routes.wsConnections (Routes.send ws Routes.AuthSuccess registered)
            = Routes.mapSet (Auth.userId payload) ws (Routes.wsConnections h)).
  { unfold Routes.send. now destruct (Routes.isOpen registered ws). }
  rewrite Hconnections.
  split; [apply mapGet_mapSet_same |].
  split; [intros other Hother; now apply mapGet_mapSet_other |].
  split; [apply mapSet_length |].
  unfold Routes.broadcastToUser.
  rewrite Hconnections, mapGet_mapSet_same, isOpen_send, Hopen.
  destruct (Routes.isOpen h ws) eqn:Hws.
  - unfold Routes.send at 1. rewrite isOpen_send, Hopen, ?Hws.
    cbn [Routes.sent]. unfold Routes.send. rewrite Hopen, ?Hws.
    cbn [Routes.sent registered]. now rewrite <- app_assoc.
  - unfold Routes.send. rewrite Hopen, ?Hws. reflexivity.
Qed.

Lemma auth_frame_registers_last_socket_witness :
  Routes.mapGet "user-1"
    (Routes.wsConnections
       (Routes.authenticateSocket Demo.runtime Deployment.decodeAtStart 2
          (JS.Str "t") 0 Deployment.reconnecting))
  = Some 2
  /\ Routes.sent
       (Routes.broadcastToUser "user-1" Routes.AuthSuccess
          (Routes.authenticateSocket Demo.runtime Deployment.decodeAtStart 2
             (JS.Str "t") 0 Deployment.reconnecting))
     = [(2, Routes.AuthSuccess); (2, Routes.AuthSuccess)].
Proof.
  destruct (auth_frame_registers_last_socket Demo.runtime
              Deployment.decodeAtStart 2 "t" 0
              (Auth.mkPayload "user-1" 0 Auth.sevenDays) Routes.AuthSuccess
              Deployment.reconnecting eq_refl)
    as (Hget & _ & _ & Hsent).
  split; [exact Hget | exact Hsent].
Defined.

Lemma isOpen_onClose (ws : Routes.Socket) (h : Routes.Hub) :
  Routes.isOpen (Routes.onClose ws h) ws = false.
Proof.
  assert (H : forall l, existsb (Nat.eqb ws)
                          (filter (fun s => negb (Nat.eqb s ws)) l) = false).
  { induction l as [|s l IH]; cbn; [reflexivity |].
    destruct (Nat.eqb_spec s ws) as [->|Hs]; cbn; [exact IH |].
    rewrite IH. destruct (Nat.eqb_spec ws s); [congruence | reflexivity]. }
  unfold Routes.onClose, Routes.isOpen.
  destruct (Routes.firstKeyOf ws (Routes.wsConnections h)); cbn; apply H.
Qed.

(** X17. Closing a socket deletes one map entry at most: the first one that
    holds it.  A socket that authenticated under two user ids therefore
    stays registered under the later one after it has closed; a broadcast to
    that user finds the closed socket and sends nothing. *)
Theorem close_leaves_second_registration
  (ws : Routes.Socket) (first second : string) (frame : Routes.Frame)
  (h : Routes.Hub) :
  Routes.firstKeyOf ws (Routes.wsConnections h) = Some first ->
  Routes.mapGet second (Routes.wsConnections h) = Some ws ->
  second <> first ->
  let h' := Routes.onClose ws h in
  Routes.mapGet second (Routes.wsConnections h') = Some ws
  /\ S (length (Routes.wsConnections h')) = length (Routes.wsConnections h)
  /\ Routes.broadcastToUser second frame h' = h'.
Proof.
  intros Hfirst Hsecond Hother h'.
  assert (Hconnections : Routes.wsConnections h'
                         = Routes.mapDelete first (Routes.wsConnections h)).
  { unfold h', Routes.onClose. now rewrite Hfirst. }
  assert (Hget : Routes.mapGet second (Routes.wsConnections h') = Some ws).
  { rewrite Hconnections, mapGet_mapDelete_other; assumption. }
  split; [exact Hget |]. split.
  - rewrite Hconnections. clear - Hfirst.
    induction (Routes.wsConnections h) as [|[k v] rest IH]; [discriminate |].
    cbn in Hfirst |- *.
    destruct (Nat.eqb v ws).
    + inversion Hfirst; subst k. now rewrite String.eqb_refl.
    + destruct (k =? first); [reflexivity |]. cbn. now rewrite (IH Hfirst).
  - unfold Routes.broadcastToUser. rewrite Hget.
    unfold h'. now rewrite isOpen_onClose.
Qed.

Lemma close_leaves_second_registration_witness :
  Routes.mapGet "user-2"
    (Routes.wsConnections (Routes.onClose 7 Deployment.doubled)) = Some 7
  /\ S (length (Routes.wsConnections (Routes.onClose 7 Deployment.doubled)))
     = 2
  /\ Routes.broadcastToUser "user-2" Routes.AuthSuccess
       (Routes.onClose 7 Deployment.doubled)
     = Routes.onClose 7 Deployment.doubled.
Proof.
  apply (close_leaves_second_registration 7 "user-1" "user-2"
           Routes.AuthSuccess Deployment.doubled eq_refl eq_refl).
  discriminate.
Defined.

(* ================================================================== *)
(** * Inbound webhook route                                            *)
(* ================================================================== *)

Lemma server_eta (s : Webhook.Server) :
  Webhook.mkServer (Webhook.world s) (Webhook.hub s) = s.
Proof. destruct s; reflexivity. Qed.

Lemma bindH_lift_query {A B} (f : Storage.Store -> A) (k : A -> Webhook.H B)
  (s : Webhook.Server) :
  Webhook.bindH (Webhook.lift (query f)) k s
  = k (f (store (Webhook.world s))) s.
Proof.
  unfold Webhook.bindH, Webhook.lift, query. cbn. now rewrite server_eta.
Qed.

Lemma forEach_skips {A} (body : A -> Webhook.H unit) (l : list A)
  (s : Webhook.Server) :
  (forall x, In x l -> body x s = (Returned tt, s)) ->
  Webhook.forEach l body s = (Returned tt, s).
Proof.
  induction l as [|x l IH]; intros Hbody; [reflexivity |].
  cbn [Webhook.forEach]. unfold Webhook.bindH.
  rewrite (Hbody x (or_introl eq_refl)). apply IH.
  intros y Hy. apply Hbody. now right.
Qed.

Lemma handleMessage_without_system_account (R : Runtime)
  (metadata : Webhook.Metadata) (message : option IncomingWhatsAppMessage.t)
  (s : Webhook.Server) :
  Webhook.getWhatsappAccountsByUser (store (Webhook.world s)) "system" = [] ->
  Webhook.handleMessage R metadata message s = (Returned tt, s).
Proof.
  intros Hnone. unfold Webhook.handleMessage. cbv zeta.
  rewrite bindH_lift_query, Hnone. reflexivity.
Qed.

(** A loop whose body either returns or throws, in both cases without
    changing the state, returns when every element passes and throws at the
    first that does not. *)
Lemma forEach_walk {A} (ok : A -> bool) (body : A -> Webhook.H unit)
  (l : list A) (s : Webhook.Server) :
  (forall x, if ok x then body x s = (Returned tt, s)
             else exists e, body x s = (Thrown e, s)) ->
  if forallb ok l then Webhook.forEach l body s = (Returned tt, s)
  else exists e, Webhook.forEach l body s = (Thrown e, s).
Proof.
  intros Hbody. induction l as [|x l IH]; [reflexivity |].
  cbn [forallb Webhook.forEach]. unfold Webhook.bindH.
  specialize (Hbody x). destruct (ok x); cbn [andb].
  - rewrite Hbody. exact IH.
  - destruct Hbody as [e ->]. now exists e.
Qed.

Lemma iterate_walk {A} (ok : A -> bool) (body : A -> Webhook.H unit)
  (v : Webhook.Iterated A) (s : Webhook.Server) :
  (forall x, if ok x then body x s = (Returned tt, s)
             else exists e, body x s = (Thrown e, s)) ->
  if iterable v && forallb ok (elements v)
  then Webhook.iterate v body s = (Returned tt, s)
  else exists e, Webhook.iterate v body s = (Thrown e, s).
Proof.
  intros Hbody. destruct v as [| |items]; cbn.
  - reflexivity.
  - eexists. reflexivity.
  - apply forEach_walk. exact Hbody.
Qed.

Lemma handleChange_walk (R : Runtime) (change : Webhook.Change)
  (s : Webhook.Server) :
  Webhook.getWhatsappAccountsByUser (store (Webhook.world s)) "system" = [] ->
  if walkableChange change
  then Webhook.handleChange R change s = (Returned tt, s)
  else exists e, Webhook.handleChange R change s = (Thrown e, s).
Proof.
  intros Hnone. destruct change as [|[field|] value]; cbn.
  - eexists. reflexivity.
  - destruct (field =? "messages"); [| reflexivity].
    destruct value as [|messages metadata]; [eexists; reflexivity |].
    pose proof (iterate_walk (fun _ => true) (Webhook.handleMessage R metadata)
                  messages s) as Hwalk.
    assert (Hall : forallb (fun _ : option IncomingWhatsAppMessage.t => true)
                     (elements messages) = true)
      by (apply forallb_forall; reflexivity).
    rewrite Hall, andb_true_r in Hwalk. apply Hwalk.
    intros message. now apply handleMessage_without_system_account.
  - reflexivity.
Qed.

(** X18. The webhook matches inbound messages against the accounts of the
    user id "system" only: when the store holds no account with that owner,
    nothing is stored, sent or broadcast for any request body, whatever
    messages it carries and whatever accounts other users have connected.
    The answer is 200 "OK" when the handler can walk the body, and 500
    "Webhook processing failed" when it cannot: no body, an [entry],
    [changes] or [messages] that is not iterable, a [null] entry or change,
    or a [messages] change without [value]. *)
Theorem webhook_only_serves_system_accounts
  (R : Runtime) (body : Webhook.Body) (s : Webhook.Server) :
  Webhook.getWhatsappAccountsByUser (store (Webhook.world s)) "system" = [] ->
  Webhook.postWebhook R body s
  = (if walkable body then Routes.mkReply 200 (JS.Str "OK")
     else Routes.jsonMessage 500 "Webhook processing failed", s).
Proof.
  intros Hnone. destruct body as [|entry]; [reflexivity |].
  unfold Webhook.postWebhook, Webhook.handleBody, Webhook.handleEntries,
    walkable.
  pose proof (iterate_walk walkableEntry
                (fun item =>
                   match item with
                   | Webhook.NullEntry => Webhook.nullAccess
                   | Webhook.EntryWith changes =>
                       Webhook.iterate changes (Webhook.handleChange R)
                   end) entry s) as Hwalk.
  destruct (iterable entry && forallb walkableEntry (elements entry)).
  - rewrite Hwalk; [reflexivity |].
    intros [|changes]; cbn; [eexists; reflexivity |].
    apply iterate_walk. intros change. now apply handleChange_walk.
  - destruct Hwalk as [e ->]; [| reflexivity].
    intros [|changes]; cbn; [eexists; reflexivity |].
    apply iterate_walk. intros change. now apply handleChange_walk.
Qed.

Lemma webhook_only_serves_system_accounts_witness :
  Webhook.postWebhook Demo.runtime
    (batch "15550001" [Demo.hello "5551234" "hola"]) Deployment.unserved
  = (Routes.mkReply 200 (JS.Str "OK"), Deployment.unserved)
  /\ Webhook.postWebhook Demo.runtime Deployment.withoutValue
       Deployment.unserved
     = (Routes.jsonMessage 500 "Webhook processing failed",
        Deployment.unserved).
Proof.
  split.
  - apply (webhook_only_serves_system_accounts Demo.runtime
             (batch "15550001" [Demo.hello "5551234" "hola"])
             Deployment.unserved eq_refl).
  - apply (webhook_only_serves_system_accounts Demo.runtime
             Deployment.withoutValue Deployment.unserved eq_refl).
Defined.

Lemma batch_run (R : Runtime) (phoneNumberId : string)
  (messages : list IncomingWhatsAppMessage.t) (s : Webhook.Server) :
  Webhook.handleBody R (batch phoneNumberId messages) s
  = Webhook.forEach (map Some messages)
      (Webhook.handleMessage R (Webhook.MetadataWith (Some phoneNumberId))) s.
Proof.
  unfold Webhook.handleBody, Webhook.handleEntries, batch.
  cbn [Webhook.iterate Webhook.forEach Webhook.handleChange].
  rewrite String.eqb_refl. cbn [Webhook.iterate]. unfold Webhook.bindH.
  destruct (Webhook.forEach (map Some messages) _ s) as [[[]|e] s'];
    reflexivity.
Qed.

(** An inbound text message for a known account issues no request and does
    not read the clock. *)
Lemma processIncomingMessage_text_quiet (R : Runtime) (this : WhatsAppService.t)
  (whatsappAccountId : string) (incomingMessage : IncomingWhatsAppMessage.t)
  (account : WhatsappAccount.t) (w : World) :
  Storage.getWhatsappAccount (store w) whatsappAccountId = Some account ->
  IncomingWhatsAppMessage.type incomingMessage = MessageType.text ->
  requests (snd (WhatsAppService.processIncomingMessage R this whatsappAccountId
                   incomingMessage w)) = requests w
  /\ clockReads (snd (WhatsAppService.processIncomingMessage R this
                        whatsappAccountId incomingMessage w)) = clockReads w.
Proof.
  intros Haccount Htext. unfold WhatsAppService.processIncomingMessage.
  rewrite bind_query, Haccount. cbv zeta.
  rewrite bind_run, findOrCreateContact_run.
  destruct (Storage.getContactByPhone (store w) _ _);
    [split; reflexivity |].
  cbv zeta. cbn [defined]. rewrite bind_run. cbn [ret].
  match goal with
  | |- context [bind (WhatsAppService.findOrCreateConversation R _ _ ?contact)
                     _ ?w1] =>
      destruct (findOrCreateConversation_run R whatsappAccountId
                  (WhatsappAccount.userId account) contact w1)
        as (conversation & w2 & Hrun2 & Hlog2 & Hclock2 & _)
  end.
  rewrite bind_run, Hrun2.
  unfold WhatsAppService.readContent. rewrite Htext.
  rewrite bind_ret. cbn [defined]. rewrite bind_ret, bind_freshId, bind_command.
  cbn [ret snd requests clockReads].
  rewrite Hlog2, Hclock2. split; reflexivity.
Qed.

Lemma bindH_lift {A B} (c : M A) (k : A -> Webhook.H B) (s : Webhook.Server) :
  Webhook.bindH (Webhook.lift c) k s
  = match c (Webhook.world s) with
    | (Returned a, w) => k a (Webhook.mkServer w (Webhook.hub s))
    | (Thrown e, w) => (Thrown e, Webhook.mkServer w (Webhook.hub s))
    end.
Proof.
  unfold Webhook.bindH, Webhook.lift.
  destruct (c (Webhook.world s)) as [[a|e] w]; reflexivity.
Qed.

Lemma or_string_some (s : string) : JS.or_string (Some s) EmptyString = s.
Proof. destruct s; reflexivity. Qed.

Lemma map_mark_content (id : string) (l : list Message.t) :
  map Message.content
      (map (fun m => if Message.id m =? id
                     then Storage.patchMessage
                            (Storage.mkMessagePatch (Some true) None) m
                     else m) l)
  = map Message.content l.
Proof.
  rewrite map_map. apply map_ext. intros m.
  destruct (Message.id m =? id); reflexivity.
Qed.

Lemma map_mark_direction (id : string) (l : list Message.t) :
  map Message.direction
      (map (fun m => if Message.id m =? id
                     then Storage.patchMessage
                            (Storage.mkMessagePatch (Some true) None) m
                     else m) l)
  = map Message.direction l.
Proof.
  rewrite map_map. apply map_ext. intros m.
  destruct (Message.id m =? id); reflexivity.
Qed.


(** The bookkeeping after the bot's reply was sent touches neither the
    contacts nor the conversations. *)
Lemma processBotResponse_keeps_parties (R : Runtime) (this : ChatbotProcessor.t)
  (chatbotId : string) (contact : Contact.t) (message : Message.t)
  (conversation : Conversation.t) (chatbot : Chatbot.t) (generated : string)
  (botMessage : Message.t) (w w1 : World) :
  Storage.getChatbot (store w) chatbotId = Some chatbot ->
  Chatbot.isActive chatbot = true ->
  ChatbotProcessor.generateResponse R chatbot (textOf message) = Some generated ->
  WhatsAppService.processOutgoingMessage R
    (ChatbotProcessor.whatsappService this)
    (Conversation.id conversation) (Contact.id contact)
    (replyFor R generated (textOf message)) MessageType.text
    (mkWorld (store w) (requests w) (S (clockReads w)))
  = (Returned botMessage, w1) ->
  let w2 := snd (ChatbotProcessor.processBotResponse R this chatbotId contact
                   message conversation w) in
  Storage.contacts (store w2) = Storage.contacts (store w1)
  /\ Storage.conversations (store w2) = Storage.conversations (store w1).
Proof.
  intros Hchatbot Hactive Hgenerated Hout.
  unfold ChatbotProcessor.processBotResponse.
  rewrite bind_query, Hchatbot, Hactive.
  cbn [negb]. rewrite bind_run. cbn [dateNow].
  fold (textOf message).
  destruct (generateResponse_truthy R chatbot (textOf message))
    as (generated' & Hgenerated' & Htruthy).
  rewrite Hgenerated in Hgenerated'. injection Hgenerated' as <-.
  rewrite Hgenerated, Htruthy. cbn [negb]. rewrite bind_run.
  change (ChatbotProcessor.shouldEscalateToHuman R (textOf message) chatbot)
    with (mentionsEscalation R (textOf message)).
  fold (replyFor R generated (textOf message)).
  rewrite Hout. simpl. split; reflexivity.
Qed.

Lemma findAccount_found (phoneNumberId : string)
  (accounts : list WhatsappAccount.t) (account : WhatsappAccount.t)
  (s : Webhook.Server) :
  find (fun acc => WhatsappAccount.phoneNumberId acc =? phoneNumberId) accounts
  = Some account ->
  Webhook.findAccount (Webhook.MetadataWith (Some phoneNumberId)) accounts s
  = (Returned (Some account), s).
Proof.
  intros Hfound. destruct accounts; [discriminate |].
  unfold Webhook.findAccount, Webhook.retH. now rewrite Hfound.
Qed.

(** The handling of the first text message from a phone, for a system
    account whose owner has an active bot, up to the bot's turn. *)
Lemma handleMessage_reaches_bot
  (R : Runtime) (phoneNumberId : string)
  (message : IncomingWhatsAppMessage.t) (account : WhatsappAccount.t)
  (bot : Chatbot.t) (s : Webhook.Server) :
  let st := store (Webhook.world s) in
  let phone := IncomingWhatsAppMessage.from message in
  let userId := WhatsappAccount.userId account in
  let text := JS.or_string (IncomingWhatsAppMessage.text message) EmptyString in
  let service := WhatsAppService.whatsappService (env R) in
  IncomingWhatsAppMessage.type message = MessageType.text ->
  find (fun acc => WhatsappAccount.phoneNumberId acc =? phoneNumberId)
       (Webhook.getWhatsappAccountsByUser st "system") = Some account ->
  Storage.getWhatsappAccount st (WhatsappAccount.id account) = Some account ->
  Storage.getContactByPhone st phone userId = None ->
  Storage.getContact st (newId R st) = None ->
  unreferenced (newId R st) st = true ->
  find Chatbot.isActive (Webhook.getChatbotsByUser st userId) = Some bot ->
  Storage.getChatbot st (Chatbot.id bot) = Some bot ->
  exists result w1,
    let contact := WhatsAppService.contact result in
    let inboundRow := WhatsAppService.message result in
    let conversation := WhatsAppService.conversation result in
    contact = newContact R st (WhatsappAccount.id account) phone userId
    /\ Storage.contacts (store w1) = (Storage.contacts st ++ [contact])%list
    /\ Storage.conversations (store w1)
       = (Storage.conversations st ++ [conversation])%list
    /\ Storage.messages (store w1)
       = (Storage.messages st ++ [inboundRow])%list
    /\ Storage.botInteractions (store w1) = Storage.botInteractions st
    /\ Message.direction inboundRow = inbound
    /\ Message.content inboundRow = Some text
    /\ textOf inboundRow = text
    /\ requests w1 = requests (Webhook.world s)
    /\ Storage.getChatbot (store w1) (Chatbot.id bot) = Some bot
    /\ Chatbot.isActive bot = true
    /\ Storage.getContact (store w1) (Contact.id contact) = Some contact
    /\ Webhook.handleMessage R (Webhook.MetadataWith (Some phoneNumberId))
         (Some message) s
       = let hub := Routes.broadcastToUser userId
                      (Routes.NewMessage inboundRow (Some contact)
                         (Some conversation))
                      (Webhook.hub s) in
         match ChatbotProcessor.processBotResponse R
                 (ChatbotProcessor.make service) (Chatbot.id bot) contact
                 inboundRow conversation w1 with
         | (Returned _, w3) => (Returned tt, Webhook.mkServer w3 hub)
         | (Thrown e, w3) => (Thrown e, Webhook.mkServer w3 hub)
         end.
Proof.
  intros st phone userId text service Htext Haccount Hkey Hnew Hfresh Hfree
         Hbot Hbotkey.
  destruct (first_inbound_rows R service (WhatsappAccount.id account) message
              account (Webhook.world s) Hkey Hnew Hfree)
    as (result & w1 & Hrun1 & Hcontact & Hcontacts & Hconv & Hconvs & Hmsgs
        & Hcid & Hvid & Hdir & _ & _ & _ & Hcontent & _ & Hbots & Hints & _).
  destruct (processIncomingMessage_text_quiet R service
              (WhatsappAccount.id account) message account (Webhook.world s)
              Hkey Htext) as [Hlog1 _].
  rewrite Hrun1 in Hlog1. cbn [snd] in Hlog1.
  rewrite Htext in Hcontent. fold text in Hcontent.
  assert (Hbots1 : Webhook.getChatbotsByUser (store w1) userId
                   = Webhook.getChatbotsByUser st userId).
  { unfold Webhook.getChatbotsByUser. now rewrite Hbots. }
  exists result, w1. cbv zeta.
  split; [exact Hcontact |]. split; [exact Hcontacts |].
  split; [exact Hconvs |]. split; [exact Hmsgs |]. split; [exact Hints |].
  split; [exact Hdir |]. split; [exact Hcontent |].
  split. { unfold textOf. rewrite Hcontent. apply or_string_some. }
  split; [exact Hlog1 |].
  split. { unfold Storage.getChatbot in *. now rewrite Hbots. }
  split. { apply find_some in Hbot. apply Hbot. }
  split.
  { unfold Storage.getContact in *. rewrite Hcontacts.
    rewrite find_app_last; rewrite Hcontact; cbn [newContact Contact.id].
    - now rewrite String.eqb_refl.
    - exact Hfresh. }
  unfold Webhook.handleMessage. rewrite bindH_lift_query. fold st.
  unfold Webhook.bindH at 1.
  rewrite (findAccount_found _ _ _ _ Haccount).
  fold service. rewrite bindH_lift. cbn [Webhook.processIncoming].
  rewrite Hrun1.
  unfold Webhook.bindH at 1. unfold Webhook.push at 1.
  cbn [Webhook.world Webhook.hub].
  rewrite bindH_lift_query. cbn [Webhook.world]. fold userId.
  rewrite Hbots1, Hbot. rewrite bindH_lift. cbn [Webhook.world Webhook.hub].
  destruct (ChatbotProcessor.processBotResponse R _ _ _ _ _ w1) as [[?|?] ?];
    reflexivity.
Qed.

(** X19. A reply that cannot be sent fails the delivery after the inbound
    message was stored.  For a batch whose first message is a text from a
    phone unknown so far, for a system account whose owner has an active
    bot, when the provider accepts no request (or the credentials are
    missing), the handler answers 500 "Webhook processing failed"; the
    store has gained the contact, one conversation and the inbound row of
    that message, but no reply row and no interaction, and nothing of the
    messages that follow it in the batch. *)
Theorem webhook_stops_at_first_failure
  (R : Runtime) (phoneNumberId : string)
  (message : IncomingWhatsAppMessage.t)
  (rest : list IncomingWhatsAppMessage.t) (account : WhatsappAccount.t)
  (bot : Chatbot.t) (s : Webhook.Server) :
  let st := store (Webhook.world s) in
  let phone := IncomingWhatsAppMessage.from message in
  let userId := WhatsappAccount.userId account in
  let text := JS.or_string (IncomingWhatsAppMessage.text message) EmptyString in
  IncomingWhatsAppMessage.type message = MessageType.text ->
  find (fun acc => WhatsappAccount.phoneNumberId acc =? phoneNumberId)
       (Webhook.getWhatsappAccountsByUser st "system") = Some account ->
  Storage.getWhatsappAccount st (WhatsappAccount.id account) = Some account ->
  Storage.getContactByPhone st phone userId = None ->
  Storage.getContact st (newId R st) = None ->
  unreferenced (newId R st) st = true ->
  find Chatbot.isActive (Webhook.getChatbotsByUser st userId) = Some bot ->
  Storage.getChatbot st (Chatbot.id bot) = Some bot ->
  (forall request,
     accepted (fetch R (requests (Webhook.world s)) request) = false) ->
  exists s' inboundRow,
    Webhook.postWebhook R (batch phoneNumberId (message :: rest)) s
    = (Routes.jsonMessage 500 "Webhook processing failed", s')
    /\ Storage.contacts (store (Webhook.world s'))
       = (Storage.contacts st
          ++ [newContact R st (WhatsappAccount.id account) phone userId])%list
    /\ length (Storage.conversations (store (Webhook.world s')))
       = S (length (Storage.conversations st))
    /\ Storage.messages (store (Webhook.world s'))
       = (Storage.messages st ++ [inboundRow])%list
    /\ Message.direction inboundRow = inbound
    /\ Message.content inboundRow = Some text
    /\ Storage.botInteractions (store (Webhook.world s'))
       = Storage.botInteractions st.
Proof.
  intros st phone userId text Htext Haccount Hkey Hnew Hfresh Hfree Hbot
         Hbotkey Hrefused.
  destruct (handleMessage_reaches_bot R phoneNumberId message account bot s
              Htext Haccount Hkey Hnew Hfresh Hfree Hbot Hbotkey)
    as (result & w1 & Hcontact & Hcontacts & Hconvs & Hmsgs & Hints & Hdir
        & Hcontent & HtextOf & Hlog1 & Hbotkey1 & Hactive & Hstored
        & Hhandled).
  cbv zeta in Hhandled.
  set (service := WhatsAppService.whatsappService (env R)) in *.
  pose proof (processBotResponse_run R (ChatbotProcessor.make service)
                (Chatbot.id bot) (WhatsAppService.contact result)
                (WhatsAppService.message result)
                (WhatsAppService.conversation result) w1) as Hbotrun.
  cbv zeta in Hbotrun. rewrite Hbotkey1, Hactive, HtextOf in Hbotrun.
  destruct Hbotrun as (generated & _ & Hbotrun).
  cbn [ChatbotProcessor.whatsappService] in Hbotrun.
  fold text in Hbotrun, Hcontent.
  set (reply := replyFor R generated text) in *.
  set (w0 := mkWorld (store w1) (requests w1) (S (clockReads w1))) in *.
  pose proof (processOutgoingMessage_run R service
                (Conversation.id (WhatsAppService.conversation result))
                (Contact.id (WhatsAppService.contact result)) reply
                MessageType.text w0) as Hout.
  change (store w0) with (store w1) in Hout. rewrite Hstored in Hout.
  destruct Hout as (sent & w2 & Hsend & Hstore2 & Hout).
  destruct (sendTextMessage_returns R service
              (Contact.phone (WhatsAppService.contact result)) reply w0)
    as (sent' & w2' & Hsend' & _ & _ & _ & Hsuccess & _).
  rewrite Hsend in Hsend'. inversion Hsend'; subst sent' w2'; clear Hsend'.
  change (requests w0) with (requests w1) in Hsuccess.
  rewrite Hlog1, Hrefused, andb_false_r in Hsuccess.
  rewrite Hsuccess in Hout. rewrite Hout in Hbotrun.
  rewrite Hbotrun in Hhandled.
  eexists. exists (WhatsAppService.message result). split.
  { unfold Webhook.postWebhook. rewrite batch_run. cbn [map Webhook.forEach].
    unfold Webhook.bindH. rewrite Hhandled. reflexivity. }
  cbn [Webhook.world]. rewrite Hstore2. change (store w0) with (store w1).
  split. { now rewrite Hcontacts, Hcontact. }
  split. { unfold st. rewrite Hconvs, length_app. cbn. lia. }
  split; [exact Hmsgs |]. split; [exact Hdir |]. split; [exact Hcontent |].
  exact Hints.
Qed.

Lemma webhook_stops_at_first_failure_witness :
  exists s' inboundRow,
    Webhook.postWebhook Deployment.offline
      (batch "15550001"
         [Demo.hello "5551234" "hola"; Demo.hello "5559999" "precio"])
      Deployment.server
    = (Routes.jsonMessage 500 "Webhook processing failed", s')
    /\ Storage.messages (store (Webhook.world s')) = [inboundRow]
    /\ Message.content inboundRow = Some "hola".
Proof.
  destruct (webhook_stops_at_first_failure Deployment.offline "15550001"
              (Demo.hello "5551234" "hola") [Demo.hello "5559999" "precio"]
              Deployment.account Deployment.bot Deployment.server
              eq_refl eq_refl eq_refl eq_refl eq_refl eq_refl eq_refl eq_refl
              (fun _ => eq_refl))
    as (s' & inboundRow & Hreply & _ & _ & Hmessages & _ & Hcontent & _).
  exists s', inboundRow.
  split; [exact Hreply |]. split; [exact Hmessages | exact Hcontent].
Defined.

(** X20. End to end: a webhook delivery carrying one text message from a
    phone unknown so far, for a system account whose owner has an active
    bot, with the provider configured and accepting the reply, answers 200
    OK; the store gains the contact, one conversation, the inbound row and
    after it the bot's reply marked as coming from the bot, and one
    interaction record; exactly one request goes out: a text message
    reading the reply, to the sender's phone. *)
Theorem webhook_first_text_is_stored_and_answered
  (R : Runtime) (phoneNumberId : string)
  (message : IncomingWhatsAppMessage.t) (account : WhatsappAccount.t)
  (bot : Chatbot.t) (generated : string) (s : Webhook.Server) :
  let st := store (Webhook.world s) in
  let phone := IncomingWhatsAppMessage.from message in
  let userId := WhatsappAccount.userId account in
  let text := JS.or_string (IncomingWhatsAppMessage.text message) EmptyString in
  let reply := replyFor R generated text in
  let service := WhatsAppService.whatsappService (env R) in
  IncomingWhatsAppMessage.type message = MessageType.text ->
  find (fun acc => WhatsappAccount.phoneNumberId acc =? phoneNumberId)
       (Webhook.getWhatsappAccountsByUser st "system") = Some account ->
  Storage.getWhatsappAccount st (WhatsappAccount.id account) = Some account ->
  Storage.getContactByPhone st phone userId = None ->
  Storage.getContact st (newId R st) = None ->
  unreferenced (newId R st) st = true ->
  find Chatbot.isActive (Webhook.getChatbotsByUser st userId) = Some bot ->
  Storage.getChatbot st (Chatbot.id bot) = Some bot ->
  ChatbotProcessor.generateResponse R bot text = Some generated ->
  WhatsAppService.validateCredentials service = true ->
  (forall request,
     postsText phone reply request ->
     accepted (fetch R (requests (Webhook.world s)) request) = true) ->
  exists s' earlier botRow interaction request,
    Webhook.postWebhook R (batch phoneNumberId [message]) s
    = (Routes.mkReply 200 (JS.Str "OK"), s')
    /\ Storage.contacts (store (Webhook.world s'))
       = (Storage.contacts st
          ++ [newContact R st (WhatsappAccount.id account) phone userId])%list
    /\ length (Storage.conversations (store (Webhook.world s')))
       = S (length (Storage.conversations st))
    /\ Storage.messages (store (Webhook.world s'))
       = (earlier ++ [botRow])%list
    /\ map Message.content earlier
       = (map Message.content (Storage.messages st) ++ [Some text])%list
    /\ map Message.direction earlier
       = (map Message.direction (Storage.messages st) ++ [inbound])%list
    /\ Message.content botRow = Some reply
    /\ Message.direction botRow = outbound
    /\ Message.isFromBot botRow = true
    /\ Message.contactId botRow = newId R st
    /\ Storage.botInteractions (store (Webhook.world s'))
       = (Storage.botInteractions st ++ [interaction])%list
    /\ BotInteraction.trigger interaction = text
    /\ BotInteraction.response interaction = reply
    /\ BotInteraction.wasEscalated interaction = mentionsEscalation R text
    /\ requests (Webhook.world s')
       = (requests (Webhook.world s) ++ [request])%list
    /\ postsText phone reply request.
Proof.
  intros st phone userId text reply service Htext Haccount Hkey Hnew Hfresh
         Hfree Hbot Hbotkey Hgenerated Hconfigured Haccepted.
  destruct (handleMessage_reaches_bot R phoneNumberId message account bot s
              Htext Haccount Hkey Hnew Hfresh Hfree Hbot Hbotkey)
    as (result & w1 & Hcontact & Hcontacts & Hconvs & Hmsgs & Hints & Hdir
        & Hcontent & HtextOf & Hlog1 & Hbotkey1 & Hactive & Hstored
        & Hhandled).
  cbv zeta in Hhandled. fold service in Hhandled.
  pose proof (processBotResponse_run R (ChatbotProcessor.make service)
                (Chatbot.id bot) (WhatsAppService.contact result)
                (WhatsAppService.message result)
                (WhatsAppService.conversation result) w1) as Hbotrun.
  cbv zeta in Hbotrun. rewrite Hbotkey1, Hactive, HtextOf in Hbotrun.
  destruct Hbotrun as (generated' & Hgenerated' & Hbotrun).
  fold text in Hgenerated'.
  rewrite Hgenerated in Hgenerated'. injection Hgenerated' as <-.
  fold text reply in Hbotrun. cbn [ChatbotProcessor.whatsappService] in Hbotrun.
  destruct (sendTextMessage_returns R service
              (Contact.phone (WhatsAppService.contact result)) reply
              (mkWorld (store w1) (requests w1) (S (clockReads w1))))
    as (sent & w2 & Hsend & Hstore2 & Hclock2 & Hlog2 & Hsuccess & _).
  cbn [store requests clockReads] in Hstore2, Hclock2, Hlog2, Hsuccess.
  assert (Hphone : Contact.phone (WhatsAppService.contact result) = phone).
  { now rewrite Hcontact. }
  rewrite Hphone, Hconfigured, Hlog1 in Hlog2, Hsuccess.
  rewrite (Haccepted _ (messagesRequest_postsText service phone reply))
    in Hsuccess.
  cbn [andb] in Hsuccess.
  pose proof (processOutgoingMessage_world R service
                (Conversation.id (WhatsAppService.conversation result))
                (Contact.id (WhatsAppService.contact result)) reply
                MessageType.text
                (mkWorld (store w1) (requests w1) (S (clockReads w1))) w2
                (WhatsAppService.contact result) sent Hstored Hsend Hsuccess)
    as Hout.
  cbv zeta in Hout. cbn [store requests clockReads] in Hout.
  set (botRow := outboundRow _ _ _ sent MessageType.text reply) in Hout.
  match type of Hout with
  | _ = (_, ?after) =>
      assert (Hafter : requests after = requests w2
                       /\ Storage.messages (store after)
                          = (Storage.messages (store w1) ++ [botRow])%list
                       /\ Storage.contacts (store after)
                          = Storage.contacts (store w1)
                       /\ length (Storage.conversations (store after))
                          = length (Storage.conversations (store w1))
                       /\ Storage.botInteractions (store after)
                          = Storage.botInteractions (store w1));
      [ destruct (Storage.getConversation (store w1) _); cbn;
        rewrite ?length_map; repeat split; reflexivity
      | set (w2' := after) in *; clearbody w2' ]
  end.
  destruct Hafter as (Hlog2' & Hmsgs2 & Hcontacts2 & Hconvs2 & Hints2).
  rewrite Hout in Hbotrun.
  destruct Hbotrun as (w3 & interaction & Hrun3 & Hlog3 & Hmsgs3 & Hints3
                       & Htrigger & Hresponse & Hescalated).
  destruct (processBotResponse_keeps_parties R (ChatbotProcessor.make service)
              (Chatbot.id bot) (WhatsAppService.contact result)
              (WhatsAppService.message result)
              (WhatsAppService.conversation result) bot generated _ _ _
              Hbotkey1 Hactive
              ltac:(rewrite HtextOf; exact Hgenerated)
              ltac:(rewrite HtextOf; exact Hout))
    as [Hcontacts3 Hconvs3].
  rewrite Hrun3 in Hcontacts3, Hconvs3. cbn [snd] in Hcontacts3, Hconvs3.
  rewrite Hrun3 in Hhandled.
  eexists. exists (map (fun m => if Message.id m =? Message.id botRow
                                 then Storage.patchMessage
                                        (Storage.mkMessagePatch (Some true) None) m
                                 else m)
                       (Storage.messages (store w1))).
  exists (Storage.patchMessage (Storage.mkMessagePatch (Some true) None) botRow).
  exists interaction.
  exists (WhatsAppService.messagesRequest service
            (WhatsAppService.textMessage phone reply)).
  split.
  { unfold Webhook.postWebhook. rewrite batch_run. cbn [map Webhook.forEach].
    unfold Webhook.bindH. rewrite Hhandled. reflexivity. }
  cbn [Webhook.world].
  split. { now rewrite Hcontacts3, Hcontacts2, Hcontacts, Hcontact. }
  split. { rewrite Hconvs3, Hconvs2, Hconvs, length_app. cbn. fold st. lia. }
  split. { rewrite Hmsgs3, Hmsgs2, map_app. cbn [map].
           now rewrite String.eqb_refl. }
  split. { rewrite map_mark_content, Hmsgs, map_app. cbn [map].
           now rewrite Hcontent. }
  split. { rewrite map_mark_direction, Hmsgs, map_app. cbn [map].
           now rewrite Hdir. }
  split; [reflexivity |]. split; [reflexivity |]. split; [reflexivity |].
  split. { cbn. now rewrite Hcontact. }
  split. { now rewrite Hints3, Hints2, Hints. }
  split; [exact Htrigger |]. split; [exact Hresponse |].
  split; [exact Hescalated |].
  split; [now rewrite Hlog3, Hlog2', Hlog2 |].
  apply messagesRequest_postsText.
Qed.

Lemma webhook_first_text_is_stored_and_answered_witness :
  exists s',
    Webhook.postWebhook Deployment.runtime
      (batch "15550001" [Demo.hello "5551234" "hola"]) Deployment.server
    = (Routes.mkReply 200 (JS.Str "OK"), s')
    /\ length (requests (Webhook.world s')) = 1
    /\ length (Storage.botInteractions (store (Webhook.world s'))) = 1.
Proof.
  destruct (webhook_first_text_is_stored_and_answered Deployment.runtime
              "15550001" (Demo.hello "5551234" "hola") Deployment.account
              Deployment.bot Deployment.greeting Deployment.server
              eq_refl eq_refl eq_refl eq_refl eq_refl eq_refl eq_refl eq_refl
              eq_refl eq_refl (fun _ _ => eq_refl))
    as (s' & earlier & botRow & interaction & request & Hreply & _ & _ & _ & _
        & _ & _ & _ & _ & _ & Hinteractions & _ & _ & _ & Hrequests & _).
  exists s'. split; [exact Hreply |].
  rewrite Hrequests, Hinteractions. split; reflexivity.
Defined.

(** X21. A refused password login leaves no trace: when no row has the
    email, or the row has no password, or the password does not match,
    [loginWithEmail] returns [null] in an unchanged world (no row is
    stamped, the clock is not read, no token is signed); in every other case
    it returns the row found for the email together with a token. *)
Theorem refused_login_leaves_no_trace
  (R : Runtime) (email password : string) (w : World) :
  if credentialsMatch R (store w) email password
  then exists user t w',
         Auth.loginWithEmail R email password w
         = (Returned (Some (user, t)), w')
         /\ Storage.getUserByEmail (store w) email = Some user
         /\ clockReads w' = S (S (clockReads w))
  else Auth.loginWithEmail R email password w = (Returned None, w).
Proof.
  unfold credentialsMatch.
  destruct (Storage.getUserByEmail (store w) email) as [user|] eqn:Hfound.
  - destruct (User.password user) as [hash|] eqn:Hpassword.
    + destruct (JS.truthy_string hash) eqn:Htruthy; cbn [andb].
      * destruct (bcrypt_compare R password hash) eqn:Hmatch.
        -- do 3 eexists. split; [| split; [reflexivity |]].
           ++ apply (loginWithEmail_success R email password w user hash);
                assumption.
           ++ reflexivity.
        -- unfold Auth.loginWithEmail.
           rewrite bind_query, Hfound, Hpassword, Htruthy. cbn [negb].
           unfold Auth.verifyPassword. rewrite bind_ret, Hmatch. reflexivity.
      * unfold Auth.loginWithEmail.
        rewrite bind_query, Hfound, Hpassword, Htruthy. reflexivity.
    + unfold Auth.loginWithEmail.
      rewrite bind_query, Hfound, Hpassword. reflexivity.
  - unfold Auth.loginWithEmail. rewrite bind_query, Hfound. reflexivity.
Qed.
